(** * OurMoney: shopping list and budget tracker (src/main.py)

    A shallow embedding of the query/command layer and of the request
    handlers of [src/main.py], together with the part of SQLite and of the
    Python built-ins that these functions rely on.

    Modelling conventions.
    - A Python [str] is the [string] of the bytes of its UTF-8 encoding.
      White space is the one of [str.isspace], in one, two or three bytes;
      letter case is modelled on ASCII letters, which is what SQLite folds
      in an identifier and what [str.title] does to an ASCII text.  Digits
      are the ASCII digits: the decimal digits of other scripts, which
      [int()] and [float()] also read, are not modelled.
    - A Python [int] and an SQLite INTEGER are a [Z].  The 64-bit range of
      SQLite integers is modelled where SQLite converts a text or a REAL
      to an INTEGER.  The OverflowError that [sqlite3] raises when it
      binds a Python [int] of 2^63 or more, and the failure of
      AUTOINCREMENT once the largest key is 2^63 - 1, are not modelled:
      C4, X3 and X4 state the bound as a hypothesis.
    - A Python [float] and an SQLite REAL are written as a rational [q],
      which stands for the binary64 number nearest to [q] (module
      [Double]): the infinity when [q] is beyond the range, and NaN never,
      since SQLite stores NaN as NULL.  A float that a handler is given
      is the rational the binary64 number is; a float that is parsed is
      the decimal that was read, or 0 when it is too small to be anything
      else.  The handlers and the constraints test signs and store what
      was parsed, which the rational shows as it is; [round(v, 2)] and
      the conversion of a REAL to an INTEGER work on the binary64 number.
      Where SQLite itself reads a text as a REAL it is taken to round to
      the nearest number; its conversion can be off by one unit in the
      last place for literals of many digits or extreme exponents.  The
      sums and differences of the budget summary are given twice: in
      exact arithmetic ([Main.get_total_cost], [Main.BudgetStatus]), and
      in binary64 arithmetic as the program computes them (module
      [Ieee]).
    - The database is a [Store]: the two tables with their AUTOINCREMENT
      counters.  A statement either yields a new store or raises
      [sqlite3.Error], which leaves the store as it was.
    - A handler returns the store after the request and a [response].
      [update_field] splices its field into the statement: a field that is
      a name, or the assignment of a literal followed by a name, is
      interpreted; for any other text the handler returns [None], and the
      states of the server take in whatever an UPDATE of the list can
      leave. *)

From Stdlib Require Import ZArith QArith Qround Bool List Ascii String Lia Lqa.
From Stdlib Require Import Permutation Sorted SpecFloat.
Import ListNotations.

Local Open Scope string_scope.
Local Open Scope Z_scope.

(** ** Python strings *)

Module PyStr.

Definition code (c : ascii) : Z := Z.of_nat (nat_of_ascii c).

(** White space of one byte, as [str.isspace] has it: TAB, LF, VT, FF,
    CR, FS, GS, RS, US and SPACE. *)
Definition is_space (c : ascii) : bool :=
  let n := code c in
  ((9 <=? n) && (n <=? 13)) || ((28 <=? n) && (n <=? 32)).

(** White space as [int()] and [float()] skip it: they do not take FS,
    GS, RS and US. *)
Definition is_number_space (c : ascii) : bool :=
  let n := code c in
  ((9 <=? n) && (n <=? 13)) || (n =? 32).

(** White space of two bytes: U+0085 and U+00A0. *)
Definition is_space2 (c1 c2 : ascii) : bool :=
  (code c1 =? 194) && ((code c2 =? 133) || (code c2 =? 160)).

(** White space of three bytes: U+1680, U+2000 to U+200A, U+2028, U+2029,
    U+202F, U+205F and U+3000. *)
Definition is_space3 (c1 c2 c3 : ascii) : bool :=
  let n1 := code c1 in
  let n2 := code c2 in
  let n3 := code c3 in
  ((n1 =? 225) && (n2 =? 154) && (n3 =? 128))
  || ((n1 =? 226) && (n2 =? 128)
      && (((128 <=? n3) && (n3 <=? 138)) || (n3 =? 168) || (n3 =? 169)
          || (n3 =? 175)))
  || ((n1 =? 226) && (n2 =? 129) && (n3 =? 159))
  || ((n1 =? 227) && (n2 =? 128) && (n3 =? 128)).

Definition is_upper (c : ascii) : bool := (65 <=? code c) && (code c <=? 90).
Definition is_lower (c : ascii) : bool := (97 <=? code c) && (code c <=? 122).
Definition is_alpha (c : ascii) : bool := is_upper c || is_lower c.
Definition is_digit (c : ascii) : bool := (48 <=? code c) && (code c <=? 57).

Definition to_lower (c : ascii) : ascii :=
  if is_upper c then ascii_of_nat (nat_of_ascii c + 32) else c.
Definition to_upper (c : ascii) : ascii :=
  if is_lower c then ascii_of_nat (nat_of_ascii c - 32) else c.

(** A text whose characters are all ASCII. *)
Fixpoint ascii_only (s : string) : bool :=
  match s with
  | String c s' => (code c <? 128) && ascii_only s'
  | EmptyString => true
  end.

(** Stripping, for a given set [sp] of one-byte white space. *)
Section Strip.

Variable sp : ascii -> bool.

(** The white space at the head is dropped, character by character. *)
Fixpoint lstrip_of (s : string) : string :=
  match s with
  | String c1 s1 =>
      if sp c1 then lstrip_of s1
      else
        match s1 with
        | String c2 s2 =>
            if is_space2 c1 c2 then lstrip_of s2
            else
              match s2 with
              | String c3 s3 => if is_space3 c1 c2 c3 then lstrip_of s3 else s
              | EmptyString => s
              end
        | EmptyString => s
        end
  | EmptyString => EmptyString
  end.

(** A text of white space only. *)
Fixpoint blank_of (s : string) : bool :=
  match s with
  | String c1 s1 =>
      if sp c1 then blank_of s1
      else
        match s1 with
        | String c2 s2 =>
            if is_space2 c1 c2 then blank_of s2
            else
              match s2 with
              | String c3 s3 => is_space3 c1 c2 c3 && blank_of s3
              | EmptyString => false
              end
        | EmptyString => false
        end
  | EmptyString => true
  end.

(** The text is kept up to the point from which only white space
    follows. *)
Fixpoint rstrip_of (s : string) : string :=
  match s with
  | String c s' => if blank_of s then EmptyString else String c (rstrip_of s')
  | EmptyString => EmptyString
  end.

End Strip.

Definition lstrip : string -> string := lstrip_of is_space.
Definition rstrip : string -> string := rstrip_of is_space.
Definition blank : string -> bool := blank_of is_space.

(** [s.strip()] *)
Definition strip (s : string) : string := rstrip (lstrip s).

(** The text of a number without the white space [int()] and [float()]
    allow around it. *)
Definition number_strip (s : string) : string :=
  rstrip_of is_number_space (lstrip_of is_number_space s).

(** [s.replace("$", "")] *)
Fixpoint remove_dollar (s : string) : string :=
  match s with
  | String c s' =>
      if Ascii.eqb c "$" then remove_dollar s' else String c (remove_dollar s')
  | EmptyString => EmptyString
  end.

Fixpoint lower (s : string) : string :=
  match s with
  | String c s' => String (to_lower c) (lower s')
  | EmptyString => EmptyString
  end.

(** [s.title()]: a letter that follows a letter is lowered, any other
    letter is raised. *)
Fixpoint title_from (after_letter : bool) (s : string) : string :=
  match s with
  | String c s' =>
      String (if is_alpha c
              then (if after_letter then to_lower c else to_upper c)
              else c)
             (title_from (is_alpha c) s')
  | EmptyString => EmptyString
  end.

Definition title (s : string) : string := title_from false s.

End PyStr.

(** ** Binary64 numbers

    The floating-point numbers of Python and of SQLite, with the
    Standard Library's [spec_float] at 53 bits of precision. *)

Module Double.

Definition prec : Z := 53.
Definition emax : Z := 1024.

(** The binary64 number nearest to a rational, a tie going to the even
    mantissa: the quotient is taken with 1100 more bits than the smallest
    number has, and rounded with the place of the remainder. *)
Definition of_Q (q : Q) : spec_float :=
  let n := Qnum q in
  let d := Zpos (Qden q) in
  let a := Z.abs n * 2 ^ 1100 in
  let r := a mod d in
  let l := if r =? 0 then loc_Exact else loc_Inexact (2 * r ?= d) in
  binary_round_aux prec emax (n <? 0) (a / d) (-1100) l.

Definition pow2 (e : Z) : Q :=
  if 0 <=? e then inject_Z (2 ^ e) else (1 / inject_Z (2 ^ (- e)))%Q.

(** The rational that stands for the infinity. *)
Definition huge : Q := inject_Z (2 ^ 1024).

(** The rational a binary64 number is; the infinities are [huge] and its
    opposite. *)
Definition to_Q (x : spec_float) : Q :=
  match x with
  | S754_zero _ => 0%Q
  | S754_infinity s => if s then (- huge)%Q else huge
  | S754_nan => 0%Q
  | S754_finite s m e =>
      let v := (inject_Z (Zpos m) * pow2 e)%Q in if s then (- v)%Q else v
  end.

(** The number a rational stands for. *)
Definition value (q : Q) : Q := to_Q (of_Q q).

(** A rational so small that it stands for zero is read as 0. *)
Definition flush (q : Q) : Q :=
  match of_Q q with
  | S754_zero _ => 0%Q
  | _ => q
  end.

Definition add : spec_float -> spec_float -> spec_float := SFadd prec emax.
Definition sub : spec_float -> spec_float -> spec_float := SFsub prec emax.
Definition mul : spec_float -> spec_float -> spec_float := SFmul prec emax.

Definition zero : spec_float := S754_zero false.

Definition is_nan (x : spec_float) : bool :=
  match x with S754_nan => true | _ => false end.

Definition is_zero (x : spec_float) : bool :=
  match x with S754_zero _ => true | _ => false end.

End Double.

(** ** Decimal numerals

    One scanner serves [int()], [float()] and SQLite's reading of text as a
    number.  It reads the longest numeral at the head of the text. *)

Module Numeral.

Import PyStr.

Definition digit_of (c : ascii) : option Z :=
  if is_digit c then Some (code c - 48) else None.

(** The digits that follow a digit.  With [us] set a single underscore
    between two digits is skipped, as Python allows. *)
Fixpoint scan_tail (us : bool) (cs : list ascii) : list Z * list ascii :=
  match cs with
  | c :: cs' =>
      match digit_of c with
      | Some d => let (ds, r) := scan_tail us cs' in (d :: ds, r)
      | None =>
          if us && Ascii.eqb c "_" then
            match cs' with
            | c2 :: cs'' =>
                match digit_of c2 with
                | Some d => let (ds, r) := scan_tail us cs'' in (d :: ds, r)
                | None => ([], cs)
                end
            | [] => ([], cs)
            end
          else ([], cs)
      end
  | [] => ([], [])
  end.

Definition scan_digits (us : bool) (cs : list ascii) : list Z * list ascii :=
  match cs with
  | c :: cs' =>
      match digit_of c with
      | Some d => let (ds, r) := scan_tail us cs' in (d :: ds, r)
      | None => ([], cs)
      end
  | [] => ([], [])
  end.

Definition value_of (ds : list Z) : Z :=
  fold_left (fun acc d => 10 * acc + d) ds 0.

Definition scan_sign (cs : list ascii) : bool * list ascii :=
  match cs with
  | c :: cs' =>
      if Ascii.eqb c "-" then (true, cs')
      else if Ascii.eqb c "+" then (false, cs')
      else (false, cs)
  | [] => (false, [])
  end.

Definition signed (neg : bool) (z : Z) : Z := if neg then - z else z.

(** [pow10 e] is 10 to the power [e], for any integer [e]. *)
Definition pow10 (e : Z) : Q :=
  if 0 <=? e then inject_Z (10 ^ e) else (/ inject_Z (10 ^ (- e)))%Q.

(** The exponent part ["e" [sign] digits]; absent or incomplete, it reads
    nothing. *)
Definition scan_exponent (us : bool) (cs : list ascii) : option Z * list ascii :=
  match cs with
  | c :: cs' =>
      if Ascii.eqb c "e" || Ascii.eqb c "E" then
        let (neg, cs1) := scan_sign cs' in
        match scan_digits us cs1 with
        | ([], _) => (None, cs)
        | (ds, r) => (Some (signed neg (value_of ds)), r)
        end
      else (None, cs)
  | [] => (None, [])
  end.

(** A scanned numeral: its value and the text that follows it. *)
Record scanned := {
  sc_value : Q;
  sc_rest : list ascii
}.

(** [sign] digits ["." digits] [exponent], with a digit on at least one
    side of the point. *)
Definition scan_number (us : bool) (cs : list ascii) : option scanned :=
  let (neg, cs0) := scan_sign cs in
  let (ip, cs1) := scan_digits us cs0 in
  let (fp, cs2) :=
    match cs1 with
    | c :: cs1' =>
        if Ascii.eqb c "." then
          let (fp, r) := scan_digits us cs1' in
          match ip, fp with
          | [], [] => ([], cs1)
          | _, _ => (fp, r)
          end
        else ([], cs1)
    | [] => ([], [])
    end in
  match ip, fp with
  | [], [] => None
  | _, _ =>
      let (ex, cs3) := scan_exponent us cs2 in
      let mant := value_of (ip ++ fp) in
      let scale := (match ex with Some e => e | None => 0 end)
                   - Z.of_nat (List.length fp) in
      let mag := (inject_Z mant * pow10 scale)%Q in
      Some {| sc_value := if neg then (- mag)%Q else mag;
              sc_rest := cs3 |}
  end.

Definition chars (s : string) : list ascii := list_ascii_of_string s.

(** [int(s)]: white space around, a sign, digits; [None] is ValueError. *)
Definition py_int (s : string) : option Z :=
  let (neg, cs) := scan_sign (chars (number_strip s)) in
  match scan_digits true cs with
  | (d :: ds, []) => Some (signed neg (value_of (d :: ds)))
  | _ => None
  end.

(** What [float(s)] gives: a number, NaN, or ValueError.  A sign and
    "inf", "infinity" or "nan" in any letter case are the infinities and
    NaN; a decimal literal is the binary64 number nearest to it. *)
Inductive float_kind :=
| FNumber (q : Q)
| FNaN
| FError.

Definition py_float_kind (s : string) : float_kind :=
  let t := number_strip s in
  let (neg, cs) := scan_sign (chars t) in
  let word := lower (string_of_list_ascii cs) in
  if (word =? "inf")%string || (word =? "infinity")%string then
    FNumber (if neg then (- Double.huge)%Q else Double.huge)
  else if (word =? "nan")%string then FNaN
  else
    match scan_number true (chars t) with
    | Some sc =>
        match sc_rest sc with
        | [] => FNumber (Double.flush (sc_value sc))
        | _ => FError
        end
    | None => FError
    end.

(** [float(s)] when it is a number. *)
Definition py_float (s : string) : option Q :=
  match py_float_kind s with
  | FNumber q => Some q
  | _ => None
  end.

(** SQLite's white space: SPACE, TAB, LF, VT, FF, CR. *)
Definition sql_space (c : ascii) : bool :=
  let n := code c in ((9 <=? n) && (n <=? 13)) || (n =? 32).

Fixpoint skip_spaces (cs : list ascii) : list ascii :=
  match cs with
  | c :: cs' => if sql_space c then skip_spaces cs' else cs
  | [] => []
  end.

(** The numeric value SQLite gives a text in arithmetic: the longest
    numeral at its head, 0 when there is none. *)
Definition sql_prefix_value (s : string) : Q :=
  match scan_number false (skip_spaces (chars s)) with
  | Some sc => Double.flush (sc_value sc)
  | None => 0%Q
  end.

(** The value of a text that is a well-formed numeric literal as a whole
    (white space around it allowed). *)
Definition sql_literal (s : string) : option Q :=
  match scan_number false (skip_spaces (chars s)) with
  | Some sc =>
      match skip_spaces (sc_rest sc) with
      | [] => Some (Double.flush (sc_value sc))
      | _ => None
      end
  | None => None
  end.

(** The 64-bit integers. *)
Definition int64 (n : Z) : bool := (- 2 ^ 63 <=? n) && (n <? 2 ^ 63).

(** The value of a text that is, as a whole, a sign and digits, within
    the 64-bit range: SQLite reads it as that integer. *)
Definition sql_integer (s : string) : option Z :=
  let (neg, cs) := scan_sign (skip_spaces (chars s)) in
  match scan_digits false cs with
  | (d :: ds, rest) =>
      match skip_spaces rest with
      | [] =>
          let n := signed neg (value_of (d :: ds)) in
          if int64 n then Some n else None
      | _ => None
      end
  | _ => None
  end.

End Numeral.

(** ** The embedded store

    The two tables of [setup_database], the conversions SQLite applies
    when a value is stored in a column (type affinity), the constraints of
    the schema, and the statements the program issues. *)

Module Sql.

Import PyStr Numeral.

(** A value held in a column, which is also the Python value [sqlite3]
    hands back for it: NULL/[None], INTEGER/[int], REAL/[float],
    TEXT/[str]. *)
Inductive value :=
| VNull
| VInt (n : Z)
| VReal (q : Q)
| VText (s : string).

Inductive sqlite_error :=
| OperationalError   (* no such column, syntax error *)
| IntegrityError.    (* NOT NULL, CHECK, UNIQUE, datatype mismatch *)

(** The outcome of a statement.  [Unmodelled] marks SQL that this model
    does not interpret. *)
Inductive outcome (A : Type) :=
| Ok (a : A)
| SqliteError (e : sqlite_error)
| Unmodelled.

Arguments Ok {A} a.
Arguments SqliteError {A} e.
Arguments Unmodelled {A}.

Definition bind {A B : Type} (m : outcome A) (k : A -> outcome B) : outcome B :=
  match m with
  | Ok a => k a
  | SqliteError e => SqliteError e
  | Unmodelled => Unmodelled
  end.

Local Notation "x <- m ;; k" := (bind m (fun x => k))
  (at level 61, m at next level, right associativity).

(** *** Type affinity *)

Definition is_integral (q : Q) : bool := Qeq_bool q (inject_Z (Qfloor q)).

(** A REAL becomes an INTEGER when the binary64 number is an integer
    strictly between -2^63 and 2^63. *)
Definition real_to_integer (q : Q) : value :=
  let d := Double.value q in
  if is_integral d && Qle_bool d (inject_Z (2 ^ 63 - 1))
     && Qle_bool (inject_Z (- 2 ^ 63 + 1)) d
  then VInt (Qfloor d) else VReal q.

(** INTEGER affinity: a text that is an integer literal becomes that
    integer, a text that is another numeric literal becomes a REAL and
    then an INTEGER where it can, any other text stays. *)
Definition integer_affinity (v : value) : value :=
  match v with
  | VText s =>
      match sql_integer s with
      | Some n => VInt n
      | None =>
          match sql_literal s with
          | Some q => real_to_integer q
          | None => v
          end
      end
  | VReal q => real_to_integer q
  | _ => v
  end.

(** REAL affinity: as above, with every number forced to REAL. *)
Definition real_affinity (v : value) : value :=
  match v with
  | VText s =>
      match sql_literal s with
      | Some q => VReal q
      | None => v
      end
  | VInt n => VReal (inject_Z n)
  | _ => v
  end.

(** *** Expressions *)

(** The number a value stands for in arithmetic and in a truth test. *)
Definition numeric (v : value) : option Q :=
  match v with
  | VNull => None
  | VInt n => Some (inject_Z n)
  | VReal q => Some q
  | VText s => Some (sql_prefix_value s)
  end.

(** [a * b] *)
Definition sql_mul (a b : value) : option Q :=
  match numeric a, numeric b with
  | Some x, Some y => Some (x * y)%Q
  | _, _ => None
  end.

(** [NOT a] *)
Definition sql_not (a : value) : value :=
  match numeric a with
  | Some x => VInt (if Qeq_bool x 0 then 1 else 0)
  | None => VNull
  end.

(** [a >= 0] as a CHECK constraint reads it: NULL passes, a number is
    compared, and a text is greater than every number. *)
Definition check_ge0 (a : value) : bool :=
  match a with
  | VNull => true
  | VInt n => 0 <=? n
  | VReal q => Qle_bool 0 q
  | VText _ => true
  end.

Definition not_null (a : value) : bool :=
  match a with VNull => false | _ => true end.

(** The order of ORDER BY: NULL, then numbers by value, then texts by
    bytes. *)
Definition sql_compare (a b : value) : comparison :=
  match a, b with
  | VNull, VNull => Eq
  | VNull, _ => Lt
  | _, VNull => Gt
  | VText s, VText t => String.compare s t
  | VText _, _ => Gt
  | _, VText _ => Lt
  | VInt m, VInt n => m ?= n
  | VInt m, VReal q => (inject_Z m ?= q)%Q
  | VReal p, VInt n => (p ?= inject_Z n)%Q
  | VReal p, VReal q => (p ?= q)%Q
  end.

(** SUM(...) over the rows: NULL operands are skipped, and the sum of no
    operand is NULL. *)
Fixpoint sql_sum (xs : list (option Q)) : option Q :=
  match xs with
  | [] => None
  | None :: xs' => sql_sum xs'
  | Some x :: xs' =>
      match sql_sum xs' with
      | Some t => Some (x + t)%Q
      | None => Some x
      end
  end.

(** *** Tables *)

(** [shopping_list]: the TEXT NOT NULL columns hold a text, [notes] a text
    or NULL; [quantity], [cost] and [found] hold whatever their affinity
    and constraints let through. *)
Record Row := {
  id : Z;
  category : string;
  item : string;
  quantity : value;
  cost : value;
  notes : option string;
  found : value;
  store : string
}.

(** [budget] *)
Record BudgetRecord := {
  budget_id : Z;
  amount : Q
}.

(** The database file: both tables, each with the largest key its
    AUTOINCREMENT has handed out ([sqlite_sequence]). *)
Record Store := {
  shopping_list : list Row;
  shopping_seq : Z;
  budget : list BudgetRecord;
  budget_seq : Z
}.

Inductive column :=
| Cid | Ccategory | Citem | Cquantity | Ccost | Cnotes | Cfound | Cstore.

Definition set_column_id (n : Z) (r : Row) : Row :=
  {| id := n; category := category r; item := item r; quantity := quantity r;
     cost := cost r; notes := notes r; found := found r; store := store r |}.
Definition set_category (s : string) (r : Row) : Row :=
  {| id := id r; category := s; item := item r; quantity := quantity r;
     cost := cost r; notes := notes r; found := found r; store := store r |}.
Definition set_item (s : string) (r : Row) : Row :=
  {| id := id r; category := category r; item := s; quantity := quantity r;
     cost := cost r; notes := notes r; found := found r; store := store r |}.
Definition set_quantity (v : value) (r : Row) : Row :=
  {| id := id r; category := category r; item := item r; quantity := v;
     cost := cost r; notes := notes r; found := found r; store := store r |}.
Definition set_cost (v : value) (r : Row) : Row :=
  {| id := id r; category := category r; item := item r; quantity := quantity r;
     cost := v; notes := notes r; found := found r; store := store r |}.
Definition set_notes (s : option string) (r : Row) : Row :=
  {| id := id r; category := category r; item := item r; quantity := quantity r;
     cost := cost r; notes := s; found := found r; store := store r |}.
Definition set_found (v : value) (r : Row) : Row :=
  {| id := id r; category := category r; item := item r; quantity := quantity r;
     cost := cost r; notes := notes r; found := v; store := store r |}.
Definition set_store (s : string) (r : Row) : Row :=
  {| id := id r; category := category r; item := item r; quantity := quantity r;
     cost := cost r; notes := notes r; found := found r; store := s |}.

(** *** What a column accepts *)

(** [TEXT NOT NULL].  A number bound to a TEXT column would be stored as
    its decimal text, which is not modelled; the program binds strings. *)
Definition text_not_null (v : value) : outcome string :=
  match v with
  | VText s => Ok s
  | VNull => SqliteError IntegrityError
  | _ => Unmodelled
  end.

(** [TEXT] *)
Definition text_nullable (v : value) : outcome (option string) :=
  match v with
  | VText s => Ok (Some s)
  | VNull => Ok None
  | _ => Unmodelled
  end.

(** [INTEGER NOT NULL CHECK (quantity >= 0)] *)
Definition quantity_column (v : value) : outcome value :=
  let v' := integer_affinity v in
  if not_null v' && check_ge0 v' then Ok v' else SqliteError IntegrityError.

(** [REAL NOT NULL CHECK (cost >= 0)] *)
Definition cost_column (v : value) : outcome value :=
  let v' := real_affinity v in
  if not_null v' && check_ge0 v' then Ok v' else SqliteError IntegrityError.

(** [INTEGER DEFAULT 0] *)
Definition found_column (v : value) : outcome value := Ok (integer_affinity v).

(** [INTEGER PRIMARY KEY]: the key must be an integer, or convert to one
    without loss (datatype mismatch otherwise). *)
Definition key_column (v : value) : outcome Z :=
  match integer_affinity v with
  | VInt n => Ok n
  | VNull => Unmodelled
  | _ => SqliteError IntegrityError
  end.

(** *** Naming a column

    SQLite folds the ASCII case of an identifier, and [rowid], [oid] and
    [_rowid_] name the INTEGER PRIMARY KEY. *)
Definition column_of_name (f : string) : option column :=
  let l := lower f in
  if (l =? "id")%string || (l =? "rowid")%string || (l =? "oid")%string
     || (l =? "_rowid_")%string then Some Cid
  else if (l =? "category")%string then Some Ccategory
  else if (l =? "item")%string then Some Citem
  else if (l =? "quantity")%string then Some Cquantity
  else if (l =? "cost")%string then Some Ccost
  else if (l =? "notes")%string then Some Cnotes
  else if (l =? "found")%string then Some Cfound
  else if (l =? "store")%string then Some Cstore
  else None.

Definition ident_start (c : ascii) : bool := is_alpha c || Ascii.eqb c "_".
Definition ident_char (c : ascii) : bool := ident_start c || is_digit c.

(** A bare identifier: a letter or underscore, then letters, digits and
    underscores. *)
Definition is_identifier (f : string) : bool :=
  match chars f with
  | c :: cs => ident_start c && forallb ident_char cs
  | [] => false
  end.

(** What the text spliced after SET denotes.  A bare identifier is a
    column or makes the statement fail; any other text is SQL that the
    model leaves alone. *)
Definition resolve (f : string) : outcome column :=
  if is_identifier f then
    match column_of_name f with
    | Some c => Ok c
    | None => SqliteError OperationalError
    end
  else Unmodelled.

(** *** Statements *)

Fixpoint max_key (ks : list Z) : Z :=
  match ks with
  | [] => 0
  | k :: ks' => Z.max k (max_key ks')
  end.

(** The key AUTOINCREMENT gives the next row. *)
Definition next_key (seq : Z) (ks : list Z) : Z := Z.max seq (max_key ks) + 1.

(** [INSERT INTO shopping_list (category, item, quantity, cost, notes,
    found, store) VALUES (?, ?, ?, ?, ?, ?, ?)].  The statement of
    [add_item] names no [found], which then takes its DEFAULT 0. *)
Definition insert_item (c i : string) (q k : value) (n : option string)
    (f : value) (s : string) (st : Store) : outcome Store :=
  q' <- quantity_column q ;;
  k' <- cost_column k ;;
  f' <- found_column f ;;
  let key := next_key (shopping_seq st) (map id (shopping_list st)) in
  Ok {| shopping_list := shopping_list st ++
          [{| id := key; category := c; item := i; quantity := q'; cost := k';
              notes := n; found := f'; store := s |}];
        shopping_seq := key;
        budget := budget st;
        budget_seq := budget_seq st |}.

(** [INSERT INTO budget (amount) VALUES (?)], with a float bound. *)
Definition insert_budget (a : Q) (st : Store) : outcome Store :=
  if Qle_bool 0 a then
    let key := next_key (budget_seq st) (map budget_id (budget st)) in
    Ok {| shopping_list := shopping_list st;
          shopping_seq := shopping_seq st;
          budget := budget st ++ [{| budget_id := key; amount := a |}];
          budget_seq := key |}
  else SqliteError IntegrityError.

(** The row after [SET col = v]. *)
Definition assign (c : column) (v : value) (r : Row) : outcome Row :=
  match c with
  | Cid => n <- key_column v ;; Ok (set_column_id n r)
  | Ccategory => s <- text_not_null v ;; Ok (set_category s r)
  | Citem => s <- text_not_null v ;; Ok (set_item s r)
  | Cquantity => q <- quantity_column v ;; Ok (set_quantity q r)
  | Ccost => k <- cost_column v ;; Ok (set_cost k r)
  | Cnotes => s <- text_nullable v ;; Ok (set_notes s r)
  | Cfound => f <- found_column v ;; Ok (set_found f r)
  | Cstore => s <- text_not_null v ;; Ok (set_store s r)
  end.

(** The rows after the assignment is applied where [id = key]; the first
    failure fails the statement. *)
Fixpoint assign_where (c : column) (v : value) (key : Z) (rows : list Row)
    : outcome (list Row) :=
  match rows with
  | [] => Ok []
  | r :: rows' =>
      r' <- (if id r =? key then assign c v r else Ok r) ;;
      rest <- assign_where c v key rows' ;;
      Ok (r' :: rest)
  end.

Fixpoint distinct (ks : list Z) : bool :=
  match ks with
  | [] => true
  | k :: ks' => negb (existsb (Z.eqb k) ks') && distinct ks'
  end.

Definition with_rows (rows : list Row) (st : Store) : Store :=
  {| shopping_list := rows;
     shopping_seq := shopping_seq st;
     budget := budget st;
     budget_seq := budget_seq st |}.

(** The text spliced after SET may be more than a name.  One more shape
    is read: the assignment of a string literal to a column, a comma,
    and the name of the column that takes the bound value, with white
    space between the tokens, as in [notes = '', item].  The literal holds
    no quote and no NUL, which [sqlite3] refuses in a statement. *)

(** White space between two tokens begins with SPACE, TAB, LF, FF or CR
    and goes on with these and VT. *)
Definition token_space (c : ascii) : bool :=
  let n := code c in
  (n =? 9) || (n =? 10) || (n =? 12) || (n =? 13) || (n =? 32).

Definition skip_run (cs : list ascii) : list ascii :=
  match cs with
  | c :: cs' => if token_space c then skip_spaces cs' else cs
  | [] => []
  end.

Fixpoint take_identifier (cs : list ascii) : list ascii * list ascii :=
  match cs with
  | c :: cs' =>
      if ident_char c then let (n, r) := take_identifier cs' in (c :: n, r)
      else ([], cs)
  | [] => ([], [])
  end.

Fixpoint take_literal (cs : list ascii) : option (list ascii * list ascii) :=
  match cs with
  | c :: cs' =>
      if Ascii.eqb c "'" then Some ([], cs')
      else if code c =? 0 then None
      else
        match take_literal cs' with
        | Some (l, r) => Some (c :: l, r)
        | None => None
        end
  | [] => None
  end.

Definition expect (c : ascii) (cs : list ascii) : option (list ascii) :=
  match cs with
  | c' :: cs' => if Ascii.eqb c' c then Some cs' else None
  | [] => None
  end.

(** The two names and the literal of [name1 = 'literal', name2].  The
    field follows the space after SET, so that white space at its head is
    inside a run of white space. *)
Definition literal_assignment (f : string) : option (string * string * string) :=
  let (n1, r1) := take_identifier (skip_spaces (chars f)) in
  match expect "=" (skip_run r1) with
  | Some r2 =>
      match expect "'" (skip_run r2) with
      | Some r3 =>
          match take_literal r3 with
          | Some (l, r4) =>
              match expect "," (skip_run r4) with
              | Some r5 =>
                  let (n2, r6) := take_identifier (skip_run r5) in
                  match skip_run r6 with
                  | [] =>
                      let name1 := string_of_list_ascii n1 in
                      let name2 := string_of_list_ascii n2 in
                      if is_identifier name1 && is_identifier name2
                      then Some (name1, string_of_list_ascii l, name2)
                      else None
                  | _ => None
                  end
              | None => None
              end
          | None => None
          end
      | None => None
      end
  | None => None
  end.

Definition is_key (c : column) : bool :=
  match c with Cid => true | _ => false end.

Definition same_column (c1 c2 : column) : bool :=
  match c1, c2 with
  | Cid, Cid | Ccategory, Ccategory | Citem, Citem | Cquantity, Cquantity
  | Ccost, Ccost | Cnotes, Cnotes | Cfound, Cfound | Cstore, Cstore => true
  | _, _ => false
  end.

(** The row after [SET c1 = l, c2 = v]: of two assignments to one
    column the right one counts. *)
Definition assign_both (c1 : column) (l : value) (c2 : column) (v : value)
    (r : Row) : outcome Row :=
  if same_column c1 c2 then assign c2 v r
  else (r1 <- assign c1 l r ;; assign c2 v r1).

Fixpoint assign_both_where (c1 : column) (l : value) (c2 : column) (v : value)
    (key : Z) (rows : list Row) : outcome (list Row) :=
  match rows with
  | [] => Ok []
  | r :: rows' =>
      r' <- (if id r =? key then assign_both c1 l c2 v r else Ok r) ;;
      rest <- assign_both_where c1 l c2 v key rows' ;;
      Ok (r' :: rest)
  end.

(** [UPDATE shopping_list SET {name1} = '{literal}', {name2} = ? WHERE
    id = ?] *)
Definition update_spliced (field : string) (v : value) (key : Z) (st : Store)
    : outcome Store :=
  match literal_assignment field with
  | Some (name1, l, name2) =>
      match column_of_name name1, column_of_name name2 with
      | Some c1, Some c2 =>
          rows <- assign_both_where c1 (VText l) c2 v key (shopping_list st) ;;
          if is_key c1 || is_key c2 then
            if distinct (map id rows) then Ok (with_rows rows st)
            else SqliteError IntegrityError
          else Ok (with_rows rows st)
      | _, _ => SqliteError OperationalError
      end
  | None => Unmodelled
  end.

(** [UPDATE shopping_list SET {field} = ? WHERE id = ?].  A new primary
    key must leave the keys unique, or the statement fails. *)
Definition update_set (field : string) (v : value) (key : Z) (st : Store)
    : outcome Store :=
  match resolve field with
  | Unmodelled => update_spliced field v key st
  | named =>
      c <- named ;;
      rows <- assign_where c v key (shopping_list st) ;;
      match c with
      | Cid =>
          if distinct (map id rows) then Ok (with_rows rows st)
          else SqliteError IntegrityError
      | _ => Ok (with_rows rows st)
      end
  end.

(** The constraints of [shopping_list] that a list of rows of this model
    can break: the key is unique, and [quantity] and [cost] are not NULL
    and pass their CHECK. *)
Definition row_constraints (r : Row) : bool :=
  not_null (quantity r) && check_ge0 (quantity r)
  && not_null (cost r) && check_ge0 (cost r).

Definition table_constraints (rows : list Row) : bool :=
  distinct (map id rows) && forallb row_constraints rows.

(** [UPDATE shopping_list SET found = NOT found WHERE id = ?] *)
Definition update_not_found (key : Z) (st : Store) : Store :=
  with_rows
    (map (fun r => if id r =? key
                   then set_found (integer_affinity (sql_not (found r))) r
                   else r)
         (shopping_list st))
    st.

(** [DELETE FROM shopping_list WHERE id = ?] *)
Definition delete_where (key : Z) (st : Store) : Store :=
  with_rows (filter (fun r => negb (id r =? key)) (shopping_list st)) st.

(** [DELETE FROM shopping_list] *)
Definition delete_all (st : Store) : Store := with_rows [] st.

End Sql.

(** ** Python values in the presentation layer *)

Module Py.

Import Sql.

Inductive exn := TypeError | ValueError | ValidationError.

(** A computation that returns or raises. *)
Inductive result (A : Type) :=
| Return (a : A)
| Raise (e : exn).

Arguments Return {A} a.
Arguments Raise {A} e.

Definition bind {A B : Type} (m : result A) (k : A -> result B) : result B :=
  match m with
  | Return a => k a
  | Raise e => Raise e
  end.

Local Notation "x <- m ;; k" := (bind m (fun x => k))
  (at level 61, m at next level, right associativity).

(** [a == b] *)
Definition py_eq (a b : value) : bool :=
  match a, b with
  | VNull, VNull => true
  | VInt m, VInt n => m =? n
  | VInt m, VReal q => Qeq_bool (inject_Z m) q
  | VReal p, VInt n => Qeq_bool p (inject_Z n)
  | VReal p, VReal q => Qeq_bool p q
  | VText s, VText t => (s =? t)%string
  | _, _ => false
  end.

(** [a < b]: numbers compare with numbers and strings with strings;
    anything else is a TypeError. *)
Definition py_lt (a b : value) : result bool :=
  match a, b with
  | VInt m, VInt n => Return (m <? n)
  | VInt m, VReal q => Return (negb (Qle_bool q (inject_Z m)))
  | VReal p, VInt n => Return (negb (Qle_bool (inject_Z n) p))
  | VReal p, VReal q => Return (negb (Qle_bool q p))
  | VText s, VText t => Return (String.ltb s t)
  | _, _ => Raise TypeError
  end.

(** [bool(a)] *)
Definition truthy (a : value) : bool :=
  match a with
  | VNull => false
  | VInt n => negb (n =? 0)
  | VReal q => negb (Qeq_bool q 0)
  | VText s => negb (s =? "")%string
  end.

(** [sorted(l)] with [<] given by [lt]: a stable sort, which compares with
    [<] only.  An element goes before the first one that is not below it. *)
Fixpoint insert {A : Type} (lt : A -> A -> result bool) (x : A) (l : list A)
    : result (list A) :=
  match l with
  | [] => Return [x]
  | y :: l' =>
      b <- lt y x ;;
      if b then (r <- insert lt x l' ;; Return (y :: r)) else Return (x :: l)
  end.

Fixpoint sorted {A : Type} (lt : A -> A -> result bool) (l : list A)
    : result (list A) :=
  match l with
  | [] => Return []
  | x :: l' => s <- sorted lt l' ;; insert lt x s
  end.

(** Rounding to the nearest integer, a tie going to the even one. *)
Definition round_half_even (q : Q) : Z :=
  let f := Qfloor q in
  match (q - inject_Z f ?= 1 # 2)%Q with
  | Lt => f
  | Gt => f + 1
  | Eq => if Z.even f then f else f + 1
  end.

(** [round(v, 2)]: the binary64 number is rounded, on its exact value, to
    the nearest hundredth, a tie going to the even one; the result stands
    for the binary64 number nearest to it.  An infinity is left as it
    is. *)
Definition round2 (v : Q) : Q :=
  match Double.of_Q v with
  | S754_infinity _ => v
  | d => (inject_Z (round_half_even (Double.to_Q d * 100)) / 100)%Q
  end.

End Py.

(** ** The program *)

(** [class ShoppingItem(BaseModel)]: the fields [add_item] reads.  The
    form arrives with its numbers already converted. *)
Module ShoppingItem.

Record t := {
  category : string;
  item : string;
  quantity : Z;
  cost : Q;
  notes : option string;
  store : string
}.

(** [validate_cost] *)
Definition validate_cost (v : Q) : Q := Py.round2 v.

(** Building the model: [Field(ge=0)] on [quantity] and [cost], then the
    field validator.  [None] is pydantic's ValidationError. *)
Definition validate (raw : t) : option t :=
  if (0 <=? quantity raw) && Qle_bool 0 (cost raw) then
    Some {| category := category raw; item := item raw;
            quantity := quantity raw; cost := validate_cost (cost raw);
            notes := notes raw; store := store raw |}
  else None.

End ShoppingItem.

(** [class BudgetUpdate(BaseModel)]; no handler builds it. *)
Module BudgetUpdate.

Record t := { amount : Q }.

(** [validate_amount] *)
Definition validate_amount (v : Q) : Q := Py.round2 v.

Definition validate (raw : t) : option t :=
  if Qle_bool 0 (amount raw) then Some {| amount := validate_amount (amount raw) |}
  else None.

End BudgetUpdate.

Module Main.

Import PyStr Numeral Sql Py.

Local Notation "x <- m ;; k" := (Py.bind m (fun x => k))
  (at level 61, m at next level, right associativity).

(** *** [setup_database] *)
Definition setup_database : Store :=
  {| shopping_list := []; shopping_seq := 0;
     budget := [{| budget_id := 1; amount := 1000 |}]; budget_seq := 1 |}.

(** *** Queries *)

(** ORDER BY as a sort of the rows by a total order [leb]. *)
Fixpoint place {A : Type} (leb : A -> A -> bool) (x : A) (l : list A) : list A :=
  match l with
  | [] => [x]
  | y :: l' => if leb x y then x :: l else y :: place leb x l'
  end.

Definition order_by {A : Type} (leb : A -> A -> bool) (l : list A) : list A :=
  fold_right (place leb) [] l.

(** [get_budget]: [SELECT amount FROM budget ORDER BY id DESC LIMIT 1]. *)
Definition get_budget (st : Store) : Q :=
  match order_by (fun a b => budget_id b <=? budget_id a) (budget st) with
  | result :: _ => amount result
  | [] => 0
  end.

(** [get_total_cost]: [SELECT SUM(cost * quantity) as total FROM
    shopping_list]; a total that is NULL or zero reads as 0.0. *)
Definition get_total_cost (st : Store) : Q :=
  match sql_sum (map (fun r => sql_mul (cost r) (quantity r)) (shopping_list st)) with
  | Some total => if Qeq_bool total 0 then 0 else total
  | None => 0
  end.

(** [ORDER BY found ASC, category ASC, id DESC] *)
Definition list_order (a b : Row) : comparison :=
  match sql_compare (found a) (found b) with
  | Eq =>
      match String.compare (category a) (category b) with
      | Eq => id b ?= id a
      | c => c
      end
  | c => c
  end.

Definition list_leb (a b : Row) : bool :=
  match list_order a b with Gt => false | _ => true end.

(** The dict of [fetch_shopping_list], in insertion order. *)
Definition categories := list (string * list Row).

(** [if k not in categories: categories[k] = []] and
    [categories[k].append(item)] *)
Fixpoint append_to (k : string) (r : Row) (cats : categories) : categories :=
  match cats with
  | [] => [(k, [r])]
  | (k', rs) :: cats' =>
      if (k' =? k)%string then (k', (rs ++ [r])%list) :: cats'
      else (k', rs) :: append_to k r cats'
  end.

Definition group_rows (items : list Row) : categories :=
  fold_left (fun cats r => append_to (category r) r cats) items [].

(** [fetch_shopping_list] *)
Definition fetch_shopping_list (st : Store) : categories :=
  group_rows (order_by list_leb (shopping_list st)).

(** *** Components *)

(** One card of the list: the item it shows and whether its checkbox is
    checked. *)
Record Card := {
  card_item : Row;
  checked : bool
}.

Inductive table :=
| EmptyState                                          (* "No items yet!" *)
| ShoppingList (sections : list (string * list Card)).

(** The key of [sorted(items, key=lambda x: (x['found'], -x['id']))] and
    the comparison of two such tuples. *)
Definition item_lt (a b : Row) : result bool :=
  if py_eq (found a) (found b) then Return (- id a <? - id b)
  else py_lt (found a) (found b).

(** [sorted(categories.items())]: the keys of a dict differ, so the order
    of two entries is the order of their keys. *)
Definition entry_lt (a b : string * list Row) : result bool :=
  Return (String.ltb (fst a) (fst b)).

(** A card formats the cost with [:.2f], which a number accepts. *)
Definition card (r : Row) : result Card :=
  match cost r with
  | VInt _ | VReal _ => Return {| card_item := r; checked := truthy (found r) |}
  | VText _ => Raise ValueError
  | VNull => Raise TypeError
  end.

Fixpoint cards (rs : list Row) : result (list Card) :=
  match rs with
  | [] => Return []
  | r :: rs' => c <- card r ;; cs <- cards rs' ;; Return (c :: cs)
  end.

Fixpoint sections (cats : categories) : result (list (string * list Card)) :=
  match cats with
  | [] => Return []
  | (category, items) :: cats' =>
      sorted_items <- sorted item_lt items ;;
      category_items <- cards sorted_items ;;
      rest <- sections cats' ;;
      Return ((category, category_items) :: rest)
  end.

(** [ShoppingTable] *)
Definition ShoppingTable (cats : categories) : result table :=
  match cats with
  | [] => Return EmptyState
  | _ =>
      entries <- sorted entry_lt cats ;;
      mobile_cards <- sections entries ;;
      Return (ShoppingList mobile_cards)
  end.

(** [ShoppingContainer] wraps the table. *)
Definition ShoppingContainer (cats : categories) : result table :=
  ShoppingTable cats.

(** [BudgetStatus]: the three amounts shown and the class of the last. *)
Record BudgetView := {
  total_budget : Q;
  total_cost : Q;
  remaining : Q;
  status : string
}.

Definition BudgetStatus (st : Store) : BudgetView :=
  let budget := get_budget st in
  let total_cost := get_total_cost st in
  let remaining := (budget - total_cost)%Q in
  let status := if Qle_bool 0 remaining then "success" else "error" in
  {| total_budget := budget; total_cost := total_cost;
     remaining := remaining; status := status |}.

(** *** Request handlers *)

Inductive response :=
| Container (t : table)                        (* the shopping container *)
| ContainerAndModal (t : table)                (* and the emptied modal *)
| ContentContainer (b : BudgetView) (t : table)  (* the whole content *)
| ErrorMessage (msg : string)                  (* [Div(msg, cls="error-message")] *)
| Raises (e : exn).                            (* no handler caught it *)

(** [return ShoppingContainer(fetch_shopping_list())] *)
Definition shopping_container (st : Store) : response :=
  match ShoppingContainer (fetch_shopping_list st) with
  | Return t => Container t
  | Raise e => Raises e
  end.

(** [add_item], the handler of POST /add_item. *)
Definition add_item (raw : ShoppingItem.t) (st : Store) : Store * response :=
  match ShoppingItem.validate raw with
  | None => (st, Raises ValidationError)
  | Some item =>
      match insert_item (ShoppingItem.category item) (ShoppingItem.item item)
              (VInt (ShoppingItem.quantity item)) (VReal (ShoppingItem.cost item))
              (ShoppingItem.notes item) (VInt 0) (ShoppingItem.store item) st with
      | Ok st' =>
          (st', match ShoppingContainer (fetch_shopping_list st') with
                | Return t => ContainerAndModal t
                | Raise e => Raises e
                end)
      | _ => (st, ErrorMessage "Failed to add item")
      end
  end.

(** [update_budget_inline], the handler of POST /update/budget/amount.
    Its [except ValueError] also catches a ValueError of the rendering. *)
Definition update_budget_inline (value : string) (st : Store) : Store * response :=
  match py_float_kind (strip (remove_dollar value)) with
  | FError => (st, ErrorMessage "Invalid budget amount. Please enter a valid number.")
  | FNaN =>
      (* NaN is below nothing, and is bound as NULL: NOT NULL fails *)
      (st, ErrorMessage "Failed to update the budget due to a database error.")
  | FNumber budget =>
      if negb (Qle_bool 0 budget) then (st, ErrorMessage "Budget cannot be negative")
      else
        match insert_budget budget st with
        | Ok st' =>
            (st', match ShoppingContainer (fetch_shopping_list st') with
                  | Return t => ContentContainer (BudgetStatus st') t
                  | Raise ValueError =>
                      ErrorMessage "Invalid budget amount. Please enter a valid number."
                  | Raise e => Raises e
                  end)
        | _ => (st, ErrorMessage "Failed to update the budget due to a database error.")
        end
  end.

(** [update_budget], the handler of POST /set_budget. *)
Definition update_budget (budget : Q) (st : Store) : Store * response :=
  if negb (Qle_bool 0 budget) then (st, ErrorMessage "Budget cannot be negative")
  else
    match insert_budget budget st with
    | Ok st' => (st', shopping_container st')
    | _ => (st, ErrorMessage "Failed to update budget")
    end.

(** [toggle_found] *)
Definition toggle_found (item_id : Z) (st : Store) : Store * response :=
  let st' := update_not_found item_id st in (st', shopping_container st').

(** [remove_item] *)
Definition remove_item (item_id : Z) (st : Store) : Store * response :=
  let st' := delete_where item_id st in (st', shopping_container st').

(** The value [update_field] binds after its validation, or the message of
    the error fragment it returns. *)
Definition validate_field (field value : string) : string + Sql.value :=
  if (strip value =? "")%string
  then inl (title field ++ " cannot be empty")%string
  else if (field =? "quantity")%string || (field =? "cost")%string then
    if (field =? "cost")%string then
      match py_float_kind (strip (remove_dollar value)) with
      | FNumber value' =>
          if negb (Qle_bool 0 value')
          then inl (title field ++ " cannot be negative")%string
          else inr (VReal value')
      | FNaN => inr VNull   (* NaN is below nothing, and is bound as NULL *)
      | FError => inl ("Invalid " ++ field ++ " format")%string
      end
    else
      match py_int value with
      | Some value' =>
          if value' <? 0
          then inl (title field ++ " cannot be negative")%string
          else inr (VInt value')
      | None => inl ("Invalid " ++ field ++ " format")%string
      end
  else inr (VText value).

(** [update_field], the handler of POST /update/{item_id}/{field}.
    [None]: the field is SQL text that the model does not interpret. *)
Definition update_field (item_id : Z) (field value : string) (st : Store)
    : option (Store * response) :=
  match validate_field field value with
  | inl msg => Some (st, ErrorMessage msg)
  | inr v =>
      match update_set field v item_id st with
      | Ok st' => Some (st', shopping_container st')
      | SqliteError _ => Some (st, ErrorMessage "Failed to update value")
      | Unmodelled => None
      end
  end.

(** *** [populate_sample_data] *)

Definition sample := (string * string * Z * Q * string * Z * string)%type.

Definition items : list sample := [
    ("Spray Equipment", "Paint sprayer (airless)", 1, 40%Q, "Consider renting if one-time use, rental price per day", 0, "Home Depot");
    ("Spray Equipment", "Spray tips", 3, 20%Q, "Different sizes for walls vs. trim", 0, "Home Depot");
    ("Spray Equipment", "Extension wand", 1, 30%Q, "For reaching high areas", 0, "Home Depot");
    ("Spray Equipment", "Filters", 6, 5%Q, "Replace as needed", 0, "Home Depot");
    ("Spray Equipment", "Hose", 1, 25%Q, "Usually comes with sprayer", 0, "Home Depot");
    ("Paint", "Interior latex paint", 10, 37.5%Q, "Account for overspray, $25-$50/gal", 0, "Lowe's");
    ("Paint", "Primer", 8, 30%Q, "If needed, $20-$40/gal", 0, "Lowe's");
    ("Paint", "Paint strainer", 6, 2%Q, "To prevent sprayer clogs", 0, "Lowe's");
    ("Protection", "Plastic sheeting", 5, 10%Q, "Cover EVERYTHING", 0, "Walmart");
    ("Protection", "Painter's tape", 10, 5%Q, "More needed for spray painting", 0, "Walmart");
    ("Protection", "Rosin paper", 3, 15%Q, "Floor protection", 0, "Home Depot");
    ("Protection", "Drop cloths", 6, 15%Q, "Heavy-duty type", 0, "Home Depot");
    ("Safety Equipment", "Full respirator", 1, 30%Q, "Not just dust masks", 0, "Lowe's");
    ("Safety Equipment", "Safety goggles", 2, 10%Q, "Sealed type", 0, "Lowe's");
    ("Safety Equipment", "Spray sock/head cover", 3, 5%Q, "Protect hair/head", 0, "Lowe's");
    ("Safety Equipment", "Disposable coveralls", 3, 10%Q, "Full body protection", 0, "Lowe's");
    ("Safety Equipment", "Heavy duty gloves", 2, 8%Q, "Per pair", 0, "Lowe's");
    ("Surface Prep", "Sandpaper", 1, 10%Q, "Various grits: 120, 180, 220", 0, "Walmart");
    ("Surface Prep", "Spackle", 1, 8%Q, "For repairs", 0, "Walmart");
    ("Surface Prep", "TSP cleaner", 1, 10%Q, "Wall preparation", 0, "Walmart");
    ("Surface Prep", "Putty knife set", 1, 15%Q, "Various sizes", 0, "Walmart");
    ("Clean-up", "5-gallon buckets", 3, 5%Q, "For clean-up", 0, "Home Depot");
    ("Clean-up", "Paint thinner", 2, 15%Q, "For equipment cleaning", 0, "Home Depot");
    ("Clean-up", "Clean rags", 1, 10%Q, "Large pack", 0, "Walmart");
    ("Tools", "Multi-position ladder", 1, 150%Q, "For stairwell and high areas", 0, "Lowe's");
    ("Tools", "Step ladder", 1, 50%Q, "For standard height walls", 0, "Lowe's");
    ("Tools", "Screwdrivers", 1, 20%Q, "Set for fixtures/plates", 0, "Walmart");
    ("Tools", "Utility knife", 1, 10%Q, "With extra blades", 0, "Walmart");
    ("Tools", "Light extension cord", 2, 15%Q, "For sprayer", 0, "Walmart")
  ].

Definition insert_sample (acc : outcome Store) (it : sample) : outcome Store :=
  let '(c, i, q, k, n, f, s) := it in
  Sql.bind acc (insert_item c i (VInt q) (VReal k) (Some n) (VInt f) s).

Definition populate_sample_data (st : Store) : outcome Store :=
  fold_left insert_sample items (Ok (delete_all st)).

(** *** The running server

    [__main__] sets the database up and fills the empty list with the
    sample data; then requests arrive one after the other.  The GET
    handlers write nothing and are left out. *)
Definition startup : outcome Store := populate_sample_data setup_database.

Inductive request :=
| AddItem (raw : ShoppingItem.t)
| UpdateBudgetInline (value : string)
| SetBudget (budget : Q)
| ToggleFound (item_id : Z)
| RemoveItem (item_id : Z)
| UpdateField (item_id : Z) (field value : string).

Definition handle (rq : request) (st : Store) : option (Store * response) :=
  match rq with
  | AddItem raw => Some (add_item raw st)
  | UpdateBudgetInline value => Some (update_budget_inline value st)
  | SetBudget budget => Some (update_budget budget st)
  | ToggleFound item_id => Some (toggle_found item_id st)
  | RemoveItem item_id => Some (remove_item item_id st)
  | UpdateField item_id field value => update_field item_id field value st
  end.

(** The states of the server.  A request that the model does not
    interpret is an [update_field] whose field is SQL text: its statement
    is an UPDATE of [shopping_list], after which the list has as many
    rows, which are any rows that satisfy the constraints of the table,
    and nothing else has changed. *)
Inductive reachable : Store -> Prop :=
| reach_startup st : startup = Ok st -> reachable st
| reach_request st rq st' resp :
    reachable st -> handle rq st = Some (st', resp) -> reachable st'
| reach_spliced st rq rows :
    reachable st -> handle rq st = None ->
    List.length rows = List.length (shopping_list st) ->
    table_constraints rows = true ->
    reachable (with_rows rows st).

(** *** Pages that only read *)

(** [home], GET /: the budget summary above the shopping container. *)
Definition home (st : Store) : result (BudgetView * table) :=
  match ShoppingContainer (fetch_shopping_list st) with
  | Return t => Return (BudgetStatus st, t)
  | Raise e => Raise e
  end.







End Main.

(** ** The budget summary in binary64 arithmetic

    [get_budget], [get_total_cost] and [BudgetStatus] once more, with the
    arithmetic of the program: the amounts are binary64 numbers, SQLite
    multiplies and adds them one after the other, and Python subtracts
    and compares them. *)

Module Ieee.

Import Sql.

(** [get_budget]: the amount of the latest record, or 0.0. *)
Definition get_budget (st : Store) : spec_float :=
  Double.of_Q (Main.get_budget st).

(** [cost * quantity] for a cost that is a REAL and a quantity that is an
    INTEGER, as the schema types them: the integer is converted and the
    two are multiplied.  [None]: an operand of another type, which this
    module leaves out. *)
Definition product (r : Row) : option spec_float :=
  match cost r, quantity r with
  | VReal k, VInt n =>
      Some (Double.mul (Double.of_Q k) (Double.of_Q (inject_Z n)))
  | _, _ => None
  end.

Fixpoint products (rows : list Row) : option (list spec_float) :=
  match rows with
  | [] => Some []
  | r :: rows' =>
      match product r, products rows' with
      | Some x, Some xs => Some (x :: xs)
      | _, _ => None
      end
  end.

(** SUM over REAL operands: a product that is NaN is NULL and is skipped,
    the others are added to 0.0 one after the other; the sum of no
    operand is NULL, and so is a sum that is NaN.  This is the sum of
    SQLite up to 3.42; from 3.43 on SUM carries a correction term for the
    rounding errors of the additions. *)
Definition sql_sum (xs : list spec_float) : option spec_float :=
  match filter (fun x => negb (Double.is_nan x)) xs with
  | [] => None
  | operands =>
      let total := fold_left Double.add operands Double.zero in
      if Double.is_nan total then None else Some total
  end.

(** [get_total_cost]: [float(result['total']) if result['total'] else
    0.0]. *)
Definition get_total_cost (st : Store) : option spec_float :=
  match products (shopping_list st) with
  | Some xs =>
      Some match sql_sum xs with
           | Some total => if Double.is_zero total then Double.zero else total
           | None => Double.zero
           end
  | None => None
  end.

Record BudgetView := {
  total_budget : spec_float;
  total_cost : spec_float;
  remaining : spec_float;
  status : string
}.

(** [remaining >= 0] *)
Definition not_below_zero (x : spec_float) : bool :=
  SFleb Double.zero x.

(** [BudgetStatus] *)
Definition BudgetStatus (st : Store) : option BudgetView :=
  match get_total_cost st with
  | Some total_cost =>
      let budget := get_budget st in
      let remaining := Double.sub budget total_cost in
      let status := if not_below_zero remaining then "success" else "error" in
      Some {| total_budget := budget; total_cost := total_cost;
              remaining := remaining; status := status |}
  | None => None
  end.

End Ieee.

(** * What the specification says, in the vocabulary of the model *)

Import PyStr Numeral Sql Py Main.

Local Open Scope Q_scope.
Local Open Scope list_scope.

(** The number SQLite computes with for a stored value, NULL counting for
    nothing. *)
Definition number (v : value) : Q :=
  match numeric v with
  | Some x => x
  | None => 0
  end.

(** The store in which the rows with the given id went through [f], and
    nothing else changed. *)
Definition update_rows (key : Z) (f : Row -> Row) (st : Store) : Store :=
  with_rows (map (fun r => if (id r =? key)%Z then f r else r) (shopping_list st)) st.

(** The fields the edit endpoints expose. *)
Definition known_fields : list string :=
  ["category"; "item"; "quantity"; "cost"; "notes"; "store"; "found"]%string.

(** The store the server starts with. *)
Definition started : Store :=
  match startup with
  | Ok st => st
  | _ => setup_database
  end.

(** The two ways [update_field] answers: the rows with the id went
    through [f] and the container is rendered anew, or nothing is written
    and an error fragment comes back. *)
Definition updates (item_id : Z) (f : Row -> Row) (st : Store)
    : option (Store * response) :=
  Some (update_rows item_id f st, shopping_container (update_rows item_id f st)).

Definition rejects (msg : string) (st : Store) : option (Store * response) :=
  Some (st, ErrorMessage msg).

(** A found flag that is a boolean, 0 or 1. *)
Definition boolean_flag (v : value) : bool :=
  match v with
  | VInt n => (n =? 0)%Z || (n =? 1)%Z
  | _ => false
  end.

Definition column_ok (v : value) : bool := not_null v && check_ge0 v.

Definition row_ok (r : Row) : bool := column_ok (quantity r) && column_ok (cost r).

Definition rows_ok (st : Store) : Prop :=
  forall r, In r (shopping_list st) -> row_ok r = true.

(** One comparison after another: the second decides where the first
    finds no difference. *)
Definition lex {A : Type} (c1 c2 : A -> A -> comparison) (a b : A) : comparison :=
  match c1 a b with
  | Eq => c2 a b
  | r => r
  end.

(** What makes a three-way comparison a total preorder. *)
Record order_laws {A : Type} (cmp : A -> A -> comparison) : Prop := {
  cmp_opp : forall a b, cmp b a = CompOpp (cmp a b);
  cmp_lt_trans : forall a b c, cmp a b = Lt -> cmp b c = Lt -> cmp a c = Lt;
  cmp_eq_left : forall a b c, cmp a b = Eq -> cmp a c = cmp b c
}.

(** The class of a value in the order of ORDER BY, and its place in the
    class. *)
Definition value_class (v : value) : Z :=
  match v with
  | VNull => 0
  | VInt _ | VReal _ => 1
  | VText _ => 2
  end.

Definition value_number (v : value) : Q :=
  match v with
  | VInt n => inject_Z n
  | VReal q => q
  | _ => 0
  end.

Definition value_text (v : value) : string :=
  match v with
  | VText s => s
  | _ => ""%string
  end.

(** The rows of one category. *)
Definition has_category (k : string) (r : Row) : bool := (category r =? k)%string.

(** What the grouping loop maintains: the keys differ, each key holds the
    rows of its category seen so far, in the order they were seen, every
    category seen has its key, and no row is lost. *)
Definition grouped (cats : categories) (seen : list Row) : Prop :=
  NoDup (map fst cats)
  /\ (forall k rs, In (k, rs) cats -> rs <> [] /\ rs = filter (has_category k) seen)
  /\ (forall k, filter (has_category k) seen <> [] -> In k (map fst cats))
  /\ Permutation (List.concat (map snd cats)) seen.







(** What one row adds to the total cost. *)
Definition line_total (r : Row) : Q := number (cost r) * number (quantity r).

(** No stored item has the id. *)
Definition unknown_id (item_id : Z) (st : Store) : Prop :=
  forall r, In r (shopping_list st) -> id r <> item_id.


(** The row after [SET found = NOT found]. *)
Definition toggled (r : Row) : Row :=
  set_found (integer_affinity (sql_not (found r))) r.

(** The stores that requests lead to from a given one. *)
Inductive follows (st : Store) : Store -> Prop :=
| follows_here : follows st st
| follows_request st1 rq st2 resp :
    follows st st1 -> handle rq st1 = Some (st2, resp) -> follows st st2
| follows_spliced st1 rq rows :
    follows st st1 -> handle rq st1 = None ->
    List.length rows = List.length (shopping_list st1) ->
    table_constraints rows = true ->
    follows st (with_rows rows st1).

(** The budget record the database is set up with. *)
Definition first_budget : BudgetRecord := {| budget_id := 1; amount := 1000 |}.

(** The requests that set a budget. *)
Definition sets_budget (rq : request) : bool :=
  match rq with
  | UpdateBudgetInline _ | SetBudget _ => true
  | _ => false
  end.

(** The message of [update_budget_inline] for a value that is no number. *)
Definition invalid_budget : string :=
  "Invalid budget amount. Please enter a valid number.".

(** What every state of the server's budget log satisfies. *)
Definition budget_log_ok (log : list BudgetRecord) : Prop :=
  (exists rest, log = first_budget :: rest)
  /\ Forall (fun b => 0 <= amount b) log
  /\ StronglySorted (fun a b => (budget_id a < budget_id b)%Z) log.

(** The row of a sample under a key, and the rows of samples keyed from
    the key after [k] on. *)
Definition sample_row (key : Z) (it : sample) : Row :=
  let '(c, i, q, k, n, f, s) := it in
  {| id := key; category := c; item := i; quantity := VInt q; cost := VReal k;
     notes := Some n; found := VInt f; store := s |}.

Fixpoint rows_from (k : Z) (its : list sample) : list Row :=
  match its with
  | [] => []
  | it :: its' => sample_row (k + 1) it :: rows_from (k + 1) its'
  end.

(** A sample that the constraints of the table let in. *)
Definition sample_ok (it : sample) : bool :=
  let '(c, i, q, k, n, f, s) := it in (0 <=? q)%Z && Qle_bool 0 k.

(** The largest key the table has seen. *)
Definition top_key (st : Store) : Z :=
  Z.max (shopping_seq st) (max_key (map id (shopping_list st))).










(** * Properties *)

(** ** Updating a single field *)

Lemma validate_field_blank (field value : string) :
  strip value = ""%string ->
  validate_field field value = inl (title field ++ " cannot be empty")%string.
Proof.
  intros H. unfold validate_field. rewrite H. reflexivity.
Qed.

Lemma validate_field_text (field value : string) :
  field <> "quantity"%string -> field <> "cost"%string -> strip value <> ""%string ->
  validate_field field value = inr (VText value).
Proof.
  intros Hq Hc Hv. unfold validate_field.
  apply String.eqb_neq in Hq, Hc, Hv. rewrite Hq, Hc, Hv. reflexivity.
Qed.


Lemma py_float_number (s : string) (a : Q) :
  py_float s = Some a -> py_float_kind s = FNumber a.
Proof.
  unfold py_float. destruct (py_float_kind s); intros H; try discriminate H.
  injection H as ->. reflexivity.
Qed.

Lemma validate_field_cost (value : string) :
  strip value <> ""%string ->
  validate_field "cost" value =
    match py_float_kind (strip (remove_dollar value)) with
    | FNumber q => if negb (Qle_bool 0 q) then inl "Cost cannot be negative"%string
                   else inr (VReal q)
    | FNaN => inr VNull
    | FError => inl "Invalid cost format"%string
    end.
Proof.
  intros Hv. unfold validate_field.
  apply String.eqb_neq in Hv. rewrite Hv. reflexivity.
Qed.

Lemma assign_where_map (c : column) (v : value) (key : Z) (f : Row -> Row)
    (rows : list Row) :
  (forall r, assign c v r = Ok (f r)) ->
  assign_where c v key rows =
    Ok (map (fun r => if (id r =? key)%Z then f r else r) rows).
Proof.
  intros Hf. induction rows as [|r rows IH]; simpl.
  - reflexivity.
  - rewrite IH. destruct (id r =? key)%Z.
    + rewrite Hf. reflexivity.
    + reflexivity.
Qed.

(** A column other than the key takes whatever its assignment yields. *)
Lemma update_set_column (field : string) (c : column) (v : value) (key : Z)
    (f : Row -> Row) (st : Store) :
  resolve field = Ok c -> c <> Cid ->
  (forall r, assign c v r = Ok (f r)) ->
  update_set field v key st = Ok (update_rows key f st).
Proof.
  intros Hr Hc Hf. unfold update_set. rewrite Hr. simpl.
  rewrite (assign_where_map c v key f _ Hf). simpl.
  destruct c; try reflexivity. contradiction.
Qed.

Lemma update_field_column (item_id : Z) (field value : string) (c : column)
    (v : Sql.value) (f : Row -> Row) (st : Store) :
  validate_field field value = inr v ->
  resolve field = Ok c -> c <> Cid ->
  (forall r, assign c v r = Ok (f r)) ->
  update_field item_id field value st =
    Some (update_rows item_id f st, shopping_container (update_rows item_id f st)).
Proof.
  intros Hv Hr Hc Hf. unfold update_field. rewrite Hv.
  rewrite (update_set_column field c v item_id f st Hr Hc Hf). reflexivity.
Qed.

Lemma update_field_rejected (item_id : Z) (field value msg : string) (st : Store) :
  validate_field field value = inl msg ->
  update_field item_id field value st = Some (st, ErrorMessage msg).
Proof.
  intros Hv. unfold update_field. rewrite Hv. reflexivity.
Qed.

Lemma resolve_text_field (field : string) (c : column) :
  resolve field = Ok c -> c <> Cquantity -> c <> Ccost ->
  field <> "quantity"%string /\ field <> "cost"%string.
Proof.
  intros Hr Hq Hc. split; intros ->; vm_compute in Hr; congruence.
Qed.



(** A text that SQLite reads as an integer is a numeric literal. *)
Lemma space_not_point (c : ascii) : sql_space c = true -> Ascii.eqb c "." = false.
Proof.
  intros H. destruct (Ascii.eqb c ".") eqn:E; [|reflexivity].
  apply Ascii.eqb_eq in E. subst c. discriminate H.
Qed.

Lemma space_not_exponent (c : ascii) :
  sql_space c = true -> Ascii.eqb c "e" || Ascii.eqb c "E" = false.
Proof.
  intros H. apply orb_false_iff. split.
  - destruct (Ascii.eqb c "e") eqn:E; [|reflexivity].
    apply Ascii.eqb_eq in E. subst c. discriminate H.
  - destruct (Ascii.eqb c "E") eqn:E; [|reflexivity].
    apply Ascii.eqb_eq in E. subst c. discriminate H.
Qed.

Lemma sql_integer_literal (s : string) (n : Z) :
  sql_integer s = Some n -> sql_literal s <> None.
Proof.
  unfold sql_integer, sql_literal, scan_number.
  destruct (scan_sign (skip_spaces (chars s))) as [neg cs].
  destruct (scan_digits false cs) as [[|d ds] rest]; [discriminate|].
  destruct rest as [|c rest].
  - intros _. simpl. discriminate.
  - simpl skip_spaces at 1.
    destruct (sql_space c) eqn:Hc; [|discriminate].
    intros H. rewrite (space_not_point c Hc).
    unfold scan_exponent. rewrite (space_not_exponent c Hc).
    cbn [sc_rest skip_spaces]. rewrite Hc.
    destruct (skip_spaces rest); [discriminate|discriminate H].
Qed.

Lemma integer_affinity_text (s : string) :
  sql_literal s = None -> integer_affinity (VText s) = VText s.
Proof.
  intros L. unfold integer_affinity.
  destruct (sql_integer s) as [n|] eqn:E.
  - exfalso. exact (sql_integer_literal s n E L).
  - rewrite L. reflexivity.
Qed.

Lemma integer_affinity_integer (s : string) (n : Z) :
  sql_integer s = Some n -> integer_affinity (VText s) = VInt n.
Proof.
  intros E. unfold integer_affinity. rewrite E. reflexivity.
Qed.




(** C9, as the claim states it, fails: the field is spliced into the
    statement, and under the field [notes = '', item] the statement clears
    the notes of item 6, which were not empty, while it sets the item name
    to the value sent. *)
Lemma C9_counterexample :
  ~ (forall item_id field value st st' resp,
       update_field item_id field value st = Some (st', resp) ->
       forall r', In r' (shopping_list st') -> notes r' = Some ""%string ->
       exists r, In r (shopping_list st) /\ id r = id r' /\ notes r = Some ""%string).
Proof.
  intros H.
  pose (clear := fun r => set_item "Interior latex paint" (set_notes (Some ""%string) r)).
  assert (E : update_field 6 "notes = '', item" "Interior latex paint" started
              = Some (update_rows 6 clear started,
                      shopping_container (update_rows 6 clear started)))
    by (vm_compute; reflexivity).
  assert (Hin : In {| id := 6; category := "Paint"; item := "Interior latex paint";
                      quantity := VInt 10; cost := VReal 37.5; notes := Some ""%string;
                      found := VInt 0; store := "Lowe's" |}
                   (shopping_list (update_rows 6 clear started))).
  { vm_compute. do 5 right. left. reflexivity. }
  destruct (H _ _ _ _ _ _ E _ Hin eq_refl) as (r & Hr & _ & Hn).
  assert (F : forallb (fun r => match notes r with
                                | Some s => negb (s =? "")%string
                                | None => true
                                end) (shopping_list started) = true)
    by (vm_compute; reflexivity).
  pose proof (proj1 (forallb_forall _ _) F r Hr) as Hne.
  cbv beta in Hne. rewrite Hn in Hne. discriminate Hne.
Qed.

(** C9, amended.  The non-empty test of [update_field] comes first and
    applies whatever the field is, notes included: a value that is empty
    or only white space yields the validation-error fragment and leaves
    the store as it is.  When the field is the name of the notes column,
    an edit therefore either changes nothing or leaves there a text that
    is not blank. *)
Theorem C9_blank_value_rejected (item_id : Z) (field : string) (st : Store) :
  (forall value, strip value = ""%string ->
     exists msg,
       update_field item_id field value st = rejects msg st
       /\ (ascii_only field = true -> msg = (title field ++ " cannot be empty")%string))
  /\ (forall value st' resp,
        resolve field = Ok Cnotes ->
        update_field item_id field value st = Some (st', resp) ->
        st' = st
        \/ (strip value <> ""%string
            /\ st' = update_rows item_id (set_notes (Some value)) st)).
Proof.
  split.
  - intros value H. eexists. split.
    + apply update_field_rejected, validate_field_blank, H.
    + reflexivity.
  - intros value st' resp Hr Hu.
    destruct (string_dec (strip value) "") as [Hb|Hb].
    + left.
      rewrite (update_field_rejected item_id field value _ st
                 (validate_field_blank field value Hb)) in Hu.
      congruence.
    + right. split; [exact Hb|].
      destruct (resolve_text_field field Cnotes Hr) as [Hq Hc]; try discriminate.
      rewrite (update_field_column item_id field value Cnotes (VText value)
                 (set_notes (Some value)) st) in Hu.
      * congruence.
      * apply validate_field_text; assumption.
      * exact Hr.
      * discriminate.
      * reflexivity.
Qed.

Lemma C9_blank_value_rejected_witness :
  (exists msg, update_field 6 "notes" "   " started = rejects msg started
               /\ msg = "Notes cannot be empty"%string)
  /\ (update_rows 6 (set_notes (Some "x"%string)) started = started
      \/ (strip "x" <> ""%string
          /\ update_rows 6 (set_notes (Some "x"%string)) started
             = update_rows 6 (set_notes (Some "x"%string)) started)).
Proof.
  destruct (C9_blank_value_rejected 6 "notes" started) as [H1 H2].
  split.
  - destruct (H1 "   "%string (eq_refl : strip "   " = ""%string)) as (msg & Hm & Ht).
    exists msg. split; [exact Hm|]. apply Ht. reflexivity.
  - apply (H2 "x"%string _ (shopping_container (update_rows 6 (set_notes (Some "x"%string)) started))).
    + vm_compute. reflexivity.
    + vm_compute. reflexivity.
Defined.

(** C10, as the claim states it, fails twice.  A value of one space is a
    non-empty string and is not accepted; and found does not always hold
    the string as it was sent: "01" is stored as the integer 1. *)
Lemma C10_counterexample :
  ~ (forall item_id field value st,
       field <> "quantity"%string -> field <> "cost"%string ->
       value <> ""%string ->
       forall msg, update_field item_id field value st <> rejects msg st)
  /\ update_field 6 "found" "01" started = updates 6 (set_found (VInt 1)) started
  /\ VInt 1 <> VText "01".
Proof.
  split; [|split].
  - intros H.
    apply (H 6%Z "notes"%string " "%string started
             ltac:(discriminate) ltac:(discriminate) ltac:(discriminate)
             "Notes cannot be empty"%string).
    apply update_field_rejected. vm_compute. reflexivity.
  - apply (update_field_column 6 _ _ Cfound (VText "01"));
      [vm_compute; reflexivity|reflexivity|discriminate|vm_compute; reflexivity].
  - discriminate.
Qed.

(** C10, amended.  For a field name other than quantity and cost,
    [update_field] does no type validation: a value that is neither empty
    nor only white space is bound to the update statement as the string
    it is.  The text columns category, item, notes and store then hold
    that very string.  The found column holds it as its INTEGER affinity
    leaves it: a text that is no numeric literal is kept as it is, and an
    integer literal becomes the integer, so that found can be given a
    value that is not a boolean, such as "yes" or 7. *)
Theorem C10_no_type_validation (item_id : Z) (field value : string) (st : Store)
    (Hq : field <> "quantity"%string) (Hc : field <> "cost"%string)
    (Hv : strip value <> ""%string) :
  validate_field field value = inr (VText value)
  /\ (resolve field = Ok Ccategory ->
      update_field item_id field value st = updates item_id (set_category value) st)
  /\ (resolve field = Ok Citem ->
      update_field item_id field value st = updates item_id (set_item value) st)
  /\ (resolve field = Ok Cnotes ->
      update_field item_id field value st = updates item_id (set_notes (Some value)) st)
  /\ (resolve field = Ok Cstore ->
      update_field item_id field value st = updates item_id (set_store value) st)
  /\ (resolve field = Ok Cfound -> sql_literal value = None ->
      update_field item_id field value st = updates item_id (set_found (VText value)) st)
  /\ (resolve field = Ok Cfound -> forall n, sql_integer value = Some n ->
      update_field item_id field value st = updates item_id (set_found (VInt n)) st)
  /\ update_field item_id "found" "yes" st = updates item_id (set_found (VText "yes")) st
  /\ update_field item_id "found" "7" st = updates item_id (set_found (VInt 7)) st.
Proof.
  pose proof (validate_field_text field value Hq Hc Hv) as V.
  repeat match goal with |- _ /\ _ => split end.
  - exact V.
  - intros R. apply (update_field_column item_id field value Ccategory (VText value));
      [exact V|exact R|discriminate|reflexivity].
  - intros R. apply (update_field_column item_id field value Citem (VText value));
      [exact V|exact R|discriminate|reflexivity].
  - intros R. apply (update_field_column item_id field value Cnotes (VText value));
      [exact V|exact R|discriminate|reflexivity].
  - intros R. apply (update_field_column item_id field value Cstore (VText value));
      [exact V|exact R|discriminate|reflexivity].
  - intros R L. apply (update_field_column item_id field value Cfound (VText value));
      [exact V|exact R|discriminate|].
    intros r. unfold assign, found_column. cbn [Sql.bind].
    rewrite (integer_affinity_text value L). reflexivity.
  - intros R n E. apply (update_field_column item_id field value Cfound (VText value));
      [exact V|exact R|discriminate|].
    intros r. unfold assign, found_column. cbn [Sql.bind].
    rewrite (integer_affinity_integer value n E). reflexivity.
  - apply (update_field_column item_id _ _ Cfound (VText "yes"));
      [vm_compute; reflexivity|reflexivity|discriminate|vm_compute; reflexivity].
  - apply (update_field_column item_id _ _ Cfound (VText "7"));
      [vm_compute; reflexivity|reflexivity|discriminate|vm_compute; reflexivity].
Qed.

Lemma C10_no_type_validation_witness :
  update_field 6 "found" "maybe" started
  = updates 6 (set_found (VText "maybe")) started
  /\ update_field 6 "Found" " 12 " started
     = updates 6 (set_found (VInt 12)) started.
Proof.
  assert (Hq : "found"%string <> "quantity"%string) by discriminate.
  assert (Hc : "found"%string <> "cost"%string) by discriminate.
  assert (Hv : strip "maybe" <> ""%string) by (vm_compute; discriminate).
  assert (Hq' : "Found"%string <> "quantity"%string) by discriminate.
  assert (Hc' : "Found"%string <> "cost"%string) by discriminate.
  assert (Hv' : strip " 12 " <> ""%string) by (vm_compute; discriminate).
  destruct (C10_no_type_validation 6 "found" "maybe" started Hq Hc Hv)
    as (_ & _ & _ & _ & _ & H5 & _).
  destruct (C10_no_type_validation 6 "Found" " 12 " started Hq' Hc' Hv')
    as (_ & _ & _ & _ & _ & _ & H6 & _).
  split.
  - apply H5; vm_compute; reflexivity.
  - apply (H6 (eq_refl : resolve "Found" = Ok Cfound) 12%Z). vm_compute. reflexivity.
Defined.

(** ** The field name is spliced into the statement *)

Lemma assign_key (v : value) (n : Z) (r : Row) :
  integer_affinity v = VInt n -> assign Cid v r = Ok (set_column_id n r).
Proof.
  intros H. unfold assign, key_column. rewrite H. reflexivity.
Qed.

(** C5, as the claim states it, fails: [id] is outside the closed set, and
    an update under that name rewrites the key of item 6. *)
Lemma C5_counterexample :
  ~ (forall item_id field value st st' resp,
       ~ In field known_fields ->
       update_field item_id field value st = Some (st', resp) ->
       st' = st).
Proof.
  intros H.
  specialize (H 6%Z "id"%string "99"%string started
                (update_rows 6 (set_column_id 99) started)
                (shopping_container (update_rows 6 (set_column_id 99) started))).
  assert (E : update_rows 6 (set_column_id 99) started = started).
  { apply H.
    - simpl. intros [F|[F|[F|[F|[F|[F|[F|[]]]]]]]]; discriminate F.
    - vm_compute. reflexivity. }
  apply (f_equal (fun s => map id (shopping_list s))) in E.
  vm_compute in E. discriminate E.
Qed.

(** C5, amended.  [update_field] does not test the field name against the
    closed set; the name is spliced into the statement.  Each of the seven
    names, and also [id], names a column, and the update is executed on
    the column that is named: under a name of the primary key the key of
    the item is rewritten.  Only a bare identifier that names no column
    leaves the store as it is, with an error fragment. *)
Theorem C5_field_names (item_id : Z) (field value : string) (st : Store) :
  (is_identifier field = true -> column_of_name field = None ->
     exists msg, update_field item_id field value st = rejects msg st)
  /\ (In field (known_fields ++ ["id"%string]) -> exists c, resolve field = Ok c)
  /\ (resolve field = Ok Cid -> strip value <> ""%string ->
      forall n, integer_affinity (VText value) = VInt n ->
        distinct (map id (shopping_list (update_rows item_id (set_column_id n) st))) = true ->
        update_field item_id field value st = updates item_id (set_column_id n) st)
  /\ (forall c v f,
        resolve field = Ok c -> c <> Cid ->
        validate_field field value = inr v ->
        (forall r, assign c v r = Ok (f r)) ->
        update_field item_id field value st = updates item_id f st).
Proof.
  repeat match goal with |- _ /\ _ => split end.
  - intros Hi Hn. unfold update_field.
    destruct (validate_field field value) as [msg|v].
    + exists msg. reflexivity.
    + exists "Failed to update value"%string.
      unfold update_set, resolve. rewrite Hi, Hn. reflexivity.
  - simpl. intros [F|[F|[F|[F|[F|[F|[F|[F|[]]]]]]]]]; subst field;
      eexists; vm_compute; reflexivity.
  - intros Hr Hv n Hn Hd.
    assert (Hf : field <> "quantity"%string /\ field <> "cost"%string).
    { split; intros ->; vm_compute in Hr; congruence. }
    destruct Hf as [Hq Hc].
    unfold update_field. rewrite (validate_field_text field value Hq Hc Hv).
    unfold update_set. rewrite Hr. simpl.
    rewrite (assign_where_map Cid (VText value) item_id (set_column_id n) _
               (fun r => assign_key (VText value) n r Hn)).
    simpl. unfold update_rows, with_rows in Hd. simpl in Hd. rewrite Hd.
    reflexivity.
  - intros c v f Hr Hc Hv Hf.
    apply (update_field_column item_id field value c v f st Hv Hr Hc Hf).
Qed.

Lemma C5_field_names_witness :
  (exists msg, update_field 6 "colour" "red" started = rejects msg started)
  /\ update_field 6 "id" "99" started = updates 6 (set_column_id 99) started
  /\ update_field 6 "STORE" "Ace" started = updates 6 (set_store "Ace") started.
Proof.
  split; [|split].
  - destruct (C5_field_names 6 "colour" "red" started) as (H & _).
    apply H; vm_compute; reflexivity.
  - destruct (C5_field_names 6 "id" "99" started) as (_ & _ & H & _).
    apply (H (eq_refl : resolve "id" = Ok Cid)).
    + vm_compute. discriminate.
    + vm_compute. reflexivity.
    + vm_compute. reflexivity.
  - destruct (C5_field_names 6 "STORE" "Ace" started) as (_ & _ & _ & H).
    apply (H Cstore (VText "Ace")).
    + vm_compute. reflexivity.
    + discriminate.
    + vm_compute. reflexivity.
    + intros r. reflexivity.
Defined.

(** ** The budget log *)

Lemma max_key_upper (ks : list Z) (k : Z) : In k ks -> (k <= max_key ks)%Z.
Proof.
  induction ks as [|x ks IH]; simpl.
  - intros [].
  - intros [->|H]; [lia|]. specialize (IH H). lia.
Qed.

Lemma next_key_fresh (seq : Z) (ks : list Z) (k : Z) :
  In k ks -> (k < next_key seq ks)%Z.
Proof.
  intros H. apply max_key_upper in H. unfold next_key. lia.
Qed.

(** The head of the rows in descending order of id is a row of the
    largest id. *)
Lemma order_by_desc_head (l : list BudgetRecord) :
  match order_by (fun a b => (budget_id b <=? budget_id a)%Z) l with
  | [] => l = []
  | m :: _ => In m l /\ forall y, In y l -> (budget_id y <= budget_id m)%Z
  end.
Proof.
  induction l as [|x l IH]; simpl.
  - reflexivity.
  - fold (order_by (fun a b => (budget_id b <=? budget_id a)%Z) l).
    destruct (order_by (fun a b => (budget_id b <=? budget_id a)%Z) l) as [|m rest].
    + subst l. simpl. split; [left; reflexivity|].
      intros y [->|[]]. lia.
    + destruct IH as [Hm Hmax]. simpl.
      destruct (budget_id m <=? budget_id x)%Z eqn:E.
      * apply Z.leb_le in E. split; [left; reflexivity|].
        intros y [->|Hy]; [lia|]. specialize (Hmax y Hy). lia.
      * apply Z.leb_gt in E. split; [right; exact Hm|].
        intros y [->|Hy]; [lia|]. apply Hmax, Hy.
Qed.

Lemma get_budget_highest (s : Store) (r : BudgetRecord) :
  In r (budget s) ->
  (forall r', In r' (budget s) -> r' = r \/ (budget_id r' < budget_id r)%Z) ->
  get_budget s = amount r.
Proof.
  intros Hr Hmax. unfold get_budget.
  pose proof (order_by_desc_head (budget s)) as H.
  destruct (order_by _ (budget s)) as [|m rest].
  - rewrite H in Hr. destruct Hr.
  - destruct H as [Hm Hle].
    destruct (Hmax m Hm) as [->|Hlt]; [reflexivity|].
    specialize (Hle r Hr). lia.
Qed.

(** C3.  For an amount [a >= 0], setting a new budget appends one record
    to the budget table, with a key above every key in it, and leaves the
    records that were there, and the shopping list, as they were; the
    current budget is then [a].  Getting the current budget returns the
    amount of the record with the highest id, and 0 when there is no
    record.  The inline form of the handler does the same once its text
    is parsed. *)
Theorem C3_budget_log (st : Store) (a : Q) (Ha : 0 <= a) :
  (exists key,
     budget (fst (update_budget a st))
     = (budget st ++ [{| budget_id := key; amount := a |}])%list
     /\ forall b, In b (budget st) -> (budget_id b < key)%Z)
  /\ shopping_list (fst (update_budget a st)) = shopping_list st
  /\ get_budget (fst (update_budget a st)) = a
  /\ (forall value, py_float (strip (remove_dollar value)) = Some a ->
        fst (update_budget_inline value st) = fst (update_budget a st))
  /\ (forall s, budget s = [] -> get_budget s = 0)
  /\ (forall s r, In r (budget s) ->
        (forall r', In r' (budget s) -> r' = r \/ (budget_id r' < budget_id r)%Z) ->
        get_budget s = amount r).
Proof.
  assert (Hb : Qle_bool 0 a = true) by (apply Qle_bool_iff; exact Ha).
  assert (Hfresh : forall b, In b (budget st) ->
            (budget_id b < next_key (budget_seq st) (map budget_id (budget st)))%Z).
  { intros b Hin. apply next_key_fresh, in_map, Hin. }
  assert (E : fst (update_budget a st)
              = {| shopping_list := shopping_list st;
                   shopping_seq := shopping_seq st;
                   budget := (budget st ++
                     [{| budget_id := next_key (budget_seq st) (map budget_id (budget st));
                         amount := a |}])%list;
                   budget_seq := next_key (budget_seq st) (map budget_id (budget st)) |}).
  { unfold update_budget, insert_budget. rewrite Hb. reflexivity. }
  repeat match goal with |- _ /\ _ => split end.
  - eexists. rewrite E. simpl. split; [reflexivity|exact Hfresh].
  - rewrite E. reflexivity.
  - rewrite E.
    apply (get_budget_highest _
             {| budget_id := next_key (budget_seq st) (map budget_id (budget st));
                amount := a |}).
    + simpl. apply in_or_app. right. left. reflexivity.
    + simpl. intros r' Hin. apply in_app_or in Hin. destruct Hin as [Hin|[<-|[]]].
      * right. apply Hfresh, Hin.
      * left. reflexivity.
  - intros value Hp. rewrite E.
    unfold update_budget_inline, insert_budget.
    rewrite (py_float_number _ _ Hp), Hb. reflexivity.
  - intros s Hs. unfold get_budget. rewrite Hs. reflexivity.
  - intros s r. apply get_budget_highest.
Qed.

Lemma C3_budget_log_witness :
  get_budget (fst (update_budget 500 started)) = 500
  /\ shopping_list (fst (update_budget 500 started)) = shopping_list started.
Proof.
  assert (Ha : 0 <= 500) by (vm_compute; discriminate).
  destruct (C3_budget_log started 500 Ha) as (_ & H2 & H3 & _).
  split; [exact H3|exact H2].
Defined.


(** ** The budget summary in binary64 *)







(** ** Toggling found *)

Lemma toggle_boolean_twice (r : Row) :
  found r = VInt 0 \/ found r = VInt 1 ->
  set_found (integer_affinity (sql_not (found
    (set_found (integer_affinity (sql_not (found r))) r))))
    (set_found (integer_affinity (sql_not (found r))) r) = r.
Proof.
  destruct r as [i c it q k n f s]. simpl.
  intros [->| ->]; reflexivity.
Qed.

(** C8.  When the found flag of the item with the given id is 0 or 1,
    toggling found twice gives back the store as it was: the flag has its
    first value and no other field, and no other row, has changed. *)
Theorem C8_toggle_twice (st : Store) (item_id : Z)
    (Hbool : forall r, In r (shopping_list st) -> id r = item_id ->
               found r = VInt 0 \/ found r = VInt 1) :
  fst (toggle_found item_id (fst (toggle_found item_id st))) = st.
Proof.
  unfold toggle_found, update_not_found, with_rows. simpl.
  destruct st as [rows sseq bud bseq]. simpl in *. f_equal.
  rewrite map_map.
  induction rows as [|r rows IH]; simpl.
  - reflexivity.
  - rewrite IH.
    + f_equal. destruct (id r =? item_id)%Z eqn:E.
      * simpl. rewrite E. apply toggle_boolean_twice.
        apply Hbool; [left; reflexivity|apply Z.eqb_eq, E].
      * rewrite E. reflexivity.
    + intros r' Hin. apply Hbool. right. exact Hin.
Qed.


Lemma boolean_flag_spec (v : value) :
  boolean_flag v = true -> v = VInt 0 \/ v = VInt 1.
Proof.
  destruct v as [|n| |]; simpl; try discriminate.
  intros H. apply orb_true_iff in H.
  destruct H as [H|H]; apply Z.eqb_eq in H; subst; [left|right]; reflexivity.
Qed.

Lemma C8_toggle_twice_witness :
  fst (toggle_found 7 (fst (toggle_found 7 started))) = started.
Proof.
  apply (C8_toggle_twice started 7).
  intros r Hin _. apply boolean_flag_spec.
  assert (H : forallb (fun r => boolean_flag (found r)) (shopping_list started) = true)
    by (vm_compute; reflexivity).
  rewrite forallb_forall in H. exact (H r Hin).
Defined.

(** ** The constraints on quantity and cost *)

Lemma quantity_column_ok (v v' : value) :
  quantity_column v = Ok v' -> column_ok v' = true.
Proof.
  unfold quantity_column, column_ok.
  destruct (not_null (integer_affinity v) && check_ge0 (integer_affinity v)) eqn:E;
    intros H; [|discriminate H].
  injection H as <-. exact E.
Qed.

Lemma cost_column_ok (v v' : value) :
  cost_column v = Ok v' -> column_ok v' = true.
Proof.
  unfold cost_column, column_ok.
  destruct (not_null (real_affinity v) && check_ge0 (real_affinity v)) eqn:E;
    intros H; [|discriminate H].
  injection H as <-. exact E.
Qed.

Lemma assign_row_ok (c : column) (v : value) (r r' : Row) :
  row_ok r = true -> assign c v r = Ok r' -> row_ok r' = true.
Proof.
  unfold row_ok. intros Hr Ha.
  apply andb_true_iff in Hr. destruct Hr as [Hq Hk].
  destruct c; simpl in Ha.
  - destruct (key_column v); try discriminate. injection Ha as <-. simpl.
    rewrite Hq, Hk. reflexivity.
  - destruct (text_not_null v); try discriminate. injection Ha as <-. simpl.
    rewrite Hq, Hk. reflexivity.
  - destruct (text_not_null v); try discriminate. injection Ha as <-. simpl.
    rewrite Hq, Hk. reflexivity.
  - destruct (quantity_column v) as [q| |] eqn:E; try discriminate.
    injection Ha as <-. simpl. rewrite (quantity_column_ok v q E), Hk. reflexivity.
  - destruct (cost_column v) as [k| |] eqn:E; try discriminate.
    injection Ha as <-. simpl. rewrite (cost_column_ok v k E), Hq. reflexivity.
  - destruct (text_nullable v); try discriminate. injection Ha as <-. simpl.
    rewrite Hq, Hk. reflexivity.
  - unfold found_column in Ha. simpl in Ha. injection Ha as <-. simpl.
    rewrite Hq, Hk. reflexivity.
  - destruct (text_not_null v); try discriminate. injection Ha as <-. simpl.
    rewrite Hq, Hk. reflexivity.
Qed.

Lemma assign_where_rows_ok (c : column) (v : value) (key : Z) (rows rows' : list Row) :
  (forall r, In r rows -> row_ok r = true) ->
  assign_where c v key rows = Ok rows' ->
  forall r, In r rows' -> row_ok r = true.
Proof.
  revert rows'. induction rows as [|r0 rows IH]; simpl; intros rows' Hok Ha.
  - injection Ha as <-. intros r [].
  - destruct (if (id r0 =? key)%Z then assign c v r0 else Ok r0) as [r1| |] eqn:E1;
      try discriminate Ha.
    simpl in Ha.
    destruct (assign_where c v key rows) as [rest| |] eqn:E2; try discriminate Ha.
    simpl in Ha. injection Ha as <-.
    intros r [<-|Hin].
    + destruct (id r0 =? key)%Z.
      * apply (assign_row_ok c v r0 r1); [apply Hok; left; reflexivity|exact E1].
      * injection E1 as <-. apply Hok. left. reflexivity.
    + apply (IH rest); [intros r' Hr'; apply Hok; right; exact Hr'|reflexivity|exact Hin].
Qed.

Lemma assign_both_row_ok (c1 : column) (l : value) (c2 : column) (v : value)
    (r r' : Row) :
  row_ok r = true -> assign_both c1 l c2 v r = Ok r' -> row_ok r' = true.
Proof.
  unfold assign_both. intros Hr Ha.
  destruct (same_column c1 c2).
  - apply (assign_row_ok c2 v r r' Hr Ha).
  - destruct (assign c1 l r) as [r1| |] eqn:E; try discriminate Ha.
    simpl in Ha.
    apply (assign_row_ok c2 v r1 r' (assign_row_ok c1 l r r1 Hr E) Ha).
Qed.

Lemma assign_both_where_rows_ok (c1 : column) (l : value) (c2 : column) (v : value)
    (key : Z) (rows rows' : list Row) :
  (forall r, In r rows -> row_ok r = true) ->
  assign_both_where c1 l c2 v key rows = Ok rows' ->
  forall r, In r rows' -> row_ok r = true.
Proof.
  revert rows'. induction rows as [|r0 rows IH]; simpl; intros rows' Hok Ha.
  - injection Ha as <-. intros r [].
  - destruct (if (id r0 =? key)%Z then assign_both c1 l c2 v r0 else Ok r0)
      as [r1| |] eqn:E1; try discriminate Ha.
    simpl in Ha.
    destruct (assign_both_where c1 l c2 v key rows) as [rest| |] eqn:E2;
      try discriminate Ha.
    simpl in Ha. injection Ha as <-.
    intros r [<-|Hin].
    + destruct (id r0 =? key)%Z.
      * apply (assign_both_row_ok c1 l c2 v r0 r1); [apply Hok; left; reflexivity|exact E1].
      * injection E1 as <-. apply Hok. left. reflexivity.
    + apply (IH rest); [intros r' Hr'; apply Hok; right; exact Hr'|reflexivity|exact Hin].
Qed.

(** What a spliced statement that runs leaves behind: the rows it
    computed, in the store it found. *)
Lemma update_spliced_rows (field : string) (v : value) (key : Z) (st st' : Store) :
  update_spliced field v key st = Ok st' ->
  exists n1 l n2 c1 c2 rows,
    literal_assignment field = Some (n1, l, n2)
    /\ column_of_name n1 = Some c1 /\ column_of_name n2 = Some c2
    /\ assign_both_where c1 (VText l) c2 v key (shopping_list st) = Ok rows
    /\ (is_key c1 || is_key c2 = true -> distinct (map id rows) = true)
    /\ st' = with_rows rows st.
Proof.
  unfold update_spliced. intros Hu.
  destruct (literal_assignment field) as [[[n1 l] n2]|]; [|discriminate Hu].
  destruct (column_of_name n1) as [c1|] eqn:E1; [|discriminate Hu].
  destruct (column_of_name n2) as [c2|] eqn:E2; [|discriminate Hu].
  destruct (assign_both_where c1 (VText l) c2 v key (shopping_list st))
    as [rows| |] eqn:E3; try discriminate Hu.
  simpl in Hu.
  exists n1, l, n2, c1, c2, rows.
  split; [reflexivity|]. split; [exact E1|]. split; [exact E2|].
  split; [exact E3|].
  destruct (is_key c1 || is_key c2).
  - destruct (distinct (map id rows)) eqn:D; [|discriminate Hu].
    injection Hu as <-. split; [intros _; reflexivity|reflexivity].
  - injection Hu as <-. split; [discriminate|reflexivity].
Qed.

Lemma update_set_rows_ok (field : string) (v : value) (key : Z) (st st' : Store) :
  rows_ok st -> update_set field v key st = Ok st' -> rows_ok st'.
Proof.
  unfold update_set, rows_ok. intros Hok Hu.
  destruct (resolve field) as [c| |]; simpl in Hu.
  - destruct (assign_where c v key (shopping_list st)) as [rows| |] eqn:E;
      try discriminate Hu.
    simpl in Hu.
    assert (Hrows : forall r, In r rows -> row_ok r = true)
      by (apply (assign_where_rows_ok c v key _ rows Hok E)).
    destruct c; try (injection Hu as <-; exact Hrows).
    destruct (distinct (map id rows)); [|discriminate Hu].
    injection Hu as <-. exact Hrows.
  - discriminate Hu.
  - destruct (update_spliced_rows field v key st st' Hu)
      as (n1 & l & n2 & c1 & c2 & rows & _ & _ & _ & E & _ & ->).
    apply (assign_both_where_rows_ok c1 (VText l) c2 v key _ rows Hok E).
Qed.

Lemma insert_item_rows_ok (c i : string) (q k : value) (n : option string)
    (f : value) (s : string) (st st' : Store) :
  rows_ok st -> insert_item c i q k n f s st = Ok st' -> rows_ok st'.
Proof.
  unfold insert_item, rows_ok. intros Hok Hi.
  destruct (quantity_column q) as [q'| |] eqn:Eq; try discriminate Hi. simpl in Hi.
  destruct (cost_column k) as [k'| |] eqn:Ek; try discriminate Hi. simpl in Hi.
  injection Hi as <-. simpl.
  intros r Hin. apply in_app_or in Hin. destruct Hin as [Hin|[<-|[]]].
  - apply Hok, Hin.
  - unfold row_ok. simpl.
    rewrite (quantity_column_ok q q' Eq), (cost_column_ok k k' Ek). reflexivity.
Qed.

Lemma insert_budget_rows_ok (a : Q) (st st' : Store) :
  rows_ok st -> insert_budget a st = Ok st' -> rows_ok st'.
Proof.
  unfold insert_budget, rows_ok. intros Hok Hi.
  destruct (Qle_bool 0 a); [|discriminate Hi].
  injection Hi as <-. exact Hok.
Qed.

Lemma update_not_found_rows_ok (key : Z) (st : Store) :
  rows_ok st -> rows_ok (update_not_found key st).
Proof.
  unfold rows_ok, update_not_found. simpl. intros Hok r Hin.
  apply in_map_iff in Hin. destruct Hin as (r0 & <- & Hin0).
  destruct (id r0 =? key)%Z; [|apply Hok, Hin0].
  specialize (Hok r0 Hin0). unfold row_ok in *. simpl. exact Hok.
Qed.

Lemma delete_where_rows_ok (key : Z) (st : Store) :
  rows_ok st -> rows_ok (delete_where key st).
Proof.
  unfold rows_ok, delete_where. simpl. intros Hok r Hin.
  apply filter_In in Hin. apply Hok, Hin.
Qed.

Lemma handle_rows_ok (rq : request) (st st' : Store) (resp : response) :
  rows_ok st -> handle rq st = Some (st', resp) -> rows_ok st'.
Proof.
  intros Hok Hh.
  assert (Hsame : forall r, Some (st, r) = Some (st', resp) -> rows_ok st').
  { intros r H. injection H as <- _. exact Hok. }
  destruct rq as [raw|value|b|k|k|k field value]; simpl in Hh.
  - unfold add_item in Hh.
    destruct (ShoppingItem.validate raw) as [it|]; [|exact (Hsame _ Hh)].
    destruct (insert_item _ _ _ _ _ _ _ st) as [s1| |] eqn:E;
      try exact (Hsame _ Hh).
    injection Hh as <- _. apply (insert_item_rows_ok _ _ _ _ _ _ _ st s1 Hok E).
  - unfold update_budget_inline in Hh.
    destruct (py_float_kind _) as [b| |]; try exact (Hsame _ Hh).
    destruct (negb (Qle_bool 0 b)); [exact (Hsame _ Hh)|].
    destruct (insert_budget b st) as [s1| |] eqn:E; try exact (Hsame _ Hh).
    injection Hh as <- _. apply (insert_budget_rows_ok b st s1 Hok E).
  - unfold update_budget in Hh.
    destruct (negb (Qle_bool 0 b)); [exact (Hsame _ Hh)|].
    destruct (insert_budget b st) as [s1| |] eqn:E; try exact (Hsame _ Hh).
    injection Hh as <- _. apply (insert_budget_rows_ok b st s1 Hok E).
  - unfold toggle_found in Hh. injection Hh as <- _.
    apply update_not_found_rows_ok, Hok.
  - unfold remove_item in Hh. injection Hh as <- _.
    apply delete_where_rows_ok, Hok.
  - unfold update_field in Hh.
    destruct (validate_field field value) as [msg|v]; [exact (Hsame _ Hh)|].
    destruct (update_set field v k st) as [s1| |] eqn:E;
      try exact (Hsame _ Hh); try discriminate Hh.
    injection Hh as <- _. apply (update_set_rows_ok field v k st s1 Hok E).
Qed.

Lemma startup_started : startup = Ok started.
Proof. vm_compute. reflexivity. Qed.

Lemma started_rows_ok : rows_ok started.
Proof.
  assert (H : forallb row_ok (shopping_list started) = true)
    by (vm_compute; reflexivity).
  exact (proj1 (forallb_forall row_ok (shopping_list started)) H).
Qed.

Lemma row_constraints_ok (r : Row) : row_constraints r = row_ok r.
Proof.
  unfold row_constraints, row_ok, column_ok.
  destruct (not_null (quantity r)), (check_ge0 (quantity r)),
    (not_null (cost r)), (check_ge0 (cost r)); reflexivity.
Qed.

Lemma table_constraints_rows (rows : list Row) :
  table_constraints rows = true ->
  distinct (map id rows) = true /\ forall r, In r rows -> row_ok r = true.
Proof.
  unfold table_constraints. intros H. apply andb_true_iff in H.
  destruct H as [Hd Hr]. split; [exact Hd|].
  intros r Hin. rewrite <- row_constraints_ok.
  exact (proj1 (forallb_forall _ _) Hr r Hin).
Qed.

(** In every state of the server the constraints on quantity and cost
    hold: neither is NULL and both pass their CHECK. *)
Lemma reachable_rows_ok (st : Store) : reachable st -> rows_ok st.
Proof.
  induction 1 as [st Hs|st rq st' resp _ IH Hh|st rq rows _ IH _ _ Ht].
  - assert (E : started = st) by (unfold started; rewrite Hs; reflexivity).
    rewrite <- E. apply started_rows_ok.
  - apply (handle_rows_ok rq st st' resp IH Hh).
  - unfold rows_ok. cbn [with_rows shopping_list].
    apply (table_constraints_rows rows Ht).
Qed.

(** C2.  The claim fails in the program.  The field of [update_field] is
    tested against "quantity" as it is written, while SQLite takes the name
    of a column in any letter case: under the field "Quantity" the value
    "-5abc" skips the validation and is stored, as a text, which passes
    the CHECK of the column because a text is above every number.  The
    state is one the server reaches from its start; in it the quantity of
    item 6 reads as -5 in arithmetic, its share of the total cost is
    -187.5, and the total cost is below what it was.  Under the field
    "quantity" the same value is refused. *)
Theorem C2_negative_quantity_reachable :
  exists st r,
    reachable st
    /\ update_field 6 "Quantity" "-5abc" started = Some (st, shopping_container st)
    /\ In r (shopping_list st) /\ id r = 6%Z
    /\ quantity r = VText "-5abc"
    /\ row_constraints r = true
    /\ numeric (quantity r) = Some (inject_Z (-5))
    /\ line_total r == - 187.5
    /\ get_total_cost st < get_total_cost started
    /\ update_field 6 "quantity" "-5abc" started
       = rejects "Invalid quantity format" started.
Proof.
  pose (st := update_rows 6 (set_quantity (VText "-5abc")) started).
  assert (E : update_field 6 "Quantity" "-5abc" started
              = Some (st, shopping_container st)).
  { apply (update_field_column 6 _ _ Cquantity (VText "-5abc"));
      [vm_compute; reflexivity|reflexivity|discriminate|vm_compute; reflexivity]. }
  exists st,
    {| id := 6; category := "Paint"; item := "Interior latex paint";
       quantity := VText "-5abc"; cost := VReal 37.5;
       notes := Some "Account for overspray, $25-$50/gal"%string;
       found := VInt 0; store := "Lowe's" |}.
  repeat match goal with |- _ /\ _ => split end.
  - exact (reach_request started (UpdateField 6 "Quantity" "-5abc") st _
             (reach_startup started startup_started) E).
  - exact E.
  - vm_compute. do 5 right. left. reflexivity.
  - reflexivity.
  - reflexivity.
  - reflexivity.
  - vm_compute. reflexivity.
  - vm_compute. reflexivity.
  - vm_compute. reflexivity.
  - apply update_field_rejected. vm_compute. reflexivity.
Qed.

(** ** Rounding to two fractional digits *)

(** C6.  Of the three operations that store a cost or a budget amount,
    only [add_item] rounds: the cost it stores is the submitted cost
    rounded to two fractional digits.  [update_field] on cost and both
    budget handlers store the number they parsed as it is, so that
    12.346 and 99.999 reach the tables although they round to 12.35 and
    100.00. *)
Theorem C6_rounding_only_on_add :
  (forall raw st,
     fst (add_item raw st) = st
     \/ exists r,
          shopping_list (fst (add_item raw st)) = (shopping_list st ++ [r])%list
          /\ cost r = VReal (round2 (ShoppingItem.cost raw)))
  /\ update_field 6 "cost" "12.346" started
     = updates 6 (set_cost (VReal 12.346)) started
  /\ round2 12.346 == 12.35
  /\ ~ 12.346 == round2 12.346
  /\ map amount (budget (fst (update_budget 99.999 started))) = [1000; 99.999]
  /\ map amount (budget (fst (update_budget_inline "99.999" started))) = [1000; 99.999]
  /\ round2 99.999 == 100
  /\ ~ 99.999 == round2 99.999.
Proof.
  repeat match goal with |- _ /\ _ => split end.
  - intros raw st. unfold add_item, ShoppingItem.validate.
    destruct ((0 <=? ShoppingItem.quantity raw)%Z
              && Qle_bool 0 (ShoppingItem.cost raw)); [|left; reflexivity].
    simpl. unfold insert_item.
    destruct (quantity_column (VInt (ShoppingItem.quantity raw))) as [q'| |];
      try (left; reflexivity).
    simpl. unfold cost_column. simpl.
    destruct (Qle_bool 0 (ShoppingItem.validate_cost (ShoppingItem.cost raw)));
      [|left; reflexivity].
    simpl. right. eexists. split; reflexivity.
  - apply (update_field_column 6 _ _ Ccost (VReal 12.346));
      [vm_compute; reflexivity|reflexivity|discriminate|reflexivity].
  - vm_compute. reflexivity.
  - vm_compute. discriminate.
  - vm_compute. reflexivity.
  - vm_compute. reflexivity.
  - vm_compute. reflexivity.
  - vm_compute. discriminate.
Qed.

(** ** Orders *)

Section Comparisons.

Context {A : Type}.

Lemma cmp_refl (cmp : A -> A -> comparison) :
  order_laws cmp -> forall a, cmp a a = Eq.
Proof.
  intros L a. pose proof (cmp_opp cmp L a a) as H.
  destruct (cmp a a); simpl in H; congruence.
Qed.

Lemma cmp_eq_right (cmp : A -> A -> comparison) :
  order_laws cmp -> forall a b c, cmp b c = Eq -> cmp a b = cmp a c.
Proof.
  intros L a b c H.
  rewrite (cmp_opp cmp L b a), (cmp_opp cmp L c a).
  f_equal. apply (cmp_eq_left cmp L). exact H.
Qed.

Lemma cmp_le_trans (cmp : A -> A -> comparison) :
  order_laws cmp ->
  forall a b c, cmp a b <> Gt -> cmp b c <> Gt -> cmp a c <> Gt.
Proof.
  intros L a b c Hab Hbc.
  destruct (cmp a b) eqn:Eab; [| |congruence].
  - rewrite (cmp_eq_left cmp L a b c Eab). exact Hbc.
  - destruct (cmp b c) eqn:Ebc; [| |congruence].
    + rewrite <- (cmp_eq_right cmp L a b c Ebc), Eab. discriminate.
    + rewrite (cmp_lt_trans cmp L a b c Eab Ebc). discriminate.
Qed.

Lemma cmp_total (cmp : A -> A -> comparison) :
  order_laws cmp -> forall a b, cmp a b <> Gt \/ cmp b a <> Gt.
Proof.
  intros L a b. rewrite (cmp_opp cmp L a b).
  destruct (cmp a b); simpl; [left|left|right]; discriminate.
Qed.

Lemma lex_laws (c1 c2 : A -> A -> comparison) :
  order_laws c1 -> order_laws c2 -> order_laws (lex c1 c2).
Proof.
  intros L1 L2. unfold lex. constructor.
  - intros a b. rewrite (cmp_opp c1 L1 a b).
    destruct (c1 a b); simpl; [apply (cmp_opp c2 L2)|reflexivity|reflexivity].
  - intros a b c Hab Hbc.
    destruct (c1 a b) eqn:Eab; [| |discriminate].
    + rewrite (cmp_eq_left c1 L1 a b c Eab).
      destruct (c1 b c) eqn:Ebc; [| reflexivity |discriminate].
      apply (cmp_lt_trans c2 L2 a b c Hab Hbc).
    + destruct (c1 b c) eqn:Ebc; [| |discriminate].
      * rewrite <- (cmp_eq_right c1 L1 a b c Ebc), Eab. reflexivity.
      * rewrite (cmp_lt_trans c1 L1 a b c Eab Ebc). reflexivity.
  - intros a b c Hab.
    destruct (c1 a b) eqn:Eab; try discriminate.
    rewrite (cmp_eq_left c1 L1 a b c Eab).
    destruct (c1 b c); [|reflexivity|reflexivity].
    apply (cmp_eq_left c2 L2 a b c Hab).
Qed.

Lemma on_laws {B : Type} (f : A -> B) (cmp : B -> B -> comparison) :
  order_laws cmp -> order_laws (fun a b => cmp (f a) (f b)).
Proof.
  intros L. constructor.
  - intros a b. apply (cmp_opp cmp L).
  - intros a b c. apply (cmp_lt_trans cmp L).
  - intros a b c. apply (cmp_eq_left cmp L).
Qed.

Lemma flip_laws (cmp : A -> A -> comparison) :
  order_laws cmp -> order_laws (fun a b => cmp b a).
Proof.
  intros L. constructor.
  - intros a b. apply (cmp_opp cmp L).
  - intros a b c Hab Hbc. apply (cmp_lt_trans cmp L c b a Hbc Hab).
  - intros a b c Hab. apply (cmp_eq_right cmp L).
    rewrite (cmp_opp cmp L), Hab. reflexivity.
Qed.

End Comparisons.

Lemma Z_compare_laws : order_laws Z.compare.
Proof.
  constructor.
  - intros a b. apply Z.compare_antisym.
  - intros a b c Hab Hbc. rewrite Z.compare_lt_iff in *. lia.
  - intros a b c Hab. apply Z.compare_eq in Hab. subst. reflexivity.
Qed.

Lemma Q_compare_laws : order_laws Qcompare.
Proof.
  constructor.
  - intros a b. symmetry. apply Qcompare_antisym.
  - intros a b c Hab Hbc. apply Qlt_alt in Hab, Hbc. apply Qlt_alt.
    exact (Qlt_trans _ _ _ Hab Hbc).
  - intros a b c Hab. apply Qeq_alt in Hab. rewrite Hab. reflexivity.
Qed.

Lemma ascii_compare_lt_trans (a b c : ascii) :
  Ascii.compare a b = Lt -> Ascii.compare b c = Lt -> Ascii.compare a c = Lt.
Proof.
  unfold Ascii.compare. intros Hab Hbc.
  apply N.compare_lt_iff in Hab, Hbc. apply N.compare_lt_iff.
  exact (N.lt_trans _ _ _ Hab Hbc).
Qed.

Lemma string_compare_lt_trans (a b c : string) :
  String.compare a b = Lt -> String.compare b c = Lt -> String.compare a c = Lt.
Proof.
  revert b c. induction a as [|x a IH]; intros [|y b] [|z c]; simpl;
    try discriminate; try reflexivity.
  destruct (Ascii.compare x y) eqn:Exy; try discriminate.
  - apply Ascii.compare_eq_iff in Exy. subst y.
    destruct (Ascii.compare x z); try discriminate; try reflexivity.
    apply IH.
  - intros _. destruct (Ascii.compare y z) eqn:Eyz; try discriminate.
    + apply Ascii.compare_eq_iff in Eyz. subst z. rewrite Exy. reflexivity.
    + rewrite (ascii_compare_lt_trans x y z Exy Eyz). reflexivity.
Qed.

Lemma string_compare_laws : order_laws String.compare.
Proof.
  constructor.
  - intros a b. apply String.compare_antisym.
  - apply string_compare_lt_trans.
  - intros a b c Hab. apply String.compare_eq_iff in Hab. subst. reflexivity.
Qed.

(** The order of ORDER BY is the order of the class, then of the number,
    then of the text. *)
Lemma sql_compare_lex (a b : value) :
  sql_compare a b
  = lex (fun a b => Z.compare (value_class a) (value_class b))
        (lex (fun a b => Qcompare (value_number a) (value_number b))
             (fun a b => String.compare (value_text a) (value_text b))) a b.
Proof.
  unfold lex.
  destruct a as [|m|p|s], b as [|n|q|t]; simpl; try reflexivity.
  - unfold Qcompare. simpl. rewrite !Z.mul_1_r.
    destruct (m ?= n)%Z; reflexivity.
  - destruct (inject_Z m ?= q); reflexivity.
  - destruct (p ?= inject_Z n); reflexivity.
  - destruct (p ?= q); reflexivity.
Qed.

Lemma sql_compare_laws : order_laws sql_compare.
Proof.
  assert (L : order_laws
    (lex (fun a b => Z.compare (value_class a) (value_class b))
         (lex (fun a b => Qcompare (value_number a) (value_number b))
              (fun a b => String.compare (value_text a) (value_text b))))).
  { apply lex_laws; [apply (on_laws value_class), Z_compare_laws|].
    apply lex_laws; [apply (on_laws value_number), Q_compare_laws|].
    apply (on_laws value_text), string_compare_laws. }
  constructor.
  - intros a b. rewrite !sql_compare_lex. apply (cmp_opp _ L).
  - intros a b c. rewrite !sql_compare_lex. apply (cmp_lt_trans _ L).
  - intros a b c. rewrite !sql_compare_lex. apply (cmp_eq_left _ L).
Qed.

Lemma list_order_laws : order_laws list_order.
Proof.
  assert (L : order_laws
    (lex (fun a b => sql_compare (found a) (found b))
         (lex (fun a b => String.compare (category a) (category b))
              (fun a b => Z.compare (id b) (id a))))).
  { apply lex_laws; [apply (on_laws found), sql_compare_laws|].
    apply lex_laws; [apply (on_laws category), string_compare_laws|].
    apply (flip_laws (fun a b => Z.compare (id a) (id b))).
    apply (on_laws id), Z_compare_laws. }
  exact L.
Qed.

(** ** ORDER BY *)

Section OrderBy.

Context {A : Type}.
Variable cmp : A -> A -> comparison.
Hypothesis laws : order_laws cmp.

Let leb (a b : A) : bool := match cmp a b with Gt => false | _ => true end.
Let le (a b : A) : Prop := cmp a b <> Gt.

Lemma leb_le (a b : A) : leb a b = true <-> le a b.
Proof.
  unfold leb, le. destruct (cmp a b); split; congruence.
Qed.

Lemma place_perm (x : A) (l : list A) : Permutation (place leb x l) (x :: l).
Proof.
  induction l as [|y l IH]; simpl.
  - apply Permutation_refl.
  - destruct (leb x y).
    + apply Permutation_refl.
    + apply (Permutation_trans (perm_skip y IH)). apply perm_swap.
Qed.

Lemma order_by_perm (l : list A) : Permutation (order_by leb l) l.
Proof.
  induction l as [|x l IH]; simpl.
  - apply perm_nil.
  - apply (Permutation_trans (place_perm x _)). apply perm_skip, IH.
Qed.

Lemma place_sorted (x : A) (l : list A) :
  StronglySorted le l -> StronglySorted le (place leb x l).
Proof.
  induction 1 as [|y l Hs IH Hall]; simpl.
  - constructor; constructor.
  - destruct (leb x y) eqn:E.
    + apply leb_le in E. constructor.
      * constructor; assumption.
      * constructor; [exact E|].
        apply Forall_forall. intros z Hz.
        rewrite Forall_forall in Hall.
        apply (cmp_le_trans cmp laws x y z E (Hall z Hz)).
    + assert (Hyx : le y x).
      { destruct (cmp_total cmp laws x y) as [H|H]; [|exact H].
        apply leb_le in H. congruence. }
      constructor; [exact IH|].
      apply Forall_forall. intros z Hz.
      apply (Permutation_in _ (place_perm x l)) in Hz.
      destruct Hz as [<-|Hz]; [exact Hyx|].
      rewrite Forall_forall in Hall. apply Hall, Hz.
Qed.

Lemma order_by_sorted (l : list A) : StronglySorted le (order_by leb l).
Proof.
  induction l as [|x l IH]; simpl.
  - constructor.
  - apply place_sorted, IH.
Qed.

End OrderBy.

Lemma strongly_sorted_filter {A : Type} (R : A -> A -> Prop) (f : A -> bool)
    (l : list A) :
  StronglySorted R l -> StronglySorted R (filter f l).
Proof.
  induction 1 as [|x l Hs IH Hall]; simpl.
  - constructor.
  - destruct (f x); [|exact IH].
    constructor; [exact IH|].
    apply Forall_forall. intros y Hy. apply filter_In in Hy.
    rewrite Forall_forall in Hall. apply Hall, Hy.
Qed.


Lemma fetched_rows_sorted (st : Store) :
  StronglySorted (fun a b => list_order a b <> Gt)
                 (order_by list_leb (shopping_list st)).
Proof.
  apply (order_by_sorted list_order list_order_laws).
Qed.

Lemma fetched_rows_perm (st : Store) :
  Permutation (order_by list_leb (shopping_list st)) (shopping_list st).
Proof.
  apply (order_by_perm list_order).
Qed.

(** ** Grouping by category *)

Lemma fold_left_prefix {A B : Type} (f : B -> A -> B) (P : B -> list A -> Prop)
    (l : list A) (b : B) :
  P b [] ->
  (forall acc seen x, P acc seen -> P (f acc x) (seen ++ [x])) ->
  P (fold_left f l b) l.
Proof.
  intros H0 Hstep.
  assert (G : forall seen acc, P acc seen -> P (fold_left f l acc) (seen ++ l)).
  { induction l as [|x l IH]; simpl; intros seen acc H.
    - rewrite app_nil_r. exact H.
    - replace (seen ++ x :: l) with ((seen ++ [x]) ++ l)
        by (rewrite <- app_assoc; reflexivity).
      apply IH, Hstep, H. }
  apply (G [] b H0).
Qed.

Lemma append_to_keys (c : string) (r : Row) (cats : categories) (k : string) :
  In k (map fst (append_to c r cats)) <-> k = c \/ In k (map fst cats).
Proof.
  induction cats as [|[k' rs] cats IH]; simpl.
  - intuition.
  - destruct (String.eqb_spec k' c) as [->|Hne]; simpl.
    + intuition.
    + rewrite IH. intuition.
Qed.

Lemma append_to_nodup (c : string) (r : Row) (cats : categories) :
  NoDup (map fst cats) -> NoDup (map fst (append_to c r cats)).
Proof.
  induction cats as [|[k' rs] cats IH]; simpl; intros H.
  - constructor; [intros []|constructor].
  - inversion H as [|? ? Hnot Hnd]; subst.
    destruct (String.eqb_spec k' c) as [->|Hne]; simpl.
    + constructor; assumption.
    + constructor; [|apply IH, Hnd].
      intros Hin. apply append_to_keys in Hin. destruct Hin as [->|Hin]; auto.
Qed.

Lemma append_to_in (c : string) (r : Row) (cats : categories) (k : string)
    (rs : list Row) :
  NoDup (map fst cats) ->
  In (k, rs) (append_to c r cats) ->
  (k <> c /\ In (k, rs) cats)
  \/ (k = c /\ ((exists old, In (c, old) cats /\ rs = (old ++ [r])%list)
               \/ (~ In c (map fst cats) /\ rs = [r]))).
Proof.
  induction cats as [|[k' rs'] cats IH]; simpl; intros Hnd Hin.
  - destruct Hin as [E|[]]. injection E as <- <-.
    right. split; [reflexivity|]. right. split; [intros []|reflexivity].
  - inversion Hnd as [|? ? Hnot Hnd']; subst.
    destruct (String.eqb_spec k' c) as [->|Hne]; simpl in Hin.
    + destruct Hin as [E|Hin].
      * injection E as <- <-. right. split; [reflexivity|].
        left. exists rs'. split; [left; reflexivity|reflexivity].
      * left. split; [|right; exact Hin].
        intros ->. apply Hnot. apply (in_map fst) in Hin. exact Hin.
    + destruct Hin as [E|Hin].
      * injection E as <- <-. left. split; [exact Hne|left; reflexivity].
      * destruct (IH Hnd' Hin) as [[Hk Hc]|[Hk [(old & Ho & Hr)|[Hn Hr]]]].
        -- left. split; [exact Hk|right; exact Hc].
        -- right. split; [exact Hk|]. left. exists old. split; [right; exact Ho|exact Hr].
        -- right. split; [exact Hk|]. right. split; [|exact Hr].
           intros [F|F]; [exact (Hne F)|exact (Hn F)].
Qed.

Lemma append_to_perm (c : string) (r : Row) (cats : categories) :
  Permutation (List.concat (map snd (append_to c r cats)))
              (List.concat (map snd cats) ++ [r]).
Proof.
  induction cats as [|[k' rs'] cats IH]; simpl.
  - apply Permutation_refl.
  - destruct (String.eqb_spec k' c) as [->|Hne]; simpl.
    + rewrite <- !app_assoc. apply Permutation_app_head.
      apply Permutation_app_comm.
    + rewrite <- app_assoc. apply Permutation_app_head, IH.
Qed.

Lemma filter_snoc {A : Type} (f : A -> bool) (l : list A) (x : A) :
  filter f (l ++ [x]) = (filter f l ++ (if f x then [x] else []))%list.
Proof.
  rewrite filter_app. simpl. destruct (f x); reflexivity.
Qed.

Lemma grouped_step (cats : categories) (seen : list Row) (r : Row) :
  grouped cats seen -> grouped (append_to (category r) r cats) (seen ++ [r]).
Proof.
  intros (Hnd & Hin & Hkeys & Hperm). unfold grouped.
  repeat match goal with |- _ /\ _ => split end.
  - apply append_to_nodup, Hnd.
  - intros k rs H. rewrite filter_snoc. unfold has_category at 2.
    destruct (append_to_in _ _ _ _ _ Hnd H)
      as [[Hk Hc]|[-> [(old & Ho & ->)|[Hn ->]]]].
    + destruct (Hin k rs Hc) as [Hne Hrs].
      destruct (String.eqb_spec (category r) k) as [E|_]; [congruence|].
      rewrite app_nil_r. split; assumption.
    + destruct (Hin _ old Ho) as [Hne Hrs].
      rewrite String.eqb_refl, <- Hrs.
      split; [|reflexivity]. intros F. apply app_eq_nil in F.
      destruct F as [_ F]. discriminate F.
    + rewrite String.eqb_refl.
      destruct (filter (has_category (category r)) seen) eqn:E.
      * split; [discriminate|reflexivity].
      * exfalso. apply Hn, Hkeys. rewrite E. discriminate.
  - intros k H. apply append_to_keys. rewrite filter_snoc in H.
    unfold has_category at 2 in H.
    destruct (String.eqb_spec (category r) k) as [E|_]; [left; congruence|].
    right. apply Hkeys. rewrite app_nil_r in H. exact H.
  - apply (Permutation_trans (append_to_perm _ _ _)).
    apply Permutation_app_tail, Hperm.
Qed.

Lemma group_rows_grouped (items : list Row) : grouped (group_rows items) items.
Proof.
  unfold group_rows.
  apply (fold_left_prefix (fun cats r => append_to (category r) r cats) grouped).
  - unfold grouped. simpl.
    repeat match goal with |- _ /\ _ => split end.
    + constructor.
    + intros k rs [].
    + intros k H. apply H. reflexivity.
    + apply perm_nil.
  - intros acc seen x. apply grouped_step.
Qed.

(** ** Sorting in the presentation layer *)

Section PySortedTotal.

Context {A : Type}.
Variable ltb : A -> A -> bool.
Hypothesis ltb_asym : forall a b, ltb a b = true -> ltb b a = false.
Hypothesis geb_trans :
  forall a b c, ltb b a = false -> ltb c b = false -> ltb c a = false.

Let lt (a b : A) : result bool := Return (ltb a b).



End PySortedTotal.







(** ** The grouped list and its rendering *)

Lemma nodup_map_filter {A B : Type} (g : A -> B) (f : A -> bool) (l : list A) :
  NoDup (map g l) -> NoDup (map g (filter f l)).
Proof.
  induction l as [|x l IH]; simpl; intros H.
  - constructor.
  - inversion H as [|? ? Hnot Hnd]; subst.
    destruct (f x); simpl; [|apply IH, Hnd].
    constructor; [|apply IH, Hnd].
    intros Hin. apply Hnot. apply in_map_iff in Hin.
    destruct Hin as (y & Hy & Hin). apply filter_In in Hin.
    rewrite <- Hy. apply in_map, Hin.
Qed.


Lemma group_member (st : Store) (k : string) (rs : list Row) :
  In (k, rs) (fetch_shopping_list st) ->
  rs <> [] /\ rs = filter (has_category k) (order_by list_leb (shopping_list st)).
Proof.
  destruct (group_rows_grouped (order_by list_leb (shopping_list st)))
    as (_ & Hin & _ & _).
  apply Hin.
Qed.


Lemma group_sorted (st : Store) (k : string) (rs : list Row) :
  In (k, rs) (fetch_shopping_list st) ->
  StronglySorted (fun a b => list_order a b <> Gt) rs.
Proof.
  intros Hg. destruct (group_member st k rs Hg) as [_ E]. rewrite E.
  apply strongly_sorted_filter, fetched_rows_sorted.
Qed.








Lemma distinct_nodup (ks : list Z) : distinct ks = true -> NoDup ks.
Proof.
  induction ks as [|k ks IH]; simpl; intros H.
  - constructor.
  - apply andb_true_iff in H. destruct H as [Hn Hd].
    constructor; [|apply IH, Hd].
    intros Hin. apply negb_true_iff in Hn.
    assert (E : existsb (Z.eqb k) ks = true).
    { apply existsb_exists. exists k. split; [exact Hin|apply Z.eqb_refl]. }
    congruence.
Qed.




(** The primary key stays unique in every state the server reaches, which
    is what the grouped list asks of the store. *)

Lemma assign_keeps_id (c : column) (v : value) (r r' : Row) :
  c <> Cid -> assign c v r = Ok r' -> id r' = id r.
Proof.
  intros Hc Ha. destruct c; simpl in Ha; try contradiction.
  - destruct (text_not_null v); try discriminate. injection Ha as <-. reflexivity.
  - destruct (text_not_null v); try discriminate. injection Ha as <-. reflexivity.
  - destruct (quantity_column v); try discriminate. injection Ha as <-. reflexivity.
  - destruct (cost_column v); try discriminate. injection Ha as <-. reflexivity.
  - destruct (text_nullable v); try discriminate. injection Ha as <-. reflexivity.
  - unfold found_column in Ha. simpl in Ha. injection Ha as <-. reflexivity.
  - destruct (text_not_null v); try discriminate. injection Ha as <-. reflexivity.
Qed.

Lemma assign_where_keeps_ids (c : column) (v : value) (key : Z)
    (rows rows' : list Row) :
  c <> Cid -> assign_where c v key rows = Ok rows' -> map id rows' = map id rows.
Proof.
  intros Hc. revert rows'. induction rows as [|r rows IH]; simpl; intros rows' Ha.
  - injection Ha as <-. reflexivity.
  - destruct (if (id r =? key)%Z then assign c v r else Ok r) as [r1| |] eqn:E1;
      try discriminate Ha.
    simpl in Ha.
    destruct (assign_where c v key rows) as [rest| |]; try discriminate Ha.
    simpl in Ha. injection Ha as <-. simpl. f_equal.
    + destruct (id r =? key)%Z.
      * apply (assign_keeps_id c v r r1 Hc E1).
      * injection E1 as <-. reflexivity.
    + apply IH. reflexivity.
Qed.

Lemma is_key_false (c : column) : is_key c = false -> c <> Cid.
Proof. intros H ->. discriminate H. Qed.

Lemma assign_both_keeps_id (c1 : column) (l : value) (c2 : column) (v : value)
    (r r' : Row) :
  c1 <> Cid -> c2 <> Cid -> assign_both c1 l c2 v r = Ok r' -> id r' = id r.
Proof.
  unfold assign_both. intros H1 H2 Ha.
  destruct (same_column c1 c2).
  - apply (assign_keeps_id c2 v r r' H2 Ha).
  - destruct (assign c1 l r) as [r1| |] eqn:E; try discriminate Ha.
    simpl in Ha.
    rewrite (assign_keeps_id c2 v r1 r' H2 Ha).
    apply (assign_keeps_id c1 l r r1 H1 E).
Qed.

Lemma assign_both_where_keeps_ids (c1 : column) (l : value) (c2 : column)
    (v : value) (key : Z) (rows rows' : list Row) :
  c1 <> Cid -> c2 <> Cid ->
  assign_both_where c1 l c2 v key rows = Ok rows' -> map id rows' = map id rows.
Proof.
  intros H1 H2. revert rows'.
  induction rows as [|r rows IH]; simpl; intros rows' Ha.
  - injection Ha as <-. reflexivity.
  - destruct (if (id r =? key)%Z then assign_both c1 l c2 v r else Ok r)
      as [r1| |] eqn:E1; try discriminate Ha.
    simpl in Ha.
    destruct (assign_both_where c1 l c2 v key rows) as [rest| |];
      try discriminate Ha.
    simpl in Ha. injection Ha as <-. simpl. f_equal.
    + destruct (id r =? key)%Z.
      * apply (assign_both_keeps_id c1 l c2 v r r1 H1 H2 E1).
      * injection E1 as <-. reflexivity.
    + apply IH. reflexivity.
Qed.

Lemma update_set_keys (field : string) (v : value) (key : Z) (st st' : Store) :
  NoDup (map id (shopping_list st)) -> update_set field v key st = Ok st' ->
  NoDup (map id (shopping_list st')).
Proof.
  unfold update_set. intros Hnd Hu.
  destruct (resolve field) as [c| |]; simpl in Hu.
  - destruct (assign_where c v key (shopping_list st)) as [rows| |] eqn:E;
      try discriminate Hu.
    simpl in Hu.
    assert (Hcases : c = Cid \/ c <> Cid)
      by (destruct c; (left; reflexivity) || (right; discriminate)).
    destruct Hcases as [->|Hc].
    + destruct (distinct (map id rows)) eqn:D; [|discriminate Hu].
      injection Hu as <-. simpl. apply distinct_nodup, D.
    + assert (Hu' : Ok (with_rows rows st) = Ok st')
        by (destruct c; try contradiction; exact Hu).
      injection Hu' as <-. simpl.
      rewrite (assign_where_keeps_ids c v key _ rows Hc E). exact Hnd.
  - discriminate Hu.
  - destruct (update_spliced_rows field v key st st' Hu)
      as (n1 & l & n2 & c1 & c2 & rows & _ & _ & _ & E & D & ->).
    cbn [with_rows shopping_list].
    destruct (is_key c1 || is_key c2) eqn:K.
    + apply distinct_nodup, D. reflexivity.
    + apply orb_false_iff in K. destruct K as [K1 K2].
      rewrite (assign_both_where_keeps_ids c1 (VText l) c2 v key _ rows
                 (is_key_false c1 K1) (is_key_false c2 K2) E).
      exact Hnd.
Qed.

Lemma insert_item_keys (c i : string) (q k : value) (n : option string)
    (f : value) (s : string) (st st' : Store) :
  NoDup (map id (shopping_list st)) -> insert_item c i q k n f s st = Ok st' ->
  NoDup (map id (shopping_list st')).
Proof.
  unfold insert_item. intros Hnd Hi.
  destruct (quantity_column q); try discriminate Hi. simpl in Hi.
  destruct (cost_column k); try discriminate Hi. simpl in Hi.
  injection Hi as <-. simpl. rewrite map_app. simpl.
  apply NoDup_app_remove_l with (l := []). simpl.
  apply (Permutation_NoDup (l := next_key (shopping_seq st) (map id (shopping_list st))
                                  :: map id (shopping_list st))).
  - apply Permutation_cons_append.
  - constructor; [|exact Hnd].
    intros Hin. apply (next_key_fresh (shopping_seq st)) in Hin. lia.
Qed.

Lemma handle_keys (rq : request) (st st' : Store) (resp : response) :
  NoDup (map id (shopping_list st)) -> handle rq st = Some (st', resp) ->
  NoDup (map id (shopping_list st')).
Proof.
  intros Hnd Hh.
  assert (Hsame : forall r, Some (st, r) = Some (st', resp) ->
                    NoDup (map id (shopping_list st'))).
  { intros r H. injection H as <- _. exact Hnd. }
  destruct rq as [raw|value|b|k|k|k field value]; simpl in Hh.
  - unfold add_item in Hh.
    destruct (ShoppingItem.validate raw) as [it|]; [|exact (Hsame _ Hh)].
    destruct (insert_item _ _ _ _ _ _ _ st) as [s1| |] eqn:E;
      try exact (Hsame _ Hh).
    injection Hh as <- _. apply (insert_item_keys _ _ _ _ _ _ _ st s1 Hnd E).
  - unfold update_budget_inline, insert_budget in Hh.
    destruct (py_float_kind _) as [b| |]; try exact (Hsame _ Hh).
    destruct (negb (Qle_bool 0 b)); [exact (Hsame _ Hh)|].
    destruct (Qle_bool 0 b); [|exact (Hsame _ Hh)].
    injection Hh as <- _. exact Hnd.
  - unfold update_budget, insert_budget in Hh.
    destruct (negb (Qle_bool 0 b)); [exact (Hsame _ Hh)|].
    destruct (Qle_bool 0 b); [|exact (Hsame _ Hh)].
    injection Hh as <- _. exact Hnd.
  - unfold toggle_found, update_not_found in Hh. injection Hh as <- _. simpl.
    rewrite map_map.
    rewrite (map_ext _ id); [exact Hnd|].
    intros r. destruct (id r =? k)%Z; reflexivity.
  - unfold remove_item, delete_where in Hh. injection Hh as <- _. simpl.
    apply nodup_map_filter, Hnd.
  - unfold update_field in Hh.
    destruct (validate_field field value) as [msg|v]; [exact (Hsame _ Hh)|].
    destruct (update_set field v k st) as [s1| |] eqn:E;
      try exact (Hsame _ Hh); try discriminate Hh.
    injection Hh as <- _. apply (update_set_keys field v k st s1 Hnd E).
Qed.

Lemma reachable_keys (st : Store) :
  reachable st -> NoDup (map id (shopping_list st)).
Proof.
  induction 1 as [st Hs|st rq st' resp _ IH Hh|st rq rows _ IH _ _ Ht].
  - assert (E : started = st) by (unfold started; rewrite Hs; reflexivity).
    rewrite <- E. apply distinct_nodup. vm_compute. reflexivity.
  - apply (handle_keys rq st st' resp IH Hh).
  - cbn [with_rows shopping_list].
    apply distinct_nodup, (table_constraints_rows rows Ht).
Qed.

(** ** What the missing type validation lets through

    Two states the server reaches, which the theorems above are worded
    around.  A text in found stops the rendering of the list: Python does
    not compare a string with an integer.  And the name of a column in
    another letter case skips the numeric validation, so that a text which
    is no numeral reaches quantity; its CHECK holds, a text being above
    every number, while the arithmetic of the total reads its numeric
    prefix. *)

Example found_text_stops_rendering :
  update_field 6 "found" "yes" started
  = Some (update_rows 6 (set_found (VText "yes")) started, Raises TypeError).
Proof. vm_compute. reflexivity. Qed.

Example quantity_text_under_other_case :
  update_field 6 "Quantity" "-5abc" started
  = updates 6 (set_quantity (VText "-5abc")) started
  /\ get_total_cost (update_rows 6 (set_quantity (VText "-5abc")) started)
     < get_total_cost started.
Proof.
  split.
  - apply (update_field_column 6 _ _ Cquantity (VText "-5abc"));
      [vm_compute; reflexivity|reflexivity|discriminate|vm_compute; reflexivity].
  - vm_compute. reflexivity.
Qed.

(** ** Removing, toggling and editing one item *)



Lemma filter_where_none (key : Z) (rows : list Row) :
  (forall r, In r rows -> id r <> key) ->
  filter (fun r => negb (id r =? key)%Z) rows = rows.
Proof.
  induction rows as [|r rows IH]; simpl; intros H.
  - reflexivity.
  - rewrite IH by (intros r' Hr'; apply H; right; exact Hr').
    destruct (id r =? key)%Z eqn:E.
    + apply Z.eqb_eq in E. elim (H r (or_introl eq_refl) E).
    + reflexivity.
Qed.



(** X1.  remove_item deletes the rows with the given id and nothing
    else: the other rows stay, in their order; the budget and the counter
    of the keys are as before; an id no item has leaves the store as it
    was; removing again changes nothing more; and two removals give the
    same store in either order. *)
Theorem X1_remove_item (item_id : Z) (st : Store) :
  (forall r, In r (shopping_list (fst (remove_item item_id st)))
             <-> In r (shopping_list st) /\ id r <> item_id)
  /\ (forall l1 x l2 y l3,
        shopping_list (fst (remove_item item_id st)) = l1 ++ x :: l2 ++ y :: l3 ->
        exists m1 m2 m3, shopping_list st = m1 ++ x :: m2 ++ y :: m3)
  /\ budget (fst (remove_item item_id st)) = budget st
  /\ shopping_seq (fst (remove_item item_id st)) = shopping_seq st
  /\ (unknown_id item_id st -> fst (remove_item item_id st) = st)
  /\ fst (remove_item item_id (fst (remove_item item_id st)))
     = fst (remove_item item_id st)
  /\ (forall other,
        fst (remove_item other (fst (remove_item item_id st)))
        = fst (remove_item item_id (fst (remove_item other st)))).
Proof.
  unfold remove_item, delete_where, with_rows; simpl.
  repeat match goal with |- _ /\ _ => split end; try reflexivity.
  - intros r. rewrite filter_In, negb_true_iff, Z.eqb_neq. reflexivity.
  - generalize (shopping_list st) as rows.
    intros rows l1 x l2 y l3.
    revert l1. induction rows as [|r rows IH]; simpl; intros l1 H.
    + destruct l1; discriminate H.
    + destruct (negb (id r =? item_id)%Z).
      * destruct l1 as [|a l1]; simpl in H.
        -- injection H as -> H. exists [].
           clear IH. revert l2 H.
           induction rows as [|r' rows IH]; simpl; intros l2 H.
           ++ destruct l2; discriminate H.
           ++ destruct (negb (id r' =? item_id)%Z).
              ** destruct l2 as [|b l2]; simpl in H.
                 --- injection H as -> H. exists [], rows. reflexivity.
                 --- injection H as -> H. destruct (IH l2 H) as (m2 & m3 & E).
                     simpl in E. injection E as E.
                     exists (b :: m2), m3. simpl. rewrite E. reflexivity.
              ** destruct (IH l2 H) as (m2 & m3 & E).
                 simpl in E. injection E as E.
                 exists (r' :: m2), m3. simpl. rewrite E. reflexivity.
        -- injection H as -> H. destruct (IH l1 H) as (m1 & m2 & m3 & E).
           exists (a :: m1), m2, m3. simpl. rewrite E. reflexivity.
      * destruct (IH l1 H) as (m1 & m2 & m3 & E).
        exists (r :: m1), m2, m3. simpl. rewrite E. reflexivity.
  - intros H. rewrite (filter_where_none item_id _ H).
    destruct st; reflexivity.
  - f_equal. induction (shopping_list st) as [|r rows IH]; simpl.
    + reflexivity.
    + destruct (id r =? item_id)%Z eqn:E; simpl.
      * exact IH.
      * rewrite E. simpl. rewrite IH. reflexivity.
  - intros other. f_equal.
    induction (shopping_list st) as [|r rows IH]; simpl.
    + reflexivity.
    + destruct (id r =? item_id)%Z eqn:E; destruct (id r =? other)%Z eqn:E';
        simpl; rewrite ?E, ?E'; simpl; rewrite IH; reflexivity.
Qed.


Lemma toggled_flag (r : Row) :
  found (toggled r) = VInt 0 \/ found (toggled r) = VInt 1
  \/ (found (toggled r) = VNull /\ found r = VNull).
Proof.
  unfold toggled, sql_not. simpl.
  destruct (found r) as [|n|q|s]; simpl.
  - right. right. split; reflexivity.
  - destruct (Qeq_bool (inject_Z n) 0); auto.
  - destruct (Qeq_bool q 0); auto.
  - destruct (Qeq_bool (sql_prefix_value s) 0); auto.
Qed.

Lemma toggled_thrice (r : Row) : toggled (toggled (toggled r)) = toggled r.
Proof.
  destruct (toggled_flag r) as [H|[H|[H _]]].
  - apply (toggle_boolean_twice (toggled r)). left. exact H.
  - apply (toggle_boolean_twice (toggled r)). right. exact H.
  - assert (E : forall x, found x = VNull -> toggled x = x).
    { intros x Hx. unfold toggled. rewrite Hx.
      change (set_found VNull x = x). rewrite <- Hx.
      destruct x; reflexivity. }
    rewrite (E _ H). apply (E _ H).
Qed.

(** X5.  toggle_found writes the found flag of the rows with the given id
    and nothing else: every row keeps its other columns, a row with
    another id is as before, and so are the total cost and the budget.
    The flag it leaves is 0 or 1, or NULL where it was NULL.  Toggling
    three times is toggling once, whatever the flag held. *)
Theorem X5_toggle_found (item_id : Z) (st : Store) :
  Forall2 (fun r r' => r' = set_found (found r') r
                       /\ (id r <> item_id -> r' = r)
                       /\ (id r = item_id ->
                           found r' = VInt 0 \/ found r' = VInt 1
                           \/ (found r' = VNull /\ found r = VNull)))
          (shopping_list st) (shopping_list (fst (toggle_found item_id st)))
  /\ get_total_cost (fst (toggle_found item_id st)) = get_total_cost st
  /\ budget (fst (toggle_found item_id st)) = budget st
  /\ fst (toggle_found item_id (fst (toggle_found item_id
       (fst (toggle_found item_id st)))))
     = fst (toggle_found item_id st).
Proof.
  unfold toggle_found, update_not_found, with_rows; simpl.
  repeat match goal with |- _ /\ _ => split end; try reflexivity.
  - induction (shopping_list st) as [|r rows IH]; simpl; constructor.
    + destruct (id r =? item_id)%Z eqn:E.
      * apply Z.eqb_eq in E. split; [reflexivity|]. split.
        -- intros H. elim (H E).
        -- intros _. apply (toggled_flag r).
      * apply Z.eqb_neq in E. split; [destruct r; reflexivity|]. split.
        -- reflexivity.
        -- intros H. elim (E H).
    + exact IH.
  - unfold get_total_cost; simpl. rewrite map_map.
    rewrite (map_ext _ (fun r => sql_mul (cost r) (quantity r))); [reflexivity|].
    intros r. destruct (id r =? item_id)%Z; reflexivity.
  - f_equal. rewrite !map_map. apply map_ext. intros r.
    destruct (id r =? item_id)%Z eqn:E; simpl; rewrite ?E; simpl; rewrite ?E.
    + apply (toggled_thrice r).
    + reflexivity.
Qed.



(** ** Adding an item *)

Lemma round_half_even_nonneg (q : Q) : 0 <= q -> (0 <= round_half_even q)%Z.
Proof.
  intros H. unfold round_half_even.
  assert (F : (0 <= Qfloor q)%Z).
  { change 0%Z with (Qfloor 0). apply Qfloor_resp_le, H. }
  destruct (q - inject_Z (Qfloor q) ?= 1 # 2); [destruct (Z.even _)| |]; lia.
Qed.

Lemma pow2_nonneg (e : Z) : 0 <= Double.pow2 e.
Proof.
  assert (P : forall k, 0 <= inject_Z (2 ^ k)).
  { intros k. change 0 with (inject_Z 0). rewrite <- Zle_Qle.
    apply Z.pow_nonneg. lia. }
  unfold Double.pow2. destruct (0 <=? e)%Z.
  - apply P.
  - unfold Qdiv. rewrite Qmult_1_l. apply Qinv_le_0_compat, P.
Qed.

(** Rounding to binary64 gives a number of the sign it was given. *)
Lemma round_aux_nonneg (mx ex : Z) (lx : location) :
  0 <= Double.to_Q (binary_round_aux Double.prec Double.emax false mx ex lx).
Proof.
  unfold binary_round_aux.
  destruct (shr_fexp _ _ mx ex lx) as [m1 e1].
  destruct (shr_fexp _ _ _ e1 loc_Exact) as [m2 e2].
  destruct (shr_m m2) as [|m|m]; [|destruct (e2 <=? _)%Z|]; cbn [Double.to_Q].
  - apply Qle_refl.
  - apply Qmult_le_0_compat; [discriminate|apply pow2_nonneg].
  - unfold Double.huge. change 0 with (inject_Z 0). rewrite <- Zle_Qle.
    apply Z.pow_nonneg. lia.
  - apply Qle_refl.
Qed.

Lemma of_Q_nonneg (v : Q) : 0 <= v -> 0 <= Double.to_Q (Double.of_Q v).
Proof.
  intros H. unfold Double.of_Q. cbv zeta.
  assert (E : (Qnum v <? 0)%Z = false).
  { apply Z.ltb_ge. unfold Qle in H. simpl in H. lia. }
  rewrite E. apply round_aux_nonneg.
Qed.

Lemma hundredth_nonneg (n : Z) : (0 <= n)%Z -> 0 <= inject_Z n / 100.
Proof.
  intros N. unfold Qle, Qdiv, Qmult, Qinv, inject_Z; simpl.
  rewrite Z.mul_1_r. apply Z.mul_nonneg_nonneg; [exact N|lia].
Qed.

Lemma round2_nonneg (v : Q) : 0 <= v -> 0 <= round2 v.
Proof.
  intros H. pose proof (of_Q_nonneg v H) as N. unfold round2.
  destruct (Double.of_Q v) as [s|s| |s m e]; try exact H;
    apply hundredth_nonneg, round_half_even_nonneg,
      Qmult_le_0_compat; try exact N; discriminate.
Qed.

Lemma add_item_valid (raw : ShoppingItem.t) (st : Store) :
  (0 <= ShoppingItem.quantity raw)%Z -> 0 <= ShoppingItem.cost raw ->
  fst (add_item raw st)
  = {| shopping_list := shopping_list st ++
         [{| id := next_key (shopping_seq st) (map id (shopping_list st));
             category := ShoppingItem.category raw;
             item := ShoppingItem.item raw;
             quantity := VInt (ShoppingItem.quantity raw);
             cost := VReal (round2 (ShoppingItem.cost raw));
             notes := ShoppingItem.notes raw;
             found := VInt 0;
             store := ShoppingItem.store raw |}];
       shopping_seq := next_key (shopping_seq st) (map id (shopping_list st));
       budget := budget st;
       budget_seq := budget_seq st |}.
Proof.
  intros Hq Hc. unfold add_item, ShoppingItem.validate.
  apply Z.leb_le in Hq. rewrite Hq.
  rewrite (proj2 (Qle_bool_iff _ _) Hc). simpl.
  unfold insert_item, quantity_column, cost_column, found_column. simpl.
  apply Z.leb_le in Hq. rewrite (proj2 (Z.leb_le _ _) Hq).
  unfold ShoppingItem.validate_cost.
  rewrite (proj2 (Qle_bool_iff _ _) (round2_nonneg _ Hc)). simpl.
  reflexivity.
Qed.

(** X3.  add_item with a quantity and a cost that are not negative stores
    the item, as long as the quantity and the next key are 64-bit
    integers: one row is appended, with the fields of the form, the cost
    rounded to two places as [round] rounds the binary64 number, found 0,
    and the key after the largest key the table has seen; the other rows
    and the budget are as before. *)
Theorem X3_add_item (raw : ShoppingItem.t) (st : Store)
    (Hq : (0 <= ShoppingItem.quantity raw < 2 ^ 63)%Z)
    (Hc : 0 <= ShoppingItem.cost raw)
    (Hk : (top_key st < 2 ^ 63 - 1)%Z) :
  exists r,
    shopping_list (fst (add_item raw st)) = shopping_list st ++ [r]
    /\ category r = ShoppingItem.category raw
    /\ item r = ShoppingItem.item raw
    /\ quantity r = VInt (ShoppingItem.quantity raw)
    /\ cost r = VReal (round2 (ShoppingItem.cost raw))
    /\ notes r = ShoppingItem.notes raw
    /\ found r = VInt 0
    /\ store r = ShoppingItem.store raw
    /\ id r = (top_key st + 1)%Z
    /\ (forall r', In r' (shopping_list st) -> (id r' < id r)%Z)
    /\ (shopping_seq st < id r)%Z
    /\ shopping_seq (fst (add_item raw st)) = id r
    /\ budget (fst (add_item raw st)) = budget st.
Proof.
  destruct Hq as [Hq _].
  rewrite (add_item_valid raw st Hq Hc). simpl.
  eexists. split; [reflexivity|]. simpl.
  repeat match goal with |- _ /\ _ => split end; try reflexivity.
  - intros r' Hin. apply next_key_fresh, in_map, Hin.
  - unfold next_key. lia.
Qed.

Lemma X3_add_item_witness :
  exists r,
    shopping_list (fst (add_item
      {| ShoppingItem.category := "Paint"; ShoppingItem.item := "Primer";
         ShoppingItem.quantity := 2; ShoppingItem.cost := 2.675;
         ShoppingItem.notes := None; ShoppingItem.store := "Lowe's" |} started))
    = shopping_list started ++ [r]
    /\ id r = 30%Z /\ found r = VInt 0 /\ cost r = VReal 2.67.
Proof.
  destruct (X3_add_item
    {| ShoppingItem.category := "Paint"; ShoppingItem.item := "Primer";
       ShoppingItem.quantity := 2; ShoppingItem.cost := 2.675;
       ShoppingItem.notes := None; ShoppingItem.store := "Lowe's" |} started)
    as (r & Hl & _ & _ & _ & Hk & _ & Hf & _ & Hi & _).
  - simpl. lia.
  - simpl. discriminate.
  - vm_compute. reflexivity.
  - exists r. split; [exact Hl|]. split; [|split; [exact Hf|]].
    + rewrite Hi. vm_compute. reflexivity.
    + rewrite Hk. vm_compute. reflexivity.
Defined.

Lemma update_set_seq (field : string) (v : value) (key : Z) (st st' : Store) :
  update_set field v key st = Ok st' ->
  shopping_seq st' = shopping_seq st /\ budget st' = budget st
  /\ budget_seq st' = budget_seq st.
Proof.
  unfold update_set. intros Hu.
  destruct (resolve field) as [c| |]; simpl in Hu.
  - destruct (assign_where c v key (shopping_list st)) as [rows| |]; simpl in Hu;
      try discriminate Hu.
    destruct c; try (injection Hu as <-; repeat split; reflexivity).
    destruct (distinct (map id rows)); [|discriminate Hu].
    injection Hu as <-; repeat split; reflexivity.
  - discriminate Hu.
  - destruct (update_spliced_rows field v key st st' Hu)
      as (n1 & l & n2 & c1 & c2 & rows & _ & _ & _ & _ & _ & ->).
    repeat split; reflexivity.
Qed.

Lemma handle_seq (rq : request) (st st' : Store) (resp : response) :
  handle rq st = Some (st', resp) -> (shopping_seq st <= shopping_seq st')%Z.
Proof.
  intros Hh.
  assert (Hsame : forall r, Some (st, r) = Some (st', resp) ->
                    (shopping_seq st <= shopping_seq st')%Z).
  { intros r H. injection H as <- _. lia. }
  destruct rq as [raw|value|b|k|k|k field value]; simpl in Hh.
  - unfold add_item in Hh.
    destruct (ShoppingItem.validate raw) as [it|]; [|exact (Hsame _ Hh)].
    unfold insert_item in Hh.
    destruct (quantity_column _) as [q'| |]; simpl in Hh; try exact (Hsame _ Hh).
    destruct (cost_column _) as [k'| |]; simpl in Hh; try exact (Hsame _ Hh).
    injection Hh as <- _. simpl. unfold next_key. lia.
  - unfold update_budget_inline, insert_budget in Hh.
    destruct (py_float_kind _) as [b| |]; try exact (Hsame _ Hh).
    destruct (negb (Qle_bool 0 b)); [exact (Hsame _ Hh)|].
    destruct (Qle_bool 0 b); [|exact (Hsame _ Hh)].
    injection Hh as <- _. simpl. lia.
  - unfold update_budget, insert_budget in Hh.
    destruct (negb (Qle_bool 0 b)); [exact (Hsame _ Hh)|].
    destruct (Qle_bool 0 b); [|exact (Hsame _ Hh)].
    injection Hh as <- _. simpl. lia.
  - injection Hh as <- _. simpl. lia.
  - injection Hh as <- _. simpl. lia.
  - unfold update_field in Hh.
    destruct (validate_field field value) as [msg|v]; [exact (Hsame _ Hh)|].
    destruct (update_set field v k st) as [s1| |] eqn:E;
      try exact (Hsame _ Hh); try discriminate Hh.
    injection Hh as <- _. destruct (update_set_seq _ _ _ _ _ E) as (-> & _). lia.
Qed.

Lemma follows_seq (st st' : Store) :
  follows st st' -> (shopping_seq st <= shopping_seq st')%Z.
Proof.
  induction 1 as [|st1 rq st2 resp _ IH Hh|st1 rq rows _ IH _ _ _].
  - lia.
  - pose proof (handle_seq rq st1 st2 resp Hh). lia.
  - exact IH.
Qed.

(** X4.  The keys of the items are never handed out again.  No request
    lowers the counter of the keys, whatever its field splices into the
    statement, and an item added after any sequence of requests, removals
    among them, gets a key above the counter as it stood before them, so
    above every key add_item had handed out till then.  The quantity and
    the next key are taken to be 64-bit integers. *)
Theorem X4_keys_not_reused (st st' : Store) (raw : ShoppingItem.t)
    (Hlater : follows st st')
    (Hq : (0 <= ShoppingItem.quantity raw < 2 ^ 63)%Z)
    (Hc : 0 <= ShoppingItem.cost raw)
    (Hk : (top_key st' < 2 ^ 63 - 1)%Z) :
  (shopping_seq st <= shopping_seq st')%Z
  /\ exists r,
       shopping_list (fst (add_item raw st')) = shopping_list st' ++ [r]
       /\ (shopping_seq st < id r)%Z
       /\ shopping_seq (fst (add_item raw st')) = id r.
Proof.
  pose proof (follows_seq st st' Hlater) as Hs.
  split; [exact Hs|]. destruct Hq as [Hq _].
  rewrite (add_item_valid raw st' Hq Hc). simpl.
  eexists. split; [reflexivity|]. simpl. split; [|reflexivity].
  unfold next_key. lia.
Qed.

Lemma X4_keys_not_reused_witness :
  exists r,
    shopping_list (fst (add_item
      {| ShoppingItem.category := "Paint"; ShoppingItem.item := "Primer";
         ShoppingItem.quantity := 2; ShoppingItem.cost := 15;
         ShoppingItem.notes := None; ShoppingItem.store := "Lowe's" |}
      (fst (remove_item 29 started))))
    = shopping_list (fst (remove_item 29 started)) ++ [r]
    /\ (29 < id r)%Z.
Proof.
  destruct (X4_keys_not_reused started (fst (remove_item 29 started))
    {| ShoppingItem.category := "Paint"; ShoppingItem.item := "Primer";
       ShoppingItem.quantity := 2; ShoppingItem.cost := 15;
       ShoppingItem.notes := None; ShoppingItem.store := "Lowe's" |})
    as (_ & r & Hl & Hk & _).
  - apply (follows_request started started (RemoveItem 29) _
             (snd (remove_item 29 started)) (follows_here started)).
    reflexivity.
  - simpl. lia.
  - simpl. discriminate.
  - vm_compute. reflexivity.
  - exists r. split; [exact Hl|].
    assert (E : shopping_seq started = 29%Z) by (vm_compute; reflexivity).
    rewrite <- E. exact Hk.
Defined.

(** ** The budget log under every request *)

Lemma insert_budget_ok (a : Q) (st st' : Store) :
  insert_budget a st = Ok st' ->
  0 <= a
  /\ (exists key, budget st' = budget st ++ [{| budget_id := key; amount := a |}]
                  /\ forall b, In b (budget st) -> (budget_id b < key)%Z)
  /\ shopping_list st' = shopping_list st
  /\ shopping_seq st' = shopping_seq st.
Proof.
  unfold insert_budget. destruct (Qle_bool 0 a) eqn:E; [|discriminate].
  intros H. injection H as <-. simpl. split; [apply Qle_bool_iff, E|].
  split; [|split; reflexivity].
  eexists. split; [reflexivity|].
  intros b Hb. apply next_key_fresh, in_map, Hb.
Qed.

Lemma shopping_container_no_error (st : Store) (msg : string) :
  shopping_container st <> ErrorMessage msg.
Proof.
  unfold shopping_container.
  destruct (ShoppingContainer (fetch_shopping_list st)); discriminate.
Qed.

Lemma handle_budget (rq : request) (st st' : Store) (resp : response) :
  handle rq st = Some (st', resp) ->
  (budget st' = budget st /\ budget_seq st' = budget_seq st)
  \/ (sets_budget rq = true
      /\ shopping_list st' = shopping_list st
      /\ shopping_seq st' = shopping_seq st
      /\ exists a key,
           0 <= a
           /\ budget st' = budget st ++ [{| budget_id := key; amount := a |}]
           /\ forall b, In b (budget st) -> (budget_id b < key)%Z).
Proof.
  intros Hh.
  assert (Hsame : forall r, Some (st, r) = Some (st', resp) ->
                    budget st' = budget st /\ budget_seq st' = budget_seq st).
  { intros r H. injection H as <- _. split; reflexivity. }
  destruct rq as [raw|value|b|k|k|k field value]; simpl in Hh.
  - left. unfold add_item in Hh.
    destruct (ShoppingItem.validate raw) as [it|]; [|exact (Hsame _ Hh)].
    unfold insert_item in Hh.
    destruct (quantity_column _) as [q'| |]; simpl in Hh; try exact (Hsame _ Hh).
    destruct (cost_column _) as [k'| |]; simpl in Hh; try exact (Hsame _ Hh).
    injection Hh as <- _. split; reflexivity.
  - unfold update_budget_inline in Hh.
    destruct (py_float_kind _) as [b| |]; try (left; exact (Hsame _ Hh)).
    destruct (negb (Qle_bool 0 b)); [left; exact (Hsame _ Hh)|].
    destruct (insert_budget b st) as [s1| |] eqn:E;
      try (left; exact (Hsame _ Hh)).
    injection Hh as <- _. right.
    destruct (insert_budget_ok _ _ _ E) as (Ha & (key & Hb & Hk) & Hl & Hs).
    repeat split; try assumption. exists b, key. repeat split; assumption.
  - unfold update_budget in Hh.
    destruct (negb (Qle_bool 0 b)); [left; exact (Hsame _ Hh)|].
    destruct (insert_budget b st) as [s1| |] eqn:E;
      try (left; exact (Hsame _ Hh)).
    injection Hh as <- _. right.
    destruct (insert_budget_ok _ _ _ E) as (Ha & (key & Hb & Hk) & Hl & Hs).
    repeat split; try assumption. exists b, key. repeat split; assumption.
  - left. injection Hh as <- _. split; reflexivity.
  - left. injection Hh as <- _. split; reflexivity.
  - left. unfold update_field in Hh.
    destruct (validate_field field value) as [msg|v]; [exact (Hsame _ Hh)|].
    destruct (update_set field v k st) as [s1| |] eqn:E;
      try exact (Hsame _ Hh); try discriminate Hh.
    injection Hh as <- _. destruct (update_set_seq _ _ _ _ _ E) as (_ & Hb & Hs).
    split; assumption.
Qed.

(** X7.  The budget table is a log that only grows.  A request that sets
    no budget leaves it as it was; a request that sets one leaves the
    shopping list as it was and at most appends one record, whose amount
    is not negative and whose key is above the keys of the records
    before. *)
Theorem X7_budget_only_grows (rq : request) (st st' : Store) (resp : response)
    (Hh : handle rq st = Some (st', resp)) :
  (sets_budget rq = false -> budget st' = budget st /\ budget_seq st' = budget_seq st)
  /\ (sets_budget rq = true ->
      shopping_list st' = shopping_list st /\ shopping_seq st' = shopping_seq st)
  /\ (budget st' = budget st
      \/ exists a key,
           0 <= a
           /\ budget st' = budget st ++ [{| budget_id := key; amount := a |}]
           /\ forall b, In b (budget st) -> (budget_id b < key)%Z).
Proof.
  destruct (handle_budget rq st st' resp Hh)
    as [[Hb Hs]|(Hr & Hl & Hq & a & key & Ha & Hb & Hk)].
  - split; [intros _; split; assumption|]. split.
    + intros Hr. destruct rq; try discriminate Hr; simpl in Hh.
      * unfold update_budget_inline in Hh.
        destruct (py_float_kind _) as [b| |];
          try (injection Hh as <- _; split; reflexivity).
        destruct (negb (Qle_bool 0 b)); [injection Hh as <- _; split; reflexivity|].
        destruct (insert_budget b st) as [s1| |] eqn:E;
          try (injection Hh as <- _; split; reflexivity).
        injection Hh as <- _.
        destruct (insert_budget_ok _ _ _ E) as (_ & _ & Hl & Hq). split; assumption.
      * unfold update_budget in Hh.
        destruct (negb (Qle_bool 0 budget0)); [injection Hh as <- _; split; reflexivity|].
        destruct (insert_budget budget0 st) as [s1| |] eqn:E;
          try (injection Hh as <- _; split; reflexivity).
        injection Hh as <- _.
        destruct (insert_budget_ok _ _ _ E) as (_ & _ & Hl & Hq). split; assumption.
    + left. exact Hb.
  - split; [intros Hf; rewrite Hf in Hr; discriminate Hr|].
    split; [intros _; split; assumption|].
    right. exists a, key. repeat split; assumption.
Qed.

Lemma X7_budget_only_grows_witness :
  budget (fst (remove_item 6 started)) = budget started
  /\ shopping_list (fst (update_budget 500 started)) = shopping_list started.
Proof.
  split.
  - destruct (X7_budget_only_grows (RemoveItem 6) started
               (fst (remove_item 6 started)) (snd (remove_item 6 started))
               eq_refl) as (H & _).
    apply (H eq_refl).
  - destruct (X7_budget_only_grows (SetBudget 500) started
               (fst (update_budget 500 started)) (snd (update_budget 500 started))
               eq_refl) as (_ & H & _).
    apply (H eq_refl).
Defined.

Lemma strongly_sorted_snoc {A : Type} (R : A -> A -> Prop) (l : list A) (x : A) :
  StronglySorted R l -> (forall y, In y l -> R y x) -> StronglySorted R (l ++ [x]).
Proof.
  induction 1 as [|a l Hs IH Ha]; simpl; intros Hx.
  - constructor; constructor.
  - constructor.
    + apply IH. intros y Hy. apply Hx. right. exact Hy.
    + apply Forall_app. split; [exact Ha|].
      constructor; [|constructor]. apply Hx. left. reflexivity.
Qed.

Lemma last_in {A : Type} (l : list A) (a d : A) : In (last (a :: l) d) (a :: l).
Proof.
  revert a. induction l as [|b l IH]; intros a.
  - left. reflexivity.
  - right. apply (IH b).
Qed.

Lemma strongly_sorted_last {A : Type} (R : A -> A -> Prop) (l : list A) (d : A) :
  StronglySorted R l -> forall y, In y l -> y = last l d \/ R y (last l d).
Proof.
  induction 1 as [|a l Hs IH Ha]; intros y Hy.
  - elim Hy.
  - destruct l as [|b l].
    + destruct Hy as [<-|[]]. left. reflexivity.
    + change (last (a :: b :: l) d) with (last (b :: l) d).
      destruct Hy as [<-|Hy].
      * right. apply (proj1 (Forall_forall _ _) Ha), last_in.
      * apply IH, Hy.
Qed.

Lemma handle_budget_log (rq : request) (st st' : Store) (resp : response) :
  budget_log_ok (budget st) -> handle rq st = Some (st', resp) ->
  budget_log_ok (budget st').
Proof.
  intros (Hfirst & Hpos & Hsort) Hh.
  destruct (handle_budget rq st st' resp Hh)
    as [[Hb _]|(_ & _ & _ & a & key & Ha & Hb & Hk)]; rewrite Hb.
  - repeat split; assumption.
  - destruct Hfirst as (rest & Hrest). split; [|split].
    + exists (rest ++ [{| budget_id := key; amount := a |}]).
      rewrite Hrest. reflexivity.
    + apply Forall_app. split; [exact Hpos|]. constructor; [exact Ha|constructor].
    + apply strongly_sorted_snoc; [exact Hsort|]. exact Hk.
Qed.

Lemma reachable_budget_log (st : Store) : reachable st -> budget_log_ok (budget st).
Proof.
  induction 1 as [st Hs|st rq st' resp _ IH Hh|st rq rows _ IH _ _ _].
  - assert (E : started = st) by (unfold started; rewrite Hs; reflexivity).
    assert (B : budget started = [first_budget]) by (vm_compute; reflexivity).
    rewrite <- E, B.
    split; [exists []; reflexivity|]. split.
    + constructor; [discriminate|constructor].
    + constructor; constructor.
  - apply (handle_budget_log rq st st' resp IH Hh).
  - exact IH.
Qed.

(** X8.  In every state the server reaches, through requests of any
    kind, those whose field splices SQL text into the update statement
    included, the budget log begins with
    the 1000.00 of the set-up, holds no negative amount, and has its keys
    in rising order; so the current budget is the amount of the last
    record, it is not negative, and it is never the 0.0 that get_budget
    would fall back on for an empty log. *)
Theorem X8_budget_log_invariant (st : Store) (Hreach : reachable st) :
  (exists rest, budget st = first_budget :: rest)
  /\ Forall (fun b => 0 <= amount b) (budget st)
  /\ StronglySorted (fun a b => (budget_id a < budget_id b)%Z) (budget st)
  /\ get_budget st = amount (last (budget st) first_budget)
  /\ 0 <= get_budget st.
Proof.
  destruct (reachable_budget_log st Hreach) as (Hfirst & Hpos & Hsort).
  assert (Hin : In (last (budget st) first_budget) (budget st)).
  { destruct Hfirst as (rest & ->). apply last_in. }
  assert (Hg : get_budget st = amount (last (budget st) first_budget)).
  { apply get_budget_highest; [exact Hin|].
    intros r' Hr'. apply (strongly_sorted_last _ _ _ Hsort r' Hr'). }
  repeat match goal with |- _ /\ _ => split end; try assumption.
  rewrite Hg. apply (proj1 (Forall_forall _ _) Hpos _ Hin).
Qed.

Lemma X8_budget_log_invariant_witness :
  get_budget (fst (update_budget 500 started))
  = amount (last (budget (fst (update_budget 500 started))) first_budget).
Proof.
  destruct (X8_budget_log_invariant (fst (update_budget 500 started)))
    as (_ & _ & _ & H & _).
  - apply (reach_request started (SetBudget 500) _
             (snd (update_budget 500 started))).
    + apply reach_startup. exact startup_started.
    + reflexivity.
  - exact H.
Defined.

(** ** What an error fragment says about the store *)

(** X9.  An error fragment means that nothing was written, with one
    exception.  Whatever request a handler answers with an error message,
    the store is as before; unless the request is update_budget_inline
    with a valid amount while the list cannot be rendered for a
    ValueError: then the message says the amount is invalid although the
    amount was appended to the budget log. *)
Theorem X9_error_writes_nothing (rq : request) (st st' : Store) (msg : string)
    (Hh : handle rq st = Some (st', ErrorMessage msg)) :
  st' = st
  \/ exists value a,
       rq = UpdateBudgetInline value
       /\ py_float (strip (remove_dollar value)) = Some a
       /\ insert_budget a st = Ok st'
       /\ ShoppingContainer (fetch_shopping_list st') = Raise ValueError
       /\ msg = invalid_budget.
Proof.
  destruct rq as [raw|value|b|k|k|k field value]; simpl in Hh.
  - left. unfold add_item in Hh.
    destruct (ShoppingItem.validate raw) as [it|]; [|discriminate Hh].
    destruct (insert_item _ _ _ _ _ _ _ st) as [s1| |];
      try (injection Hh as <- _; reflexivity).
    destruct (ShoppingContainer (fetch_shopping_list s1)); discriminate Hh.
  - unfold update_budget_inline in Hh.
    destruct (py_float_kind _) as [b| |] eqn:Ek;
      try (left; injection Hh as <- _; reflexivity).
    assert (Ef : py_float (strip (remove_dollar value)) = Some b)
      by (unfold py_float; rewrite Ek; reflexivity).
    destruct (negb (Qle_bool 0 b)); [left; injection Hh as <- _; reflexivity|].
    destruct (insert_budget b st) as [s1| |] eqn:E;
      try (left; injection Hh as <- _; reflexivity).
    right. exists value, b.
    destruct (ShoppingContainer (fetch_shopping_list s1)) as [t|e] eqn:Er;
      [discriminate Hh|].
    destruct e; try discriminate Hh.
    injection Hh as <- <-. repeat split; try assumption; reflexivity.
  - left. unfold update_budget in Hh.
    destruct (negb (Qle_bool 0 b)); [injection Hh as <- _; reflexivity|].
    destruct (insert_budget b st) as [s1| |];
      try (injection Hh as <- _; reflexivity).
    injection Hh as _ Hr. elim (shopping_container_no_error _ _ Hr).
  - injection Hh as _ Hr. elim (shopping_container_no_error _ _ Hr).
  - injection Hh as _ Hr. elim (shopping_container_no_error _ _ Hr).
  - left. unfold update_field in Hh.
    destruct (validate_field field value) as [m|v];
      [injection Hh as <- _; reflexivity|].
    destruct (update_set field v k st) as [s1| |];
      try (injection Hh as <- _; reflexivity); try discriminate Hh.
    injection Hh as _ Hr. elim (shopping_container_no_error _ _ Hr).
Qed.

(** X10.  That exception occurs: when the list holds what ShoppingTable
    cannot format, update_budget_inline with a valid amount stores the
    amount as the current budget and answers that the amount is
    invalid. *)
Theorem X10_budget_stored_but_reported_invalid (value : string) (a : Q) (st : Store)
    (Hv : py_float (strip (remove_dollar value)) = Some a) (Ha : 0 <= a)
    (Hrender : ShoppingContainer (fetch_shopping_list st) = Raise ValueError) :
  snd (update_budget_inline value st) = ErrorMessage invalid_budget
  /\ fst (update_budget_inline value st) = fst (update_budget a st)
  /\ exists key,
       budget (fst (update_budget_inline value st))
       = budget st ++ [{| budget_id := key; amount := a |}].
Proof.
  unfold update_budget_inline, update_budget. rewrite (py_float_number _ _ Hv).
  rewrite (proj2 (Qle_bool_iff _ _) Ha). simpl negb. cbv iota.
  unfold insert_budget. rewrite (proj2 (Qle_bool_iff _ _) Ha).
  unfold fetch_shopping_list in *. simpl. rewrite Hrender.
  repeat split. eexists. reflexivity.
Qed.

Lemma X9_error_writes_nothing_witness :
  started = started
  \/ exists value a,
       SetBudget (-5) = UpdateBudgetInline value
       /\ py_float (strip (remove_dollar value)) = Some a
       /\ insert_budget a started = Ok started
       /\ ShoppingContainer (fetch_shopping_list started) = Raise ValueError
       /\ "Budget cannot be negative"%string = invalid_budget.
Proof.
  apply (X9_error_writes_nothing (SetBudget (-5)) started started
           "Budget cannot be negative").
  vm_compute. reflexivity.
Defined.

Lemma X10_budget_stored_but_reported_invalid_witness :
  snd (update_budget_inline "$500"
         (update_rows 6 (set_cost (VText "abc")) started))
  = ErrorMessage invalid_budget
  /\ get_budget (fst (update_budget_inline "$500"
         (update_rows 6 (set_cost (VText "abc")) started))) = 500.
Proof.
  destruct (X10_budget_stored_but_reported_invalid "$500" 500
              (update_rows 6 (set_cost (VText "abc")) started))
    as (Hr & Hs & _).
  - vm_compute. reflexivity.
  - discriminate.
  - vm_compute. reflexivity.
  - split; [exact Hr|]. rewrite Hs. vm_compute. reflexivity.
Defined.

(** ** Assigning a number to cost or quantity *)



(** ** The empty list *)

Lemma fetch_empty (st : Store) :
  fetch_shopping_list st = [] <-> shopping_list st = [].
Proof.
  split; intros H.
  - pose proof (group_rows_grouped (order_by list_leb (shopping_list st)))
      as (_ & _ & _ & Hp).
    unfold fetch_shopping_list in H. rewrite H in Hp. simpl in Hp.
    apply Permutation_nil in Hp.
    pose proof (fetched_rows_perm st) as Hq. rewrite Hp in Hq.
    apply Permutation_nil in Hq. exact Hq.
  - unfold fetch_shopping_list. rewrite H. reflexivity.
Qed.

Lemma shopping_table_empty (cats : categories) :
  ShoppingTable cats = Return EmptyState <-> cats = [].
Proof.
  split; intros H.
  - destruct cats as [|c cats]; [reflexivity|].
    unfold ShoppingTable in H.
    destruct (sorted entry_lt (c :: cats)) as [entries|e]; simpl in H;
      [|discriminate H].
    destruct (sections entries) as [secs|e]; simpl in H; discriminate H.
  - rewrite H. reflexivity.
Qed.

(** X12.  The "No items yet!" state is shown exactly when the list holds
    no item.  Then the home page shows it below a summary whose total
    cost is 0 and whose remaining amount is the whole budget; and
    removing the only item of a list leads to it. *)
Theorem X12_empty_state (st : Store) :
  (ShoppingContainer (fetch_shopping_list st) = Return EmptyState
   <-> shopping_list st = [])
  /\ (shopping_container st = Container EmptyState <-> shopping_list st = [])
  /\ (shopping_list st = [] ->
      home st = Return (BudgetStatus st, EmptyState)
      /\ total_cost (BudgetStatus st) = 0
      /\ remaining (BudgetStatus st) == get_budget st)
  /\ (forall r, shopping_list st = [r] ->
        snd (remove_item (id r) st) = Container EmptyState).
Proof.
  assert (H1 : ShoppingContainer (fetch_shopping_list st) = Return EmptyState
               <-> shopping_list st = []).
  { unfold ShoppingContainer. rewrite shopping_table_empty. apply fetch_empty. }
  assert (H2 : forall s, shopping_list s = [] ->
                 shopping_container s = Container EmptyState).
  { intros s Hs. unfold shopping_container, ShoppingContainer.
    rewrite (proj2 (fetch_empty s) Hs). reflexivity. }
  split; [exact H1|]. split; [|split].
  - split; [|apply H2].
    intros H. apply H1. unfold shopping_container in H.
    destruct (ShoppingContainer (fetch_shopping_list st)) as [t|e];
      [injection H as ->; reflexivity|discriminate H].
  - intros Hs. split; [|split].
    + unfold home, ShoppingContainer.
      rewrite (proj2 (fetch_empty st) Hs). reflexivity.
    + unfold BudgetStatus, get_total_cost; simpl. rewrite Hs. reflexivity.
    + unfold BudgetStatus, get_total_cost; simpl. rewrite Hs. simpl. ring.
  - intros r Hs. unfold remove_item. simpl. apply H2.
    unfold delete_where. simpl. rewrite Hs. simpl.
    rewrite Z.eqb_refl. reflexivity.
Qed.

(** ** Where a new item appears *)

Lemma permutation_filter {A : Type} (f : A -> bool) (l l' : list A) :
  Permutation l l' -> Permutation (filter f l) (filter f l').
Proof.
  induction 1 as [|x l l' _ IH|x y l|l l' l'' _ IH1 _ IH2]; simpl.
  - constructor.
  - destruct (f x); [constructor|]; exact IH.
  - destruct (f x), (f y); try constructor; apply Permutation_refl.
  - exact (Permutation_trans IH1 IH2).
Qed.

Lemma list_order_new_first (new h : Row) :
  found new = VInt 0 -> category h = category new -> (id h < id new)%Z ->
  sql_compare (VInt 0) (found h) <> Gt ->
  list_order h new = Gt.
Proof.
  intros Hf Hc Hi Hs. unfold list_order. rewrite Hf, Hc.
  rewrite (cmp_opp _ sql_compare_laws (VInt 0) (found h)).
  destruct (sql_compare (VInt 0) (found h)); simpl.
  - rewrite (cmp_refl _ string_compare_laws).
    apply Z.compare_gt_iff. exact Hi.
  - reflexivity.
  - elim Hs. reflexivity.
Qed.

(** X13.  A newly added item is the first of its category.  When no item
    of the category holds a found flag that sorts before 0 (the flags 0
    and 1 do not), the list fetched after add_item has the category of
    the new item, its sequence begins with the new item, and the rest of
    the sequence are the items the category had. *)
Theorem X13_added_item_first (raw : ShoppingItem.t) (st : Store)
    (Hq : (0 <= ShoppingItem.quantity raw)%Z) (Hc : 0 <= ShoppingItem.cost raw)
    (Hflags : forall r', In r' (shopping_list st) ->
                category r' = ShoppingItem.category raw ->
                sql_compare (VInt 0) (found r') <> Gt) :
  exists r rs,
    In (ShoppingItem.category raw, r :: rs)
       (fetch_shopping_list (fst (add_item raw st)))
    /\ shopping_list (fst (add_item raw st)) = shopping_list st ++ [r]
    /\ Permutation rs
         (filter (has_category (ShoppingItem.category raw)) (shopping_list st)).
Proof.
  set (k := ShoppingItem.category raw) in *.
  rewrite (add_item_valid raw st Hq Hc).
  set (new := {| id := next_key (shopping_seq st) (map id (shopping_list st));
                 category := ShoppingItem.category raw;
                 item := ShoppingItem.item raw;
                 quantity := VInt (ShoppingItem.quantity raw);
                 cost := VReal (round2 (ShoppingItem.cost raw));
                 notes := ShoppingItem.notes raw;
                 found := VInt 0;
                 store := ShoppingItem.store raw |}).
  set (st' := {| shopping_list := shopping_list st ++ [new];
                 shopping_seq := _; budget := _; budget_seq := _ |}).
  simpl fst.
  assert (Hnew : has_category k new = true) by apply String.eqb_refl.
  assert (Hold : forall x, In x (shopping_list st) -> (id x < id new)%Z).
  { intros x Hx. apply next_key_fresh, in_map, Hx. }
  pose proof (group_rows_grouped (order_by list_leb (shopping_list st')))
    as (_ & _ & Hkey & _).
  assert (Hsorted_in : In new (order_by list_leb (shopping_list st'))).
  { apply (Permutation_in _ (Permutation_sym (fetched_rows_perm st'))).
    simpl. apply in_or_app. right. left. reflexivity. }
  assert (Hk : In k (map fst (fetch_shopping_list st'))).
  { apply Hkey. intros E.
    assert (Hin : In new (filter (has_category k) (order_by list_leb (shopping_list st'))))
      by (apply filter_In; split; assumption).
    rewrite E in Hin. elim Hin. }
  apply in_map_iff in Hk. destruct Hk as ([k' rs0] & Ek & Hin). simpl in Ek. subst k'.
  destruct (group_member st' k rs0 Hin) as (Hne & Hrs).
  pose proof (group_sorted st' k rs0 Hin) as Hsort.
  assert (Hperm : Permutation rs0
                    (filter (has_category k) (shopping_list st) ++ [new])).
  { rewrite Hrs.
    rewrite (permutation_filter _ _ _ (fetched_rows_perm st')).
    simpl. rewrite filter_snoc, Hnew. apply Permutation_refl. }
  destruct rs0 as [|h rs]; [elim Hne; reflexivity|].
  assert (Hh : h = new).
  { assert (Hh : In h (filter (has_category k) (shopping_list st) ++ [new]))
      by (apply (Permutation_in _ Hperm); left; reflexivity).
    apply in_app_or in Hh. destruct Hh as [Hh|[Hh|[]]]; [|symmetry; exact Hh].
    apply filter_In in Hh. destruct Hh as [Hh Hcat].
    apply String.eqb_eq in Hcat.
    assert (Hn : In new (h :: rs)).
    { apply (Permutation_in _ (Permutation_sym Hperm)).
      apply in_or_app. right. left. reflexivity. }
    destruct Hn as [Hn|Hn]; [exact Hn|].
    inversion Hsort as [|? ? _ Hall]; subst.
    pose proof (proj1 (Forall_forall _ _) Hall new Hn) as Hle.
    elim Hle. apply list_order_new_first.
    - reflexivity.
    - exact Hcat.
    - apply Hold, Hh.
    - apply Hflags; assumption. }
  subst h. exists new, rs. split; [exact Hin|]. split; [reflexivity|].
  rewrite <- (app_nil_r (filter _ _)).
  apply (Permutation_cons_app_inv _ [] Hperm).
Qed.

Lemma X13_added_item_first_witness :
  exists r rs,
    In ("Paint"%string, r :: rs)
       (fetch_shopping_list (fst (add_item
          {| ShoppingItem.category := "Paint"; ShoppingItem.item := "Primer";
             ShoppingItem.quantity := 2; ShoppingItem.cost := 15;
             ShoppingItem.notes := None; ShoppingItem.store := "Lowe's" |}
          started)))
    /\ shopping_list (fst (add_item
          {| ShoppingItem.category := "Paint"; ShoppingItem.item := "Primer";
             ShoppingItem.quantity := 2; ShoppingItem.cost := 15;
             ShoppingItem.notes := None; ShoppingItem.store := "Lowe's" |}
          started))
       = shopping_list started ++ [r].
Proof.
  destruct (X13_added_item_first
    {| ShoppingItem.category := "Paint"; ShoppingItem.item := "Primer";
       ShoppingItem.quantity := 2; ShoppingItem.cost := 15;
       ShoppingItem.notes := None; ShoppingItem.store := "Lowe's" |} started)
    as (r & rs & H1 & H2 & _).
  - simpl. lia.
  - simpl. discriminate.
  - intros r' Hin _.
    assert (F : forallb (fun r => match sql_compare (VInt 0) (found r) with
                                  | Gt => false | _ => true end)
                        (shopping_list started) = true)
      by (vm_compute; reflexivity).
    pose proof (proj1 (forallb_forall _ _) F r' Hin) as Hr.
    cbv beta in Hr. intros E. rewrite E in Hr. discriminate Hr.
  - exists r, rs. exact (conj H1 H2).
Defined.

(** ** Rounding a cost to two places *)


(** ** One item for an id *)

Lemma filter_key_length (key : Z) (rows : list Row) :
  NoDup (map id rows) ->
  (List.length (filter (fun r => id r =? key)%Z rows) <= 1)%nat.
Proof.
  induction rows as [|r rows IH]; simpl; intros Hnd.
  - lia.
  - inversion Hnd as [|? ? Hr Hnd']; subst.
    destruct (id r =? key)%Z eqn:E; [|apply IH, Hnd'].
    apply Z.eqb_eq in E. simpl.
    assert (H : filter (fun r => id r =? key)%Z rows = []).
    { destruct (filter (fun r => id r =? key)%Z rows) as [|x xs] eqn:F;
        [reflexivity|].
      assert (Hx : In x (filter (fun r => id r =? key)%Z rows))
        by (rewrite F; left; reflexivity).
      apply filter_In in Hx. destruct Hx as [Hx Hk]. apply Z.eqb_eq in Hk.
      elim Hr. rewrite E, <- Hk. apply in_map, Hx. }
    rewrite H. simpl. lia.
Qed.

Lemma filter_split_length {A : Type} (f : A -> bool) (l : list A) :
  (List.length (filter f l) + List.length (filter (fun x => negb (f x)) l) = List.length l)%nat.
Proof.
  induction l as [|a l IH]; simpl; [reflexivity|].
  destruct (f a); simpl; lia.
Qed.

(** X15.  In every state the server reaches no two items share an id:
    the query of edit_form finds at most one row for an id, and
    remove_item takes at most one item off the list. *)
Theorem X15_one_item_per_id (st : Store) (Hreach : reachable st) :
  NoDup (map id (shopping_list st))
  /\ (forall item_id,
        (List.length (filter (fun r => id r =? item_id)%Z (shopping_list st)) <= 1)%nat)
  /\ (forall item_id,
        (List.length (shopping_list st)
         <= List.length (shopping_list (fst (remove_item item_id st))) + 1)%nat).
Proof.
  pose proof (reachable_keys st Hreach) as Hnd.
  split; [exact Hnd|]. split.
  - intros item_id. apply filter_key_length, Hnd.
  - intros item_id. simpl.
    pose proof (filter_key_length item_id _ Hnd).
    pose proof (filter_split_length (fun r => id r =? item_id)%Z (shopping_list st)).
    lia.
Qed.

Lemma X15_one_item_per_id_witness :
  NoDup (map id (shopping_list (fst (toggle_found 6 started)))).
Proof.
  destruct (X15_one_item_per_id (fst (toggle_found 6 started))) as (H & _).
  - apply (reach_request started (ToggleFound 6) _ (snd (toggle_found 6 started))).
    + apply reach_startup. exact startup_started.
    + reflexivity.
  - exact H.
Defined.

(** ** The edit form *)






(** ** Dollar signs in an amount *)

Lemma rstrip_blank (s : string) : rstrip s = ""%string <-> blank s = true.
Proof.
  unfold rstrip, blank. destruct s as [|c s].
  - simpl. tauto.
  - cbn [rstrip_of]. destruct (blank_of is_space (String c s)).
    + tauto.
    + split; discriminate.
Qed.

Lemma lstrip_blank_upto (n : nat) (s : string) :
  (String.length s <= n)%nat -> blank (lstrip s) = blank s.
Proof.
  unfold lstrip, blank. revert s.
  induction n as [|n IH]; intros s Hn.
  - destruct s; [reflexivity|simpl in Hn; lia].
  - destruct s as [|c1 s1]; [reflexivity|]. simpl in Hn.
    cbn [lstrip_of blank_of].
    destruct (is_space c1) eqn:E1; [apply IH; lia|].
    destruct s1 as [|c2 s2].
    + cbn [blank_of]. rewrite E1. reflexivity.
    + simpl in Hn.
      destruct (is_space2 c1 c2) eqn:E2.
      * destruct n as [|n]; [lia|].
        assert (I : (String.length s2 <= S n)%nat) by lia.
        apply (IH s2 I).
      * destruct s2 as [|c3 s3].
        -- cbn [blank_of]. rewrite E1, E2. reflexivity.
        -- simpl in Hn. destruct (is_space3 c1 c2 c3) eqn:E3.
           ++ simpl. apply IH. lia.
           ++ cbn [blank_of]. rewrite E1, E2, E3. reflexivity.
Qed.

Lemma lstrip_blank (s : string) : blank (lstrip s) = blank s.
Proof. apply (lstrip_blank_upto (String.length s)). lia. Qed.

Lemma strip_blank (s : string) : strip s = ""%string <-> blank s = true.
Proof. unfold strip. rewrite rstrip_blank, lstrip_blank. tauto. Qed.

Lemma remove_dollar_middle (a b : string) :
  remove_dollar (a ++ "$" ++ b) = remove_dollar (a ++ b).
Proof.
  induction a as [|c a IH]; simpl in *.
  - reflexivity.
  - rewrite IH. reflexivity.
Qed.

(** The dollar sign is no white space, and no byte of a white space of
    several bytes. *)
Lemma space_no_dollar (c : ascii) : is_space c = true -> Ascii.eqb c "$" = false.
Proof.
  intros H. destruct (Ascii.eqb c "$") eqn:E; [|reflexivity].
  apply Ascii.eqb_eq in E. subst c. discriminate H.
Qed.

Lemma space2_no_dollar (c1 c2 : ascii) :
  is_space2 c1 c2 = true -> Ascii.eqb c1 "$" = false /\ Ascii.eqb c2 "$" = false.
Proof.
  intros H. split.
  - destruct (Ascii.eqb c1 "$") eqn:E; [|reflexivity].
    apply Ascii.eqb_eq in E. subst c1. discriminate H.
  - destruct (Ascii.eqb c2 "$") eqn:E; [|reflexivity].
    apply Ascii.eqb_eq in E. subst c2. unfold is_space2 in H.
    rewrite andb_false_r in H. discriminate H.
Qed.

Lemma space3_no_dollar (c1 c2 c3 : ascii) :
  is_space3 c1 c2 c3 = true ->
  Ascii.eqb c1 "$" = false /\ Ascii.eqb c2 "$" = false /\ Ascii.eqb c3 "$" = false.
Proof.
  intros H. split; [|split].
  - destruct (Ascii.eqb c1 "$") eqn:E; [|reflexivity].
    apply Ascii.eqb_eq in E. subst c1. discriminate H.
  - destruct (Ascii.eqb c2 "$") eqn:E; [|reflexivity].
    apply Ascii.eqb_eq in E. subst c2. unfold is_space3 in H.
    destruct (code c1 =? 225)%Z, (code c1 =? 226)%Z, (code c1 =? 227)%Z;
      discriminate H.
  - destruct (Ascii.eqb c3 "$") eqn:E; [|reflexivity].
    apply Ascii.eqb_eq in E. subst c3. unfold is_space3 in H.
    destruct (code c1 =? 225)%Z, (code c1 =? 226)%Z, (code c1 =? 227)%Z,
      (code c2 =? 154)%Z, (code c2 =? 128)%Z, (code c2 =? 129)%Z;
      discriminate H.
Qed.

Lemma remove_dollar_blank_upto (n : nat) (s : string) :
  (String.length s <= n)%nat -> blank s = true -> remove_dollar s = s.
Proof.
  unfold blank. revert s. induction n as [|n IH]; intros s Hn.
  - destruct s; [reflexivity|simpl in Hn; lia].
  - destruct s as [|c1 s1]; [reflexivity|]. simpl in Hn.
    cbn [blank_of remove_dollar].
    destruct (is_space c1) eqn:E1.
    + intros H. rewrite (space_no_dollar c1 E1), (IH s1) by (lia || exact H).
      reflexivity.
    + destruct s1 as [|c2 s2]; [discriminate|]. simpl in Hn.
      destruct (is_space2 c1 c2) eqn:E2.
      * intros H. destruct (space2_no_dollar c1 c2 E2) as [D1 D2].
        rewrite D1. cbn [remove_dollar]. rewrite D2.
        rewrite (IH s2) by (lia || exact H). reflexivity.
      * destruct s2 as [|c3 s3]; [discriminate|]. simpl in Hn.
        intros H. apply andb_true_iff in H. destruct H as [E3 H].
        destruct (space3_no_dollar c1 c2 c3 E3) as (D1 & D2 & D3).
        rewrite D1. cbn [remove_dollar]. rewrite D2, D3.
        rewrite (IH s3) by (lia || exact H). reflexivity.
Qed.

Lemma remove_dollar_blank (s : string) : blank s = true -> remove_dollar s = s.
Proof. apply (remove_dollar_blank_upto (String.length s)). lia. Qed.

Lemma string_length_app (a b : string) :
  String.length (a ++ b) = (String.length a + String.length b)%nat.
Proof. induction a as [|c a IH]; simpl; [reflexivity|]. rewrite IH. reflexivity. Qed.

(** A text with a dollar sign in it is not blank. *)
Lemma blank_has_no_dollar (s : string) :
  blank s = true -> forall a b, s <> (a ++ "$" ++ b)%string.
Proof.
  intros H a b E. pose proof (remove_dollar_blank s H) as R.
  rewrite E, remove_dollar_middle in R.
  apply (f_equal String.length) in R.
  assert (L : forall x, (String.length (remove_dollar x) <= String.length x)%nat).
  { induction x as [|c x IHx]; simpl; [lia|].
    destruct (Ascii.eqb c "$"); simpl; lia. }
  pose proof (L (a ++ b)%string) as La.
  rewrite !string_length_app in *. simpl in *. lia.
Qed.

Lemma blank_middle (a b : string) : blank (a ++ "$" ++ b) = false.
Proof.
  destruct (blank (a ++ "$" ++ b)) eqn:E; [|reflexivity].
  elim (blank_has_no_dollar _ E a b). reflexivity.
Qed.

(** X17.  Every dollar sign of an amount is dropped before it is read,
    wherever it stands.  A budget typed with a dollar sign in it is the
    budget typed without; so is a cost, as long as something other than
    white space is left.  A cost of dollar signs and white space alone is
    answered as a wrong format, not as an empty value. *)
Theorem X17_dollar_signs (a b : string) (st : Store) :
  update_budget_inline (a ++ "$" ++ b) st = update_budget_inline (a ++ b) st
  /\ (forall item_id,
        strip (a ++ b) <> ""%string ->
        update_field item_id "cost" (a ++ "$" ++ b) st
        = update_field item_id "cost" (a ++ b) st)
  /\ (forall item_id,
        strip (a ++ b) = ""%string ->
        update_field item_id "cost" (a ++ "$" ++ b) st
        = rejects "Invalid cost format" st
        /\ update_field item_id "cost" (a ++ b) st
           = rejects "Cost cannot be empty" st).
Proof.
  assert (Hn : strip (a ++ "$" ++ b) <> ""%string).
  { intros E. apply strip_blank in E. rewrite blank_middle in E. discriminate E. }
  split; [|split].
  - unfold update_budget_inline. rewrite remove_dollar_middle. reflexivity.
  - intros item_id Hv. unfold update_field.
    rewrite (validate_field_cost _ Hn), (validate_field_cost _ Hv).
    rewrite remove_dollar_middle. reflexivity.
  - intros item_id Hv. split.
    + apply update_field_rejected.
      rewrite (validate_field_cost _ Hn), remove_dollar_middle.
      rewrite (remove_dollar_blank _ (proj1 (strip_blank _) Hv)), Hv.
      reflexivity.
    + apply update_field_rejected.
      apply (validate_field_blank "cost" (a ++ b) Hv).
Qed.

(** ** Submitting an edit again *)

Lemma assign_again (c : column) (v : value) (r r' : Row) :
  c <> Cid -> assign c v r = Ok r' -> assign c v r' = Ok r'.
Proof.
  intros Hc. destruct c; try (elim Hc; reflexivity); simpl.
  - destruct (text_not_null v) as [s| |]; simpl; try discriminate.
    intros H. injection H as <-. reflexivity.
  - destruct (text_not_null v) as [s| |]; simpl; try discriminate.
    intros H. injection H as <-. reflexivity.
  - destruct (quantity_column v) as [s| |]; simpl; try discriminate.
    intros H. injection H as <-. reflexivity.
  - destruct (cost_column v) as [s| |]; simpl; try discriminate.
    intros H. injection H as <-. reflexivity.
  - destruct (text_nullable v) as [s| |]; simpl; try discriminate.
    intros H. injection H as <-. reflexivity.
  - unfold found_column. simpl.
    intros H. injection H as <-. reflexivity.
  - destruct (text_not_null v) as [s| |]; simpl; try discriminate.
    intros H. injection H as <-. reflexivity.
Qed.

Lemma assign_where_again (c : column) (v : value) (key : Z) (rows rows' : list Row) :
  assign_where c v key rows = Ok rows' -> assign_where c v key rows' = Ok rows'.
Proof.
  revert rows'. induction rows as [|r rows IH]; simpl; intros rows' H.
  - injection H as <-. reflexivity.
  - destruct (if (id r =? key)%Z then assign c v r else Ok r) as [r'| |] eqn:Er;
      simpl in H; try discriminate H.
    destruct (assign_where c v key rows) as [rest| |]; simpl in H;
      try discriminate H.
    injection H as <-. simpl. rewrite (IH rest eq_refl). 
    assert (E : (if (id r' =? key)%Z then assign c v r' else Ok r') = Ok r').
    { destruct (id r' =? key)%Z eqn:Ek'; [|reflexivity].
      destruct (id r =? key)%Z eqn:Ek.
      - assert (D : c = Cid \/ c <> Cid)
          by (destruct c; (left; reflexivity) || (right; discriminate)).
        destruct D as [->|D]; [|apply (assign_again c v r r' D Er)].
        simpl in *. destruct (key_column v) as [n| |]; simpl in *;
          try discriminate Er.
        injection Er as <-. simpl in Ek'. apply Z.eqb_eq in Ek'. subst n.
        reflexivity.
      - injection Er as <-. rewrite Ek in Ek'. discriminate Ek'. }
    rewrite E. reflexivity.
Qed.

Lemma update_set_again (field : string) (v : value) (key : Z) (st st' : Store) :
  is_identifier field = true ->
  update_set field v key st = Ok st' -> update_set field v key st' = Ok st'.
Proof.
  unfold update_set, resolve. intros Hname. rewrite Hname.
  destruct (column_of_name field) as [c|]; simpl; try discriminate.
  destruct (assign_where c v key (shopping_list st)) as [rows| |] eqn:E; simpl;
    try discriminate.
  assert (Hw : forall s, with_rows rows st = s ->
                 assign_where c v key (shopping_list s) = Ok rows
                 /\ with_rows rows s = s).
  { intros s <-. simpl. split; [apply (assign_where_again c v key _ _ E)|reflexivity]. }
  destruct c;
    try (intros H; injection H as H; destruct (Hw _ H) as [H1 H2];
         rewrite H1; simpl; rewrite H2; reflexivity).
  destruct (distinct (map id rows)) eqn:Ed; [|discriminate].
  intros H; injection H as H; destruct (Hw _ H) as [H1 H2].
  rewrite H1; simpl. rewrite Ed, H2. reflexivity.
Qed.

(** What the validation hands on is a text, or the number of the two
    numeric fields; the column it names takes such a value or fails. *)
Lemma validated_value (field value : string) (v : Sql.value) :
  validate_field field value = inr v ->
  (exists s, v = VText s)
  \/ field = "cost"%string \/ field = "quantity"%string.
Proof.
  unfold validate_field.
  destruct (strip value =? "")%string; [discriminate|].
  destruct (field =? "quantity")%string eqn:Eq.
  - intros _. right. right. apply String.eqb_eq, Eq.
  - destruct (field =? "cost")%string eqn:Ec.
    + intros _. right. left. apply String.eqb_eq, Ec.
    + simpl. intros H. injection H as <-. left. exists value. reflexivity.
Qed.

Lemma real_to_integer_not_null (q : Q) : real_to_integer q <> VNull.
Proof. unfold real_to_integer. destruct (_ && _); discriminate. Qed.

Lemma integer_affinity_not_null (s : string) : integer_affinity (VText s) <> VNull.
Proof.
  unfold integer_affinity. destruct (sql_integer s); [discriminate|].
  destruct (sql_literal s); [apply real_to_integer_not_null|discriminate].
Qed.

Lemma assign_modelled (c : column) (v : value) (r : Row) :
  c = Ccost \/ c = Cquantity \/ (exists s, v = VText s) ->
  assign c v r <> Unmodelled.
Proof.
  assert (Hq : forall w, assign Cquantity w r <> Unmodelled).
  { intros w. unfold assign, quantity_column. destruct (_ && _); discriminate. }
  assert (Hk : forall w, assign Ccost w r <> Unmodelled).
  { intros w. unfold assign, cost_column. destruct (_ && _); discriminate. }
  intros [->|[->|(s & ->)]]; [apply Hk|apply Hq|].
  destruct c; try apply Hq; try apply Hk; try discriminate.
  unfold assign, key_column.
  pose proof (integer_affinity_not_null s) as N.
  destruct (integer_affinity (VText s)); try discriminate. elim N. reflexivity.
Qed.

Lemma assign_where_modelled (c : column) (v : value) (key : Z) (rows : list Row) :
  (forall r, assign c v r <> Unmodelled) -> assign_where c v key rows <> Unmodelled.
Proof.
  intros H. induction rows as [|r rows IH]; simpl; [discriminate|].
  destruct (id r =? key)%Z.
  - pose proof (H r) as Hr. destruct (assign c v r); simpl; try discriminate.
    + destruct (assign_where c v key rows); simpl; try discriminate. exact IH.
    + elim Hr. reflexivity.
  - simpl. destruct (assign_where c v key rows); simpl; try discriminate. exact IH.
Qed.

(** X19.  Submitting the same edit again changes nothing more, when the
    field is a bare name: update_field then answers every request, and
    the same request on the store it left gets the same answer and leaves
    that store as it is.  A field that splices an expression into the
    statement, such as [quantity = quantity + 1, item], is not covered. *)
Theorem X19_update_field_again (item_id : Z) (field value : string)
    (st : Store) (Hname : is_identifier field = true) :
  exists st' resp,
    update_field item_id field value st = Some (st', resp)
    /\ update_field item_id field value st' = Some (st', resp).
Proof.
  unfold update_field.
  destruct (validate_field field value) as [msg|v] eqn:V.
  - exists st, (ErrorMessage msg). split; reflexivity.
  - destruct (update_set field v item_id st) as [s1|e|] eqn:E.
    + exists s1, (shopping_container s1). split; [reflexivity|].
      rewrite (update_set_again _ _ _ _ _ Hname E). reflexivity.
    + exists st, (ErrorMessage "Failed to update value"). rewrite E.
      split; reflexivity.
    + exfalso. unfold update_set, resolve in E. rewrite Hname in E.
      destruct (column_of_name field) as [c|] eqn:C; simpl in E; [|discriminate E].
      assert (M : assign_where c v item_id (shopping_list st) <> Unmodelled).
      { apply assign_where_modelled. intros r. apply assign_modelled.
        destruct (validated_value field value v V) as [(s & ->)|[->| ->]].
        - right. right. exists s. reflexivity.
        - left. vm_compute in C. congruence.
        - right. left. vm_compute in C. congruence. }
      destruct (assign_where c v item_id (shopping_list st)) as [rows| |];
        simpl in E; try discriminate E; [|apply M; reflexivity].
      destruct c; try discriminate E.
      destruct (distinct (map id rows)); discriminate E.
Qed.

Lemma X19_update_field_again_witness :
  exists st' resp,
    update_field 6 "id" "99" started = Some (st', resp)
    /\ update_field 6 "id" "99" st' = Some (st', resp).
Proof.
  apply (X19_update_field_again 6 "id" "99" started).
  vm_compute. reflexivity.
Defined.

(** ** The sample data *)

Lemma max_key_snoc (ks : list Z) (k : Z) :
  max_key (ks ++ [k]) = Z.max (max_key ks) (Z.max k 0).
Proof.
  induction ks as [|a ks IH]; simpl.
  - lia.
  - rewrite IH. lia.
Qed.

Lemma max_key_nonneg (ks : list Z) : (0 <= max_key ks)%Z.
Proof. induction ks as [|a ks IH]; simpl; lia. Qed.

Lemma insert_samples (its : list sample) (st : Store) :
  forallb sample_ok its = true ->
  fold_left insert_sample its (Ok st)
  = Ok {| shopping_list := shopping_list st ++ rows_from (top_key st) its;
          shopping_seq := match its with
                          | [] => shopping_seq st
                          | _ => top_key st + Z.of_nat (List.length its)
                          end;
          budget := budget st;
          budget_seq := budget_seq st |}.
Proof.
  revert st. induction its as [|it its IH]; intros st Hok.
  - simpl. rewrite app_nil_r. destruct st; reflexivity.
  - simpl in Hok. apply andb_true_iff in Hok. destruct Hok as [Hit Hok].
    destruct it as [[[[[[c i] q] k] n] f] s].
    unfold sample_ok in Hit. apply andb_true_iff in Hit. destruct Hit as [Hq Hk].
    change (fold_left insert_sample ((c, i, q, k, n, f, s) :: its) (Ok st))
      with (fold_left insert_sample its
              (insert_item c i (VInt q) (VReal k) (Some n) (VInt f) s st)).
    unfold insert_item, quantity_column, cost_column, found_column.
    simpl integer_affinity. simpl real_affinity. simpl not_null.
    unfold check_ge0. rewrite Hq, Hk. simpl Sql.bind.
    fold (top_key st). unfold next_key. fold (top_key st).
    rewrite (IH _ Hok). f_equal.
    assert (Et : top_key
                   {| shopping_list := shopping_list st ++
                        [{| id := top_key st + 1; category := c; item := i;
                            quantity := VInt q; cost := VReal k; notes := Some n;
                            found := VInt f; store := s |}];
                      shopping_seq := top_key st + 1;
                      budget := budget st; budget_seq := budget_seq st |}
                 = (top_key st + 1)%Z).
    { unfold top_key at 1. cbn [shopping_list shopping_seq].
      rewrite map_app. cbn [map id]. rewrite max_key_snoc.
      pose proof (max_key_nonneg (map id (shopping_list st))).
      unfold top_key. lia. }
    rewrite Et. simpl.
    rewrite <- app_assoc. simpl. f_equal.
    destruct its; simpl List.length; lia.
Qed.

Lemma populate_rows (its : list sample) (st : Store) :
  forallb sample_ok its = true ->
  fold_left insert_sample its (Ok (delete_all st))
  = Ok {| shopping_list := rows_from (Z.max (shopping_seq st) 0) its;
          shopping_seq := match its with
                          | [] => shopping_seq st
                          | _ => Z.max (shopping_seq st) 0 + Z.of_nat (List.length its)
                          end;
          budget := budget st;
          budget_seq := budget_seq st |}.
Proof. intros H. rewrite (insert_samples its _ H). reflexivity. Qed.

Lemma rows_from_length (k : Z) (its : list sample) :
  List.length (rows_from k its) = List.length its.
Proof.
  revert k. induction its as [|it its IH]; intros k; simpl; [reflexivity|].
  rewrite IH. reflexivity.
Qed.

Lemma rows_from_flags (k : Z) (its : list sample) (r : Row) :
  forallb (fun it => let '(_, _, _, _, _, f, _) := it in (f =? 0)%Z) its = true ->
  In r (rows_from k its) -> found r = VInt 0 /\ (k < id r)%Z.
Proof.
  revert k. induction its as [|it its IH]; simpl; intros k F Hin.
  - elim Hin.
  - apply andb_true_iff in F. destruct F as [Hf F].
    destruct Hin as [<-|Hin].
    + destruct it as [[[[[[c i] q] k'] n] f] s]. simpl.
      apply Z.eqb_eq in Hf. subst f. split; [reflexivity|lia].
    + destruct (IH (k + 1)%Z F Hin) as [H1 H2]. split; [exact H1|lia].
Qed.

(** X18.  populate_sample_data replaces the list, whatever it held, by
    the 29 samples in their order, each with the found flag 0 and with a
    key above every key the table has handed out; the budget is left as
    it is. *)
Theorem X18_populate_sample_data (st : Store) :
  exists st',
    populate_sample_data st = Ok st'
    /\ shopping_list st' = rows_from (Z.max (shopping_seq st) 0) items
    /\ List.length (shopping_list st') = 29%nat
    /\ (forall r, In r (shopping_list st') ->
          found r = VInt 0 /\ (shopping_seq st < id r)%Z)
    /\ budget st' = budget st.
Proof.
  assert (Hok : forallb sample_ok items = true) by (vm_compute; reflexivity).
  assert (Hf : forallb (fun it => let '(_, _, _, _, _, f, _) := it in (f =? 0)%Z)
                       items = true) by (vm_compute; reflexivity).
  assert (Hl : List.length items = 29%nat) by (vm_compute; reflexivity).
  unfold populate_sample_data. rewrite (populate_rows items st Hok).
  eexists. split; [reflexivity|]. cbn [shopping_list budget].
  split; [reflexivity|]. split; [|split; [|reflexivity]].
  - rewrite rows_from_length. exact Hl.
  - intros r Hin. destruct (rows_from_flags _ _ r Hf Hin) as [H1 H2].
    split; [exact H1|lia].
Qed.

(** ** The summary after a new budget *)





(** ** A key that is taken *)

Lemma nodup_map_injective {A B : Type} (g : A -> B) (l : list A) (x y : A) :
  NoDup (map g l) -> In x l -> In y l -> g x = g y -> x = y.
Proof.
  induction l as [|a l IH]; simpl; intros Hnd Hx Hy E.
  - elim Hx.
  - inversion Hnd as [|? ? Ha Hnd']; subst.
    destruct Hx as [->|Hx], Hy as [->|Hy].
    + reflexivity.
    + elim Ha. rewrite E. apply in_map, Hy.
    + elim Ha. rewrite <- E. apply in_map, Hx.
    + apply IH; assumption.
Qed.

(** X21.  update_field does not give an item the id of another item.
    When the field names the key, an item has the given id and another
    item has the id the value denotes, the update fails on the uniqueness
    of the key: nothing is written and the answer is "Failed to update
    value". *)
Theorem X21_update_id_taken (item_id n : Z) (field value : string) (st : Store)
    (Hfield : resolve field = Ok Cid)
    (Hvalue : strip value <> ""%string)
    (Hn : integer_affinity (VText value) = VInt n)
    (Hitem : In item_id (map id (shopping_list st)))
    (Hother : In n (map id (shopping_list st)))
    (Hdiff : n <> item_id) :
  update_field item_id field value st = rejects "Failed to update value" st.
Proof.
  destruct (resolve_text_field field Cid Hfield) as [Hq Hc]; try discriminate.
  unfold update_field, rejects.
  rewrite (validate_field_text field value Hq Hc Hvalue).
  unfold update_set. rewrite Hfield. simpl.
  rewrite (assign_where_map Cid (VText value) item_id (set_column_id n))
    by (intros r; apply assign_key, Hn).
  simpl.
  destruct (distinct _) eqn:Ed; [|reflexivity].
  apply distinct_nodup in Ed. rewrite map_map in Ed.
  apply in_map_iff in Hitem. destruct Hitem as (r1 & H1 & Hin1).
  apply in_map_iff in Hother. destruct Hother as (r2 & H2 & Hin2).
  assert (E : r1 = r2).
  { apply (nodup_map_injective _ _ r1 r2 Ed Hin1 Hin2).
    rewrite H1, H2, Z.eqb_refl.
    destruct (n =? item_id)%Z eqn:En; [apply Z.eqb_eq in En; elim (Hdiff En)|].
    simpl. symmetry. exact H2. }
  subst r2. elim Hdiff. rewrite <- H2. exact H1.
Qed.

Lemma X21_update_id_taken_witness :
  update_field 6 "id" "7" started = rejects "Failed to update value" started.
Proof.
  apply (X21_update_id_taken 6 7 "id" "7" started).
  - reflexivity.
  - discriminate.
  - reflexivity.
  - vm_compute. tauto.
  - vm_compute. tauto.
  - discriminate.
Defined.

(** ** The statements above at work *)

Lemma X1_remove_item_witness :
  fst (remove_item 999 started) = started
  /\ fst (remove_item 6 (fst (remove_item 6 started))) = fst (remove_item 6 started).
Proof.
  split.
  - destruct (X1_remove_item 999 started) as (_ & _ & _ & _ & H & _).
    apply H. intros r Hin.
    assert (F : forallb (fun r => negb (id r =? 999)%Z) (shopping_list started) = true)
      by (vm_compute; reflexivity).
    apply Z.eqb_neq, negb_true_iff.
    exact (proj1 (forallb_forall _ _) F r Hin).
  - destruct (X1_remove_item 6 started) as (_ & _ & _ & _ & _ & H & _).
    exact H.
Defined.

Lemma X12_empty_state_witness :
  home setup_database = Return (BudgetStatus setup_database, EmptyState)
  /\ remaining (BudgetStatus setup_database) == 1000.
Proof.
  destruct (X12_empty_state setup_database) as (_ & _ & H & _).
  destruct (H eq_refl) as (Hh & _ & Hr).
  split; [exact Hh|]. rewrite Hr. reflexivity.
Defined.


Lemma X17_dollar_signs_witness :
  update_field 6 "cost" "1$2" started = update_field 6 "cost" "12" started
  /\ update_field 6 "cost" " $ " started = rejects "Invalid cost format" started.
Proof.
  split.
  - destruct (X17_dollar_signs "1" "2" started) as (_ & H & _).
    apply (H 6%Z). discriminate.
  - destruct (X17_dollar_signs " " " " started) as (_ & _ & H).
    destruct (H 6%Z eq_refl) as (H1 & _). exact H1.
Defined.
